(** * Bukvarix MCP server: request building, response normalisation,
      formatting and truncation

    A shallow embedding of the TypeScript sources
    - [services/api-client.ts]  (encodePercentEncoding, handleApiError,
      makeApiRequest, parseResponse),
    - [constants.ts], [schemas/keywords.ts], [schemas/domains.ts],
    - [tools/keywords.ts] and [tools/domains.ts] (the four tool handlers and
      their formatters),
    followed by the properties of the specification that are checked
    against it.

    Conventions.  A JavaScript string is the list of its UTF-16 code units.
    A JavaScript value is a JSON-shaped tree.  A number is an exact integer
    (every number the upstream API documents is a count, a frequency or a
    position), [NaN], or any other number carried with the text the engine
    prints for it.  [Int z] stands for an integer up to 2^53 in magnitude,
    which the engine holds exactly and prints digit by digit; beyond that
    [parseInt] gives the nearest double, carried with the text the engine
    prints for it (digits up to 21 of them, exponent form from 10^21 on,
    [Infinity] from 2^1024 on).  An object is the list of its own
    properties in property order, the order [Object.entries] follows.
    Properties inherited from the built-in prototypes are not modelled,
    except [length] and the index properties of arrays and strings, and
    [__proto__] where a property name is data (the header of a table
    column); none of the property names that the sources spell out
    ([keyword], [position], [broad_frequency], [exact_frequency],
    [headers], [rows]) is inherited.
    The single suspension point of a handler ([await axios(config)]) is a
    constructor of the program monad [prog], so that the request a handler
    issues can be read off the term and the upstream can be any function. *)

From Stdlib Require Import List ZArith NArith String Ascii Bool Lia.
From Stdlib Require DecimalN.
Import ListNotations.

Set Implicit Arguments.
#[local] Set Warnings "-register-all".

(* ================================================================== *)
(** ** JavaScript strings *)

Definition jsstring := list N.

(** ASCII literal: each character becomes one code unit. *)
Definition js (s : string) : jsstring :=
  map N_of_ascii (list_ascii_of_string s).

Definition LF : N := 10.
Definition CR : N := 13.
Definition TAB : N := 9.
Definition DQUOTE : N := 34.
Definition SEMICOLON : N := 59.

Fixpoint str_eqb (a b : jsstring) : bool :=
  match a, b with
  | [], [] => true
  | x :: a', y :: b' => N.eqb x y && str_eqb a' b'
  | _, _ => false
  end.

(** [s.length] *)
Definition str_length (s : jsstring) : N := N.of_nat (List.length s).

(** [s.substring(0, n)] for a non-negative integer [n] *)
Definition substring0 (n : N) (s : jsstring) : jsstring :=
  firstn (N.to_nat n) s.

(** WhiteSpace and LineTerminator code points, the set that
    [String.prototype.trim] and [parseInt] strip. *)
Definition is_js_whitespace (c : N) : bool :=
  ((9 <=? c) && (c <=? 13) || (c =? 32) || (c =? 160) || (c =? 5760)
   || (8192 <=? c) && (c <=? 8202) || (c =? 8232) || (c =? 8233)
   || (c =? 8239) || (c =? 8287) || (c =? 12288) || (c =? 65279))%N.

Fixpoint trimStart (s : jsstring) : jsstring :=
  match s with
  | c :: r => if is_js_whitespace c then trimStart r else s
  | [] => []
  end.

Fixpoint trimEnd (s : jsstring) : jsstring :=
  match s with
  | [] => []
  | c :: r =>
      match trimEnd r with
      | [] => if is_js_whitespace c then [] else [c]
      | r' => c :: r'
      end
  end.

(** [s.trim()] *)
Definition trim (s : jsstring) : jsstring := trimEnd (trimStart s).

(** [s.split(sep)] for a separator of one code unit *)
Fixpoint split (sep : N) (s : jsstring) : list jsstring :=
  match s with
  | [] => [[]]
  | c :: r =>
      if N.eqb c sep then [] :: split sep r
      else match split sep r with
           | x :: xs => (c :: x) :: xs
           | [] => [[c]]
           end
  end.

(** [parts.join(sep)] on an array of strings *)
Fixpoint join (sep : jsstring) (parts : list jsstring) : jsstring :=
  match parts with
  | [] => []
  | [p] => p
  | p :: rest => p ++ sep ++ join sep rest
  end.

(** [s.replace(re, '')] where the global pattern [re] matches a double
    quote at the very start or a double quote at the very end: both are
    removed; the second alternative is tried only on what follows the
    first match, so a string made of a single quote loses it once. *)
Definition strip_leading_quote (s : jsstring) : jsstring :=
  match s with
  | c :: r => if N.eqb c DQUOTE then r else s
  | [] => []
  end.

Fixpoint strip_trailing_quote (s : jsstring) : jsstring :=
  match s with
  | [] => []
  | [c] => if N.eqb c DQUOTE then [] else [c]
  | c :: r => c :: strip_trailing_quote r
  end.

Definition strip_quotes (s : jsstring) : jsstring :=
  strip_trailing_quote (strip_leading_quote s).

(* ------------------------------------------------------------------ *)
(** *** Decimal numerals *)

Fixpoint uint_digits (u : Decimal.uint) : jsstring :=
  match u with
  | Decimal.Nil => []
  | Decimal.D0 r => 48%N :: uint_digits r
  | Decimal.D1 r => 49%N :: uint_digits r
  | Decimal.D2 r => 50%N :: uint_digits r
  | Decimal.D3 r => 51%N :: uint_digits r
  | Decimal.D4 r => 52%N :: uint_digits r
  | Decimal.D5 r => 53%N :: uint_digits r
  | Decimal.D6 r => 54%N :: uint_digits r
  | Decimal.D7 r => 55%N :: uint_digits r
  | Decimal.D8 r => 56%N :: uint_digits r
  | Decimal.D9 r => 57%N :: uint_digits r
  end.

Definition N_toString (n : N) : jsstring := uint_digits (N.to_uint n).

Definition Z_toString (z : Z) : jsstring :=
  match z with
  | Z0 => [48%N]
  | Zpos p => N_toString (Npos p)
  | Zneg p => 45%N :: N_toString (Npos p)
  end.

Definition is_digit (c : N) : bool := ((48 <=? c) && (c <=? 57))%N.

(** Value of a run of decimal digits, most significant first. *)
Definition digits_value (ds : jsstring) : N :=
  fold_left (fun acc d => (acc * 10 + (d - 48))%N) ds 0%N.

Fixpoint take_digits (s : jsstring) : jsstring :=
  match s with
  | c :: r => if is_digit c then c :: take_digits r else []
  | [] => []
  end.

(* ================================================================== *)
(** ** JavaScript values *)

(** [Int z] is the integer [z], at most 2^53 in magnitude; [NaN] is
    not-a-number; [Other repr] is any other number (a fraction, an
    infinity, an integer beyond 2^53), which is never zero, with the text
    [String] gives it. *)
Inductive number : Type :=
| Int (z : Z)
| NaN
| Other (repr : jsstring).

Inductive value : Type :=
| VUndef
| VNull
| VBool (b : bool)
| VNum (n : number)
| VStr (s : jsstring)
| VArr (xs : list value)
| VObj (ps : list (jsstring * value)).

(** An object as the list of its own enumerable properties. *)
Definition obj := list (jsstring * value).

(** What a [throw] can carry.  [AxiosError] is the transport library's
    error class (an [Error] with an optional [response] and [code]);
    [Error_] is any other instance of [Error] ([Error], [TypeError],
    [URIError]); [NonError] is a thrown value that is not an [Error]. *)
Inductive thrown : Type :=
| AxiosError (response : option (Z * value)) (code : option jsstring)
             (message : jsstring)
| Error_ (message : jsstring)
| NonError (v : value).

(** Result of a synchronous computation.  The only exceptions synchronous
    code raises here are the engine's own [TypeError] and [URIError]:
    instances of [Error], told apart by their [message]. *)
Inductive res (A : Type) : Type :=
| Ok (a : A)
| Err (message : jsstring).
Arguments Ok {A} a.
Arguments Err {A} message.

Declare Scope res_scope.
Delimit Scope res_scope with res.
Bind Scope res_scope with res.

Definition res_bind {A B} (r : res A) (f : A -> res B) : res B :=
  match r with
  | Ok a => f a
  | Err m => Err m
  end.

Notation "x <- r ;; k" := (res_bind r (fun x => k))
  (at level 61, r at next level, right associativity) : res_scope.

(** [xs.map(f)] for a callback that may throw: the first throw aborts. *)
Fixpoint res_map {A B} (f : A -> res B) (xs : list A) : res (list B) :=
  match xs with
  | [] => Ok []
  | x :: r => (y <- f x ;; ys <- res_map f r ;; Ok (y :: ys))%res
  end.

(** [xs.map((x, i) => f(i, x))], the index starting at [i]. *)
Fixpoint res_mapi {A B} (f : nat -> A -> res B) (i : nat) (xs : list A)
  : res (list B) :=
  match xs with
  | [] => Ok []
  | x :: r => (y <- f i x ;; ys <- res_mapi f (S i) r ;; Ok (y :: ys))%res
  end.

(** Messages of the engine's own [TypeError]s, as V8 words them. *)
Definition TypeError_read (base prop : jsstring) : jsstring :=
  js "Cannot read properties of " ++ base ++ js " (reading '" ++ prop
  ++ js "')".

Definition TypeError_to_primitive : jsstring :=
  js "Cannot convert object to primitive value".

Definition TypeError_not_function (what : jsstring) : jsstring :=
  what ++ js " is not a function".

Definition URIError_malformed : jsstring := js "URI malformed".

(** ToBoolean *)
Definition truthy (v : value) : bool :=
  match v with
  | VUndef | VNull => false
  | VBool b => b
  | VNum (Int z) => negb (Z.eqb z 0)
  | VNum NaN => false
  | VNum (Other _) => true
  | VStr s => match s with [] => false | _ => true end
  | VArr _ | VObj _ => true
  end.

(** [a || b] where [b] is evaluated only when [a] is falsy *)
Definition or_else (a : value) (b : value) : value :=
  if truthy a then a else b.

Definition Number_toString (n : number) : jsstring :=
  match n with
  | Int z => Z_toString z
  | NaN => js "NaN"
  | Other repr => repr
  end.

(* ------------------------------------------------------------------ *)
(** *** Integers beyond 2^53 *)

(** Up to this magnitude every integer is a double. *)
Definition EXACT_INTEGERS : N := 9007199254740992.

(** The double nearest to the integer [n]: the 53 leading bits, rounded
    to nearest with ties to the even significand. *)
Definition to_double (n : N) : N :=
  let b := N.log2 n in
  if (b <=? 52)%N then n
  else
    let e := (b - 52)%N in
    let q := N.shiftr n e in
    let r := (n - N.shiftl q e)%N in
    let half := N.shiftl 1 (e - 1) in
    let q' :=
      if (half <? r)%N || ((r =? half)%N && N.odd q) then (q + 1)%N else q in
    N.shiftl q' e.

Definition decimal_length (n : N) : N := N.of_nat (List.length (N_toString n)).

(** The decimal with [k] significant digits that reads back as the double
    [x] of [d] digits, if there is one: the multiple of [10^(d-k)] just
    below [x] or the one just above, the closer of the two when both do,
    the even one when they are equally close. *)
Definition shortest_at (x d k : N) : option N :=
  let p := (10 ^ (d - k))%N in
  let lo := (x / p * p)%N in
  let hi := (lo + p)%N in
  match N.eqb (to_double lo) x, N.eqb (to_double hi) x with
  | true, true =>
      Some (if (x - lo <? hi - x)%N then lo
            else if (hi - x <? x - lo)%N then hi
            else if N.even (x / p) then lo else hi)
  | true, false => Some lo
  | false, true => Some hi
  | false, false => None
  end.

Fixpoint shortest_from (fuel : nat) (x d k : N) : N :=
  match fuel with
  | O => x
  | S fuel' =>
      match shortest_at x d k with
      | Some c => c
      | None => shortest_from fuel' x d (k + 1)
      end
  end.

(** The decimal with the fewest significant digits that reads back as the
    double [x]; [x] itself has [d] digits and reads back as [x], so the
    search ends at [k = d] at the latest. *)
Definition shortest_decimal (x : N) : N :=
  let d := decimal_length x in shortest_from (N.to_nat d) x d 1.

Fixpoint strip_zeros (s : jsstring) : jsstring :=
  match s with
  | [] => []
  | c :: r =>
      match strip_zeros r with
      | [] => if N.eqb c 48 then [] else [c]
      | r' => c :: r'
      end
  end.

(** [d.ddde+n]: the significant digits of [c], a point after the first
    when there are more, and the exponent. *)
Definition exponent_form (c : N) : jsstring :=
  let n := decimal_length c in
  match strip_zeros (N_toString c) with
  | [] => []
  | [d] => d :: js "e+" ++ N_toString (n - 1)
  | d :: ds => d :: 46%N :: ds ++ js "e+" ++ N_toString (n - 1)
  end.

(** [String(x)] for a positive integer double [x]: the shortest decimal
    that reads back as [x], in digits when it has at most 21 of them and
    in exponent form otherwise; [Infinity] from 2^1024 on. *)
Definition double_text (x : N) : jsstring :=
  if (2 ^ 1024 <=? x)%N then js "Infinity"
  else
    let c := shortest_decimal x in
    if (decimal_length c <=? 21)%N then N_toString c else exponent_form c.

(** The number value of the integer [n] with its sign, as [parseInt]
    returns it (the engine rounds the exact integer correctly). *)
Definition Number_of_integer (negative : bool) (n : N) : number :=
  let x := to_double n in
  if (x <=? EXACT_INTEGERS)%N
  then Int (if negative then - Z.of_N x else Z.of_N x)
  else Other ((if negative then [45%N] else []) ++ double_text x).

Fixpoint own_get (ps : obj) (k : jsstring) : option value :=
  match ps with
  | [] => None
  | (k', v) :: r => if str_eqb k' k then Some v else own_get r k
  end.

Definition has_own (ps : obj) (k : jsstring) : bool :=
  match own_get ps k with Some _ => true | None => false end.

(** ToString.  An array is joined with commas, [null] and [undefined]
    elements printing as nothing.  A plain object prints as
    [[object Object]] through [Object.prototype.toString]; data cannot hold
    a function, so an own [toString] (or [valueOf]) property leaves
    ToPrimitive without a primitive and it throws. *)
Fixpoint ToString (v : value) : res jsstring :=
  match v with
  | VUndef => Ok (js "undefined")
  | VNull => Ok (js "null")
  | VBool true => Ok (js "true")
  | VBool false => Ok (js "false")
  | VNum n => Ok (Number_toString n)
  | VStr s => Ok s
  | VArr xs =>
      (parts <- (fix elems (l : list value) : res (list jsstring) :=
                   match l with
                   | [] => Ok []
                   | x :: r =>
                       s <- match x with
                            | VUndef | VNull => Ok []
                            | _ => ToString x
                            end ;;
                       ss <- elems r ;;
                       Ok (s :: ss)
                   end) xs ;;
       Ok (join (js ",") parts))%res
  | VObj ps =>
      if has_own ps (js "toString") then Err TypeError_to_primitive
      else Ok (js "[object Object]")
  end.

(** [xs.join(sep)] on an array of arbitrary values *)
Definition array_join (sep : jsstring) (xs : list value) : res jsstring :=
  parts <- res_map (fun x => match x with
                             | VUndef | VNull => Ok []
                             | _ => ToString x
                             end) xs ;;
  Ok (join sep parts).

(** A canonical array index: decimal digits without a leading zero whose
    value is below 2^32 - 1. *)
Definition array_index (k : jsstring) : option N :=
  match k with
  | [] => None
  | c :: r =>
      if forallb is_digit k
         && (negb (N.eqb c 48) || match r with [] => true | _ => false end)
         && (List.length k <=? 10)%nat
         && (digits_value k <? 4294967295)%N
      then Some (digits_value k) else None
  end.

(** [v[k]] / [v.k] for a property key [k] already converted to a string;
    reading a property of [null] or [undefined] throws. *)
Definition get (v : value) (k : jsstring) : res value :=
  match v with
  | VUndef => Err (TypeError_read (js "undefined") k)
  | VNull => Err (TypeError_read (js "null") k)
  | VBool _ | VNum _ => Ok VUndef
  | VStr s =>
      if str_eqb k (js "length") then Ok (VNum (Int (Z.of_nat (List.length s))))
      else match array_index k with
           | Some i => match nth_error s (N.to_nat i) with
                       | Some c => Ok (VStr [c])
                       | None => Ok VUndef
                       end
           | None => Ok VUndef
           end
  | VArr xs =>
      if str_eqb k (js "length") then Ok (VNum (Int (Z.of_nat (List.length xs))))
      else match array_index k with
           | Some i => match nth_error xs (N.to_nat i) with
                       | Some x => Ok x
                       | None => Ok VUndef
                       end
           | None => Ok VUndef
           end
  | VObj ps =>
      match own_get ps k with
      | Some x => Ok x
      | None => Ok VUndef
      end
  end.

(** [v[i]] for a numeric literal [i] *)
Definition get_index (v : value) (i : N) : res value := get v (N_toString i).

Definition is_array (v : value) : bool :=
  match v with VArr _ => true | _ => false end.

(* ------------------------------------------------------------------ *)
(** *** Building objects *)

(** Position of a new own property: array indices come first in ascending
    order, other keys follow in creation order. *)
Fixpoint obj_insert (ps : obj) (k : jsstring) (v : value) : obj :=
  match ps with
  | [] => [(k, v)]
  | (k', v') :: r =>
      match array_index k, array_index k' with
      | Some i, Some i' =>
          if (i <? i')%N then (k, v) :: ps else (k', v') :: obj_insert r k v
      | Some _, None => (k, v) :: ps
      | None, _ => (k', v') :: obj_insert r k v
      end
  end.

Fixpoint obj_replace (ps : obj) (k : jsstring) (v : value) : obj :=
  match ps with
  | [] => []
  | (k', v') :: r =>
      if str_eqb k' k then (k', v) :: r else (k', v') :: obj_replace r k v
  end.

(** CreateDataProperty, as performed by an object literal and by spread:
    an existing own property keeps its place and takes the new value. *)
Definition obj_define (ps : obj) (k : jsstring) (v : value) : obj :=
  if has_own ps k then obj_replace ps k v else obj_insert ps k v.

(** [o[k] = v] for a primitive [v] on a plain object: the inherited
    [__proto__] setter ignores a primitive, every other key is defined. *)
Definition obj_assign (ps : obj) (k : jsstring) (v : value) : obj :=
  if str_eqb k (js "__proto__") && negb (has_own ps k) then ps
  else obj_define ps k v.

(** Own enumerable properties copied by [{...v}]. *)
Definition spread_entries (v : value) : obj :=
  match v with
  | VObj ps => ps
  | VArr xs =>
      combine (map (fun i => N_toString (N.of_nat i)) (seq 0 (List.length xs))) xs
  | VStr s =>
      combine (map (fun i => N_toString (N.of_nat i)) (seq 0 (List.length s)))
              (map (fun c => VStr [c]) s)
  | _ => []
  end.

Definition obj_spread (into : obj) (v : value) : obj :=
  fold_left (fun o kv => obj_define o (fst kv) (snd kv)) (spread_entries v) into.

(* ================================================================== *)
(** ** Percent-encoding *)

Definition is_alnum (c : N) : bool :=
  ((48 <=? c) && (c <=? 57) || (65 <=? c) && (c <=? 90)
   || (97 <=? c) && (c <=? 122))%N.

Definition is_high_surrogate (c : N) : bool := ((55296 <=? c) && (c <=? 56319))%N.
Definition is_low_surrogate (c : N) : bool := ((56320 <=? c) && (c <=? 57343))%N.

Definition surrogate_pair (hi lo : N) : N :=
  ((hi - 55296) * 1024 + (lo - 56320) + 65536)%N.

(** UTF-8 bytes of a code point *)
Definition utf8_bytes (cp : N) : list N :=
  (if cp <? 128 then [cp]
   else if cp <? 2048 then [192 + cp / 64; 128 + cp mod 64]
   else if cp <? 65536 then
     [224 + cp / 4096; 128 + (cp / 64) mod 64; 128 + cp mod 64]
   else
     [240 + cp / 262144; 128 + (cp / 4096) mod 64;
      128 + (cp / 64) mod 64; 128 + cp mod 64])%N.

Definition hex_digit (d : N) : N := (if d <? 10 then 48 + d else 55 + d)%N.

(** [%XX] with upper-case hexadecimal digits *)
Definition percent_byte (b : N) : jsstring :=
  [37%N; hex_digit (b / 16); hex_digit (b mod 16)].

Definition percent_bytes (bs : list N) : jsstring :=
  flat_map percent_byte bs.

(** Characters [encodeURIComponent] leaves alone: alphanumerics and
    [- _ . ! ~ * ' ( )]. *)
Definition uri_unreserved (c : N) : bool :=
  is_alnum c
  || existsb (N.eqb c) [45; 95; 46; 33; 126; 42; 39; 40; 41]%N.

(** [encodeURIComponent(text)]: throws [URIError] on an unpaired
    surrogate. *)
Fixpoint encodeURIComponent (s : jsstring) : res jsstring :=
  match s with
  | [] => Ok []
  | c :: r =>
      if uri_unreserved c then
        (rest <- encodeURIComponent r ;; Ok (c :: rest))%res
      else if is_low_surrogate c then Err URIError_malformed
      else if is_high_surrogate c then
        match r with
        | d :: r' =>
            if is_low_surrogate d then
              (rest <- encodeURIComponent r' ;;
               Ok (percent_bytes (utf8_bytes (surrogate_pair c d)) ++ rest))%res
            else Err URIError_malformed
        | [] => Err URIError_malformed
        end
      else
        (rest <- encodeURIComponent r ;;
         Ok (percent_bytes (utf8_bytes c) ++ rest))%res
  end.

(** api-client.ts, [encodePercentEncoding] *)
Definition encodePercentEncoding (text : jsstring) : res jsstring :=
  encodeURIComponent text.

(** Conversion to a sequence of scalar values (a USVString): an unpaired
    surrogate becomes U+FFFD. *)
Fixpoint scalar_values (s : jsstring) : list N :=
  match s with
  | [] => []
  | c :: r =>
      if is_low_surrogate c then 65533%N :: scalar_values r
      else if is_high_surrogate c then
        match r with
        | d :: r' =>
            if is_low_surrogate d then surrogate_pair c d :: scalar_values r'
            else 65533%N :: scalar_values r
        | [] => [65533%N]
        end
      else c :: scalar_values r
  end.

(** The application/x-www-form-urlencoded byte serialiser. *)
Definition form_byte (b : N) : jsstring :=
  if N.eqb b 32 then [43%N]
  else if is_alnum b || existsb (N.eqb b) [42; 45; 46; 95]%N then [b]
  else percent_byte b.

Definition form_encode (s : jsstring) : jsstring :=
  flat_map form_byte (flat_map utf8_bytes (scalar_values s)).

(** [new URLSearchParams()] after a sequence of [append]s is the list of
    the appended pairs; [toString()] serialises it. *)
Definition URLSearchParams_toString (pairs : list (jsstring * jsstring))
  : jsstring :=
  join [38%N] (map (fun kv => form_encode (fst kv) ++ [61%N] ++ form_encode (snd kv))
                   pairs).

(* ================================================================== *)
(** ** constants.ts *)

Definition API_BASE_URL : jsstring := js "http://api.bukvarix.com".
Definition CHARACTER_LIMIT : N := 25000.
Definition DEFAULT_NUM : Z := 250.
Definition MAX_NUM : Z := 1000000.
Definition MAX_QUERIES_FREE : nat := 100.
Definition MAX_EXCLUSIONS_FREE : nat := 250.
Definition MAX_DOMAINS_COMPARE : nat := 10.

(** The keys of [REGIONS], in declaration order. *)
Definition REGION_KEYS : list jsstring :=
  map js ["msk"; "gmsk"; "spb"; "rus"; "nsk"; "ekb"; "kzn"; "nnv"; "kry";
          "che"; "sam"; "ufa"; "rnd"; "krr"; "oms"; "vrn"; "prm"; "vlg";
          "sar"; "tmn"; "tom"; "gkiev"; "minsk"; "gminsk"; "nursul"]%string.

Inductive Format : Type := txt | json | csv | tsv.
Inductive ReportType : Type := report | word_analysis.
Inductive ComparisonType : Type := intersect | domain1_uniq | domain2_uniq.

Definition Format_str (f : Format) : jsstring :=
  match f with
  | txt => js "txt" | json => js "json" | csv => js "csv" | tsv => js "tsv"
  end.

Definition ReportType_str (r : ReportType) : jsstring :=
  match r with
  | report => js "report"
  | word_analysis => js "word_analysis"
  end.

Definition ComparisonType_str (c : ComparisonType) : jsstring :=
  match c with
  | intersect => js "intersect"
  | domain1_uniq => js "domain1_uniq"
  | domain2_uniq => js "domain2_uniq"
  end.

(* ================================================================== *)
(** ** The program monad: one suspension point per request *)

Inductive Method : Type := GET | POST.

(** The object handed to [axios]. *)
Record AxiosConfig : Type := mkConfig {
  cfg_method : Method;
  cfg_url : jsstring;
  cfg_params : option obj;
  cfg_data : option jsstring;
  cfg_headers : list (jsstring * jsstring);
  cfg_timeout : Z
}.

(** How the promise returned by [axios(config)] settles: fulfilled with a
    response whose [data] is given, or rejected. *)
Inductive settled : Type :=
| Fulfilled (data : value)
| Rejected (reason : thrown).

Inductive prog (A : Type) : Type :=
| Ret (a : A)
| Throw (t : thrown)
| Await (c : AxiosConfig) (k : settled -> prog A).
Arguments Ret {A} a.
Arguments Throw {A} t.
Arguments Await {A} c k.

Declare Scope prog_scope.
Delimit Scope prog_scope with prog.
Bind Scope prog_scope with prog.

Fixpoint bind {A B} (p : prog A) (f : A -> prog B) : prog B :=
  match p with
  | Ret a => f a
  | Throw t => Throw t
  | Await c k => Await c (fun r => bind (k r) f)
  end.

(** [try { p } catch (error) { h error }] *)
Fixpoint try_catch {A} (p : prog A) (h : thrown -> prog A) : prog A :=
  match p with
  | Ret a => Ret a
  | Throw t => h t
  | Await c k => Await c (fun r => try_catch (k r) h)
  end.

Definition lift {A} (r : res A) : prog A :=
  match r with
  | Ok a => Ret a
  | Err m => Throw (Error_ m)
  end.

(** How the promise of an [async] function settles. *)
Inductive completion (A : Type) : Type :=
| Resolves (a : A)
| Rejects (t : thrown).
Arguments Resolves {A} a.
Arguments Rejects {A} t.

(** Running a program against an upstream. *)
Fixpoint run {A} (axios : AxiosConfig -> settled) (p : prog A)
  : completion A :=
  match p with
  | Ret a => Resolves a
  | Throw t => Rejects t
  | Await c k => run axios (k (axios c))
  end.

(** The requests a program issues against an upstream, in order. *)
Fixpoint requests {A} (axios : AxiosConfig -> settled) (p : prog A)
  : list AxiosConfig :=
  match p with
  | Ret _ | Throw _ => []
  | Await c k => c :: requests axios (k (axios c))
  end.

Notation "x <- p ;; k" := (bind p (fun x => k))
  (at level 61, p at next level, right associativity) : prog_scope.

(* ================================================================== *)
(** ** services/api-client.ts *)

Section Platform.

Local Open Scope res_scope.

(** The environment variable read at start-up, if set. *)
Variable BUKVARIX_API_KEY : option jsstring.

(** [JSON.parse(text)]: [None] when it throws a [SyntaxError]. *)
Variable JSON_parse : jsstring -> option value.

(** [JSON.stringify(v, null, 2)]: [None] when the result is [undefined]. *)
Variable JSON_stringify : value -> option jsstring.

(** [process.env.BUKVARIX_API_KEY || "free"] *)
Definition API_KEY : jsstring :=
  match BUKVARIX_API_KEY with
  | Some (c :: k) => c :: k
  | Some [] | None => js "free"
  end.

Definition opt_str_eqb (o : option jsstring) (s : jsstring) : bool :=
  match o with
  | Some x => str_eqb x s
  | None => false
  end.

Definition handleApiError (error : thrown) : res jsstring :=
  let unexpected :=
    match error with
    | AxiosError _ _ message | Error_ message =>
        Ok (js "Error: Unexpected error occurred: " ++ message)
    | NonError v =>
        (s <- ToString v ;; Ok (js "Error: Unexpected error occurred: " ++ s))%res
    end in
  match error with
  | AxiosError (Some (status, data)) _ _ =>
      if Z.eqb status 400 then
        Ok (js "Error: Invalid request. "
            ++ match data with
               | VStr s => s
               | _ => js "Check your parameters."
               end)
      else if Z.eqb status 401 then
        Ok (js "Error: Authentication failed. Check your API key (BUKVARIX_API_KEY environment variable).")
      else if Z.eqb status 402 then
        Ok (js "Error: Limit exceeded. Free API limits: max 100 queries, 250 exclusions, 10 domains for comparison. Try reducing the 'num' parameter or use filters.")
      else if Z.eqb status 429 then
        Ok (js "Error: Rate limit exceeded. Please wait before making more requests.")
      else if Z.eqb status 500 then
        Ok (js "Error: Internal server error. Please contact Bukvarix support.")
      else if Z.eqb status 503 then
        Ok (js "Error: Server maintenance in progress. Please try again later.")
      else
        Ok (js "Error: API request failed with status " ++ Z_toString status
            ++ js ". "
            ++ match data with
               | VStr s => s
               | _ => []
               end)
  | AxiosError None code _ =>
      if opt_str_eqb code (js "ECONNABORTED") then
        Ok (js "Error: Request timed out. Please try again.")
      else if opt_str_eqb code (js "ENOTFOUND")
              || opt_str_eqb code (js "ECONNREFUSED") then
        Ok (js "Error: Cannot connect to Bukvarix API. Check your internet connection.")
      else unexpected
  | _ => unexpected
  end.

(** The text appended to the form for one entry of [data]:
    [value.join("\r\n")] for an array, [String(value)] otherwise. *)
Definition form_field (v : value) : res jsstring :=
  match v with
  | VArr xs => array_join [CR; LF] xs
  | _ => ToString v
  end.

Definition form_fields (data : obj) : res (list (jsstring * jsstring)) :=
  res_map (fun kv => (s <- form_field (snd kv) ;; Ok (fst kv, s))%res) data.

(** The [config] built before the call to [axios].  [data] and [params]
    are the optional arguments; a record is the list of its entries in the
    order [Object.entries] enumerates them. *)
Definition build_config (endpoint : jsstring) (method : Method)
    (data params : option obj) : res AxiosConfig :=
  let url := API_BASE_URL ++ endpoint in
  match method, data with
  | POST, Some d =>
      (fields <- form_fields d ;;
       Ok (mkConfig method url None
             (Some (URLSearchParams_toString
                      ((js "api_key", API_KEY) :: fields)))
             [(js "Content-Type", js "application/x-www-form-urlencoded")]
             30000))%res
  | _, _ =>
      Ok (mkConfig method url
            (Some match params with
                  | Some p =>
                      obj_define (obj_spread [] (VObj p)) (js "api_key")
                                 (VStr API_KEY)
                  | None => [(js "api_key", VStr API_KEY)]
                  end)
            None [] 30000)
  end.

Definition makeApiRequest (endpoint : jsstring) (method : Method)
    (data params : option obj) : prog value :=
  try_catch
    (config <- lift (build_config endpoint method data params) ;;
     Await config
       (fun response =>
          match response with
          | Fulfilled d => Ret d
          | Rejected error => Throw error
          end))
    (fun error =>
       (errorMessage <- lift (handleApiError error) ;;
        Throw (Error_ errorMessage))%prog).

(** [values[index]?.trim().replace(re, '') || ''], with the pattern of
    [strip_quotes]. *)
Definition cell (values : list jsstring) (index : nat) : jsstring :=
  match nth_error values index with
  | Some v => strip_quotes (trim v)
  | None => []
  end.

(** The [headers.forEach] loop that fills one row, from [index] on. *)
Fixpoint fill_row (values headers : list jsstring) (index : nat) (row : obj)
  : obj :=
  match headers with
  | [] => row
  | header :: rest =>
      fill_row values rest (S index)
        (obj_assign row (trim header) (VStr (cell values index)))
  end.

Definition nonblank (line : jsstring) : bool :=
  match trim line with [] => false | _ => true end.

Definition delimiter_of (format : Format) : N :=
  match format with csv => SEMICOLON | _ => TAB end.

Definition parseResponse (data : value) (format : Format) : res value :=
  match format with
  | json =>
      match data with
      | VArr _ | VObj _ => Ok data
      | VStr s =>
          match JSON_parse s with
          | Some v => Ok v
          | None => Ok (VObj [(js "raw", VStr s)])
          end
      | _ => Ok data
      end
  | _ =>
      (dataString <- match data with VStr s => Ok s | _ => ToString data end ;;
       let lines := filter nonblank (split LF dataString) in
       match format with
       | txt => Ok (VArr (map VStr lines))
       | _ =>
           let delimiter := delimiter_of format in
           let headers :=
             match lines with
             | first :: _ => split delimiter first
             | [] => []
             end in
           let rows :=
             map (fun line =>
                    VObj (fill_row (split delimiter line) headers 0 []))
                 (tl lines) in
           Ok (VObj [(js "headers", VArr (map VStr headers));
                     (js "rows", VArr rows)])
       end)%res
  end.

(* ================================================================== *)
(** ** Pieces shared by the tool handlers *)

Record ContentItem : Type := mkItem { item_type : jsstring; text : jsstring }.

(** What a handler resolves to: [{ content, structuredContent? }]. *)
Record ToolResult : Type := mkResult {
  content : list ContentItem;
  structuredContent : option value
}.

Definition text_item (s : jsstring) : ContentItem := mkItem (js "text") s.

Definition TRUNCATION_NOTICE : jsstring :=
  [LF; LF] ++ js "[Response truncated. Use 'num' parameter to limit results.]".

(** The expression every handler uses for the text it returns:
    [textContent.length > CHARACTER_LIMIT
       ? textContent.substring(0, CHARACTER_LIMIT) + notice : textContent] *)
Definition display_text (textContent : jsstring) : jsstring :=
  if (CHARACTER_LIMIT <? str_length textContent)%N
  then substring0 CHARACTER_LIMIT textContent ++ TRUNCATION_NOTICE
  else textContent.

(** [parseInt(s, 10)] *)
Definition parseInt10 (s : jsstring) : number :=
  let t := trimStart s in
  let signed :=
    match t with
    | c :: r => if N.eqb c 45 then (true, r)
                else if N.eqb c 43 then (false, r) else (false, t)
    | [] => (false, [])
    end in
  match take_digits (snd signed) with
  | [] => NaN
  | ds => Number_of_integer (fst signed) (digits_value ds)
  end.

(** The count of a count-only response:
    string -> [parseInt]; number -> itself; else [parseInt(String(r), 10)]. *)
Definition count_of (response : value) : res number :=
  match response with
  | VStr s => Ok (parseInt10 s)
  | VNum n => Ok n
  | _ => (s <- ToString response ;; Ok (parseInt10 s))%res
  end.

(** The [catch] block of every handler:
    [error instanceof Error ? error.message : String(error)]. *)
Definition error_result (error : thrown) : prog ToolResult :=
  match error with
  | AxiosError _ _ message | Error_ message =>
      Ret (mkResult [text_item message] None)
  | NonError v =>
      (s <- lift (ToString v) ;; Ret (mkResult [text_item s] None))%prog
  end.

(** [${JSON.stringify(data, null, 2)}] *)
Definition stringify_text (data : value) : jsstring :=
  match JSON_stringify data with
  | Some s => s
  | None => js "undefined"
  end.

(** [a || (next)] with the right operand evaluated on demand. *)
Definition or_get (a : value) (next : res value) : res value :=
  if truthy a then Ok a else next.

Definition as_array (what : jsstring) (v : value) : res (list value) :=
  match v with
  | VArr xs => Ok xs
  | _ => Err (TypeError_not_function what)
  end.

(** [Object.prototype] as the value of a cell: an object without
    enumerable properties, truthy, which [join] prints as
    [[object Object]]. *)
Definition Object_prototype : value := VObj [].

(** [row[h]] where the key is data.  The rows are the objects the row
    loop of [parseResponse] builds: by assignment such a row owns the
    property of every header that is the name of a member of
    [Object.prototype], except the accessor [__proto__], whose setter
    ignores a string.  So a column named [__proto__] is the one case where
    the read reaches an inherited member: it answers with
    [Object.prototype] unless the object owns a property of that name. *)
Definition get_keyed (row : value) (k : jsstring) : res value :=
  match row with
  | VObj ps =>
      if str_eqb k (js "__proto__") && negb (has_own ps k)
      then Ok Object_prototype
      else get row k
  | _ => get row k
  end.

(** [row[h] || ''] *)
Definition table_cell (row h : value) : res value :=
  k <- ToString h ;;
  v <- get_keyed row k ;;
  Ok (or_else v (VStr [])).

(** The markdown table of the csv/tsv branch of the three formatters, from
    the header row on:
    [| ${headers.join(" | ")} |\n|${headers.map(() => "---").join("|")}|\n
     ${rows.map(row => '| ' + headers.map(h => row[h] || '').join(" | ")
                       + ' |').join("\n")}] *)
Definition table_markdown (headers rows : value) : res jsstring :=
  hs <- as_array (js "data.headers.join") headers ;;
  head <- array_join (js " | ") hs ;;
  let rule := join (js "|") (map (fun _ => js "---") hs) in
  rs <- as_array (js "data.rows.map") rows ;;
  lines <- res_map (fun row =>
                      (cells <- res_map (table_cell row) hs ;;
                       line <- array_join (js " | ") cells ;;
                       Ok (js "| " ++ line ++ js " |"))%res) rs ;;
  Ok (js "| " ++ head ++ js " |" ++ [LF] ++ js "|" ++ rule ++ js "|" ++ [LF]
      ++ join [LF] lines).

(** [${data.rows.length}] *)
Definition length_text (rows : value) : res jsstring :=
  n <- get rows (js "length") ;; ToString n.

(* ================================================================== *)
(** ** tools/keywords.ts *)

Record SearchKeywordsInput : Type := mkSearchKeywordsInput {
  sk_query : jsstring;
  sk_num : Z;
  sk_format : Format;
  sk_report_type : ReportType;
  sk_result_count : bool
}.

Record SearchKeywordsBatchInput : Type := mkSearchKeywordsBatchInput {
  sb_queries : list jsstring;
  sb_exclusions : option (list jsstring);
  sb_num : Z;
  sb_format : Format
}.

Definition keywords_heading (query : jsstring) : jsstring :=
  js "# Keywords Search Results: " ++ [DQUOTE] ++ query ++ [DQUOTE; LF; LF].

(** The three fallback chains of [formatKeywordsResponse]:
    [kw.keyword || kw[0] || kw],
    [kw.broad_frequency || kw[1] || "N/A"],
    [kw.exact_frequency || kw[2] || "N/A"]. *)
Definition keywords_keyword (kw : value) : res value :=
  named <- get kw (js "keyword") ;;
  or_get named (v <- get_index kw 0 ;; Ok (or_else v kw)).

Definition keywords_broad (kw : value) : res value :=
  named <- get kw (js "broad_frequency") ;;
  or_get named (v <- get_index kw 1 ;; Ok (or_else v (VStr (js "N/A")))).

Definition keywords_exact (kw : value) : res value :=
  named <- get kw (js "exact_frequency") ;;
  or_get named (v <- get_index kw 2 ;; Ok (or_else v (VStr (js "N/A")))).

(** One entry of the enumerated list:
    [${i + 1}. ${keyword} - Broad: ${broad}, Exact: ${exact}], each
    substitution evaluated and converted in turn. *)
Definition keywords_line (i : nat) (kw : value) : res jsstring :=
  keyword <- keywords_keyword kw ;;
  keyword_s <- ToString keyword ;;
  broad <- keywords_broad kw ;;
  broad_s <- ToString broad ;;
  exact <- keywords_exact kw ;;
  exact_s <- ToString exact ;;
  Ok (N_toString (N.of_nat (S i)) ++ js ". " ++ keyword_s ++ js " - Broad: "
      ++ broad_s ++ js ", Exact: " ++ exact_s).

Definition formatKeywordsResponse (data : value) (format : Format)
    (query : jsstring) : res jsstring :=
  let dump := Ok (keywords_heading query ++ stringify_text data) in
  match format with
  | json =>
      match data with
      | VArr xs =>
          lines <- res_mapi keywords_line 0 xs ;;
          Ok (keywords_heading query ++ js "Found "
              ++ N_toString (N.of_nat (List.length xs)) ++ js " keywords:"
              ++ [LF; LF] ++ join [LF] lines)
      | _ => dump
      end
  | txt =>
      match data with
      | VArr xs =>
          body <- array_join [LF] xs ;;
          Ok (keywords_heading query ++ js "Found "
              ++ N_toString (N.of_nat (List.length xs)) ++ js " keywords:"
              ++ [LF; LF] ++ body)
      | _ => s <- ToString data ;; Ok (keywords_heading query ++ s)
      end
  | csv | tsv =>
      headers <- get data (js "headers") ;;
      if truthy headers then
        rows <- get data (js "rows") ;;
        if truthy rows then
          n <- length_text rows ;;
          table <- table_markdown headers rows ;;
          Ok (keywords_heading query ++ js "Found " ++ n ++ js " keywords:"
              ++ [LF; LF] ++ table)
        else dump
      else dump
  end.

Definition searchKeywords (params : SearchKeywordsInput) : prog ToolResult :=
  try_catch
    (encodedQuery <- lift (encodePercentEncoding (sk_query params)) ;;
     let endpoint := js "/v1/keywords/" in
     response <-
       makeApiRequest endpoint GET None
         (Some [(js "q", VStr encodedQuery);
                (js "num", VNum (Int (sk_num params)));
                (js "format", VStr (Format_str (sk_format params)));
                (js "report_type",
                 VStr (ReportType_str (sk_report_type params)));
                (js "result_count",
                 VNum (Int (if sk_result_count params then 1 else 0)))]) ;;
     if sk_result_count params then
       count <- lift (count_of response) ;;
       Ret (mkResult
              [text_item (js "Total results found: " ++ Number_toString count)]
              (Some (VObj [(js "total", VNum count)])))
     else
       parsed <- lift (parseResponse response (sk_format params)) ;;
       textContent <- lift (formatKeywordsResponse parsed (sk_format params)
                              (sk_query params)) ;;
       Ret (mkResult [text_item (display_text textContent)] (Some parsed)))%prog
    error_result.

Definition searchKeywordsBatch (params : SearchKeywordsBatchInput)
  : prog ToolResult :=
  try_catch
    (let endpoint := js "/v1/mkeywords/" in
     let queriesText := join [CR; LF] (sb_queries params) in
     let exclusionsText :=
       match sb_exclusions params with
       | Some ex => join [CR; LF] ex
       | None => []
       end in
     let postData := [(js "q", VStr queriesText)] in
     let postData :=
       match exclusionsText with
       | [] => postData
       | _ => obj_assign postData (js "q2") (VStr exclusionsText)
       end in
     response <-
       makeApiRequest endpoint POST
         (Some (obj_define
                  (obj_define (obj_spread [] (VObj postData)) (js "num")
                     (VStr (Z_toString (sb_num params))))
                  (js "format") (VStr (Format_str (sb_format params)))))
         None ;;
     parsed <- lift (parseResponse response (sb_format params)) ;;
     textContent <-
       lift (formatKeywordsResponse parsed (sb_format params)
               (js "Batch search ("
                ++ N_toString (N.of_nat (List.length (sb_queries params)))
                ++ js " queries)")) ;;
     Ret (mkResult [text_item (display_text textContent)] (Some parsed)))%prog
    error_result.

(* ================================================================== *)
(** ** tools/domains.ts *)

Record GetDomainKeywordsInput : Type := mkGetDomainKeywordsInput {
  gd_domain : jsstring;
  gd_region : option jsstring;
  gd_num : Z;
  gd_format : Format;
  gd_result_count : bool
}.

Record CompareDomainsInput : Type := mkCompareDomainsInput {
  cd_domains : list jsstring;
  cd_comparison_type : ComparisonType;
  cd_region : option jsstring;
  cd_num : Z;
  cd_format : Format;
  cd_result_count : bool
}.

(** [if (params.region) { o.region = params.region; }] *)
Definition with_region (o : obj) (region : option jsstring) : obj :=
  match region with
  | Some (c :: r) => obj_assign o (js "region") (VStr (c :: r))
  | Some [] | None => o
  end.

(** [region ? " (" + region + ")" : ''] *)
Definition regionText (region : option jsstring) : jsstring :=
  match region with
  | Some (c :: r) => js " (" ++ (c :: r) ++ js ")"
  | Some [] | None => []
  end.

(** The callback passed to [data.map] by [formatDomainResponse] and, with
    the same text, by [formatComparisonResponse]:
    [keyword  = kw.keyword || kw[0] || kw;
     position = kw.position !== undefined ? kw.position : kw[5];
     broad    = kw.broad_frequency || kw[4] || "N/A";
     exact    = kw.exact_frequency || kw[5] || "N/A";] *)
Definition domain_keyword (kw : value) : res value :=
  named <- get kw (js "keyword") ;;
  or_get named (v <- get_index kw 0 ;; Ok (or_else v kw)).

Definition domain_position (kw : value) : res value :=
  named <- get kw (js "position") ;;
  match named with
  | VUndef => get_index kw 5
  | _ => Ok named
  end.

Definition domain_broad (kw : value) : res value :=
  named <- get kw (js "broad_frequency") ;;
  or_get named (v <- get_index kw 4 ;; Ok (or_else v (VStr (js "N/A")))).

Definition domain_exact (kw : value) : res value :=
  named <- get kw (js "exact_frequency") ;;
  or_get named (v <- get_index kw 5 ;; Ok (or_else v (VStr (js "N/A")))).

Definition domain_line (i : nat) (kw : value) : res jsstring :=
  keyword <- domain_keyword kw ;;
  position <- domain_position kw ;;
  broad <- domain_broad kw ;;
  exact <- domain_exact kw ;;
  keyword_s <- ToString keyword ;;
  position_s <- ToString position ;;
  broad_s <- ToString broad ;;
  exact_s <- ToString exact ;;
  Ok (N_toString (N.of_nat (S i)) ++ js ". " ++ keyword_s
      ++ js " - Position: " ++ position_s ++ js ", Broad: " ++ broad_s
      ++ js ", Exact: " ++ exact_s).

Definition comparison_line (i : nat) (kw : value) : res jsstring :=
  keyword <- domain_keyword kw ;;
  position <- domain_position kw ;;
  broad <- domain_broad kw ;;
  exact <- domain_exact kw ;;
  keyword_s <- ToString keyword ;;
  position_s <- ToString position ;;
  broad_s <- ToString broad ;;
  exact_s <- ToString exact ;;
  Ok (N_toString (N.of_nat (S i)) ++ js ". " ++ keyword_s
      ++ js " - Position: " ++ position_s ++ js ", Broad: " ++ broad_s
      ++ js ", Exact: " ++ exact_s).

Definition domain_heading (domain : jsstring) (region : option jsstring)
  : jsstring :=
  js "# Domain Keywords: " ++ domain ++ regionText region ++ [LF; LF].

Definition formatDomainResponse (data : value) (format : Format)
    (domain : jsstring) (region : option jsstring) : res jsstring :=
  let heading := domain_heading domain region in
  let dump := Ok (heading ++ stringify_text data) in
  match format with
  | json =>
      match data with
      | VArr xs =>
          lines <- res_mapi domain_line 0 xs ;;
          Ok (heading ++ js "Found "
              ++ N_toString (N.of_nat (List.length xs)) ++ js " keywords:"
              ++ [LF; LF] ++ join [LF] lines)
      | _ => dump
      end
  | txt =>
      match data with
      | VArr xs =>
          body <- array_join [LF] xs ;;
          Ok (heading ++ js "Found "
              ++ N_toString (N.of_nat (List.length xs)) ++ js " keywords:"
              ++ [LF; LF] ++ body)
      | _ => s <- ToString data ;; Ok (heading ++ s)
      end
  | csv | tsv =>
      headers <- get data (js "headers") ;;
      if truthy headers then
        rows <- get data (js "rows") ;;
        if truthy rows then
          n <- length_text rows ;;
          table <- table_markdown headers rows ;;
          Ok (heading ++ js "Found " ++ n ++ js " keywords:"
              ++ [LF; LF] ++ table)
        else dump
      else dump
  end.

Definition comparisonText (comparisonType : ComparisonType) : jsstring :=
  match comparisonType with
  | intersect => js "Common"
  | domain1_uniq => js "Unique to first"
  | domain2_uniq => js "Unique to second"
  end.

Definition comparison_heading (domains : list jsstring)
    (region : option jsstring) : jsstring :=
  js "# Domain Comparison: " ++ join (js " vs ") domains ++ regionText region
  ++ [LF; LF].

Definition formatComparisonResponse (data : value) (format : Format)
    (domains : list jsstring) (comparisonType : ComparisonType)
    (region : option jsstring) : res jsstring :=
  let heading := comparison_heading domains region in
  let dump := Ok (heading ++ stringify_text data) in
  match format with
  | json =>
      match data with
      | VArr xs =>
          lines <- res_mapi comparison_line 0 xs ;;
          Ok (heading ++ comparisonText comparisonType ++ js " keywords ("
              ++ N_toString (N.of_nat (List.length xs)) ++ js "):"
              ++ [LF; LF] ++ join [LF] lines)
      | _ => dump
      end
  | txt =>
      match data with
      | VArr xs =>
          body <- array_join [LF] xs ;;
          Ok (heading ++ comparisonText comparisonType ++ js " keywords ("
              ++ N_toString (N.of_nat (List.length xs)) ++ js "):"
              ++ [LF; LF] ++ body)
      | _ => s <- ToString data ;; Ok (heading ++ s)
      end
  | csv | tsv =>
      headers <- get data (js "headers") ;;
      if truthy headers then
        rows <- get data (js "rows") ;;
        if truthy rows then
          n <- length_text rows ;;
          table <- table_markdown headers rows ;;
          Ok (heading ++ comparisonText comparisonType ++ js " keywords ("
              ++ n ++ js "):" ++ [LF; LF] ++ table)
        else dump
      else dump
  end.

Definition getDomainKeywords (params : GetDomainKeywordsInput)
  : prog ToolResult :=
  try_catch
    (encodedDomain <- lift (encodePercentEncoding (gd_domain params)) ;;
     let endpoint := js "/v1/site/" in
     let requestParams :=
       [(js "q", VStr encodedDomain);
        (js "num", VNum (Int (gd_num params)));
        (js "format", VStr (Format_str (gd_format params)));
        (js "result_count",
         VNum (Int (if gd_result_count params then 1 else 0)))] in
     let requestParams := with_region requestParams (gd_region params) in
     response <- makeApiRequest endpoint GET None (Some requestParams) ;;
     if gd_result_count params then
       count <- lift (count_of response) ;;
       Ret (mkResult
              [text_item (js "Total keywords found for " ++ gd_domain params
                          ++ js ": " ++ Number_toString count)]
              (Some (VObj [(js "total", VNum count);
                           (js "domain", VStr (gd_domain params))])))
     else
       parsed <- lift (parseResponse response (gd_format params)) ;;
       textContent <- lift (formatDomainResponse parsed (gd_format params)
                              (gd_domain params) (gd_region params)) ;;
       Ret (mkResult [text_item (display_text textContent)] (Some parsed)))%prog
    error_result.

(** [params.domains.map(d => encodePercentEncoding(d)).join("\r\n")] *)
Definition encoded_domain_list (domains : list jsstring) : res jsstring :=
  ds <- res_map encodePercentEncoding domains ;;
  Ok (join [CR; LF] ds).

Definition isTwoDomains (domains : list jsstring) : bool :=
  Nat.eqb (List.length domains) 2.

(** [params.domains[i]] converted for [encodePercentEncoding], whose
    argument undergoes ToString. *)
Definition domain_at (domains : list jsstring) (i : nat) : jsstring :=
  match nth_error domains i with
  | Some d => d
  | None => js "undefined"
  end.

Definition compare_endpoint (domains : list jsstring) : jsstring :=
  if isTwoDomains domains then js "/v1/site_cmp/" else js "/v1/site_mcmp/".

(** The request of the count-only branch. *)
Definition compare_count_request (params : CompareDomainsInput)
  : prog value :=
  let endpoint := compare_endpoint (cd_domains params) in
  let requestParams :=
    [(js "result_count", VNum (Int 1));
     (js "format", VStr (Format_str (cd_format params)))] in
  if isTwoDomains (cd_domains params) then
    (q <- lift (encodePercentEncoding (domain_at (cd_domains params) 0)) ;;
     let requestParams := obj_assign requestParams (js "q") (VStr q) in
     q2 <- lift (encodePercentEncoding (domain_at (cd_domains params) 1)) ;;
     let requestParams := obj_assign requestParams (js "q2") (VStr q2) in
     let requestParams :=
       obj_assign requestParams (js "comparison_type")
         (VStr (ComparisonType_str (cd_comparison_type params))) in
     let requestParams := with_region requestParams (cd_region params) in
     makeApiRequest endpoint GET None (Some requestParams))%prog
  else
    (q <- lift (encoded_domain_list (cd_domains params)) ;;
     let requestParams := obj_assign requestParams (js "q") (VStr q) in
     let requestParams := with_region requestParams (cd_region params) in
     makeApiRequest endpoint POST (Some requestParams) None)%prog.

(** The request of the branch that returns data. *)
Definition compare_data_request (params : CompareDomainsInput)
  : prog value :=
  let endpoint := compare_endpoint (cd_domains params) in
  if isTwoDomains (cd_domains params) then
    (q <- lift (encodePercentEncoding (domain_at (cd_domains params) 0)) ;;
     q2 <- lift (encodePercentEncoding (domain_at (cd_domains params) 1)) ;;
     let requestParams :=
       [(js "q", VStr q);
        (js "q2", VStr q2);
        (js "num", VNum (Int (cd_num params)));
        (js "format", VStr (Format_str (cd_format params)));
        (js "comparison_type",
         VStr (ComparisonType_str (cd_comparison_type params)))] in
     let requestParams := with_region requestParams (cd_region params) in
     makeApiRequest endpoint GET None (Some requestParams))%prog
  else
    (q <- lift (encoded_domain_list (cd_domains params)) ;;
     let postData :=
       [(js "q", VStr q);
        (js "num", VStr (Z_toString (cd_num params)));
        (js "format", VStr (Format_str (cd_format params)))] in
     let postData := with_region postData (cd_region params) in
     makeApiRequest endpoint POST (Some postData) None)%prog.

Definition domains_value (domains : list jsstring) : value :=
  VArr (map VStr domains).

Definition compareDomains (params : CompareDomainsInput) : prog ToolResult :=
  try_catch
    (if cd_result_count params then
       response <- compare_count_request params ;;
       count <- lift (count_of response) ;;
       Ret (mkResult
              [text_item (js "Total keywords found: " ++ Number_toString count)]
              (Some (VObj [(js "total", VNum count);
                           (js "domains", domains_value (cd_domains params));
                           (js "comparison_type",
                            VStr (ComparisonType_str
                                    (cd_comparison_type params)))])))
     else
       response <- compare_data_request params ;;
       parsed <- lift (parseResponse response (cd_format params)) ;;
       textContent <-
         lift (formatComparisonResponse parsed (cd_format params)
                 (cd_domains params) (cd_comparison_type params)
                 (cd_region params)) ;;
       Ret (mkResult [text_item (display_text textContent)]
              (Some (VObj (obj_define
                             (obj_define (obj_spread [] parsed) (js "domains")
                                (domains_value (cd_domains params)))
                             (js "comparison_type")
                             (VStr (ComparisonType_str
                                      (cd_comparison_type params))))))))%prog
    error_result.

End Platform.

(* ================================================================== *)
(** ** schemas/keywords.ts and schemas/domains.ts

    [Schema.parse(raw)] on the arguments object the host passes; [None]
    stands for a validation error.  A missing key and a key holding
    [undefined] are the same to the validator. *)

Definition field (raw : obj) (k : jsstring) : value :=
  match own_get raw k with
  | Some v => v
  | None => VUndef
  end.

(** [.strict()]: every key of the input is a key of the schema. *)
Definition strict_keys (allowed : list jsstring) (raw : obj) : bool :=
  forallb (fun kv => existsb (str_eqb (fst kv)) allowed) raw.

(** [z.string().min(1)] *)
Definition z_nonempty_string (v : value) : option jsstring :=
  match v with
  | VStr (c :: r) => Some (c :: r)
  | _ => None
  end.

(** [z.number().int().min(1).max(MAX_NUM).default(DEFAULT_NUM)] *)
Definition z_num (v : value) : option Z :=
  match v with
  | VUndef => Some DEFAULT_NUM
  | VNum (Int z) => if (1 <=? z)%Z && (z <=? MAX_NUM)%Z then Some z else None
  | _ => None
  end.

Definition Format_of_string (s : jsstring) : option Format :=
  if str_eqb s (js "txt") then Some txt
  else if str_eqb s (js "json") then Some json
  else if str_eqb s (js "csv") then Some csv
  else if str_eqb s (js "tsv") then Some tsv
  else None.

(** [z.enum(FORMATS).default("json")] *)
Definition z_format (v : value) : option Format :=
  match v with
  | VUndef => Some json
  | VStr s => Format_of_string s
  | _ => None
  end.

(** [z.enum(REPORT_TYPES).default("report")] *)
Definition z_report_type (v : value) : option ReportType :=
  match v with
  | VUndef => Some report
  | VStr s =>
      if str_eqb s (js "report") then Some report
      else if str_eqb s (js "word_analysis") then Some word_analysis
      else None
  | _ => None
  end.

(** [z.enum(COMPARISON_TYPES).default("intersect")] *)
Definition z_comparison_type (v : value) : option ComparisonType :=
  match v with
  | VUndef => Some intersect
  | VStr s =>
      if str_eqb s (js "intersect") then Some intersect
      else if str_eqb s (js "domain1_uniq") then Some domain1_uniq
      else if str_eqb s (js "domain2_uniq") then Some domain2_uniq
      else None
  | _ => None
  end.

(** [z.boolean().default(false)] *)
Definition z_bool (v : value) : option bool :=
  match v with
  | VUndef => Some false
  | VBool b => Some b
  | _ => None
  end.

(** [RegionEnum.optional()]: the outer option is validity, the inner one
    presence. *)
Definition z_region (v : value) : option (option jsstring) :=
  match v with
  | VUndef => Some None
  | VStr s => if existsb (str_eqb s) REGION_KEYS then Some (Some s) else None
  | _ => None
  end.

(** A character of the class of the domain pattern (Latin letters, digits,
    Cyrillic letters, dot, hyphen): the Cyrillic ranges
    are U+0430..U+044F and U+0410..U+042F, with U+0451 and U+0401. *)
Definition domain_char (c : N) : bool :=
  (is_alnum c
   || (1072 <=? c) && (c <=? 1103) || (c =? 1105)
   || (1040 <=? c) && (c <=? 1071) || (c =? 1025)
   || (c =? 46) || (c =? 45))%N.

(** [z.string().min(1).regex(...)] with the domain pattern: one or more
    characters of the class, anchored at both ends. *)
Definition z_domain (v : value) : option jsstring :=
  match v with
  | VStr (c :: r) => if forallb domain_char (c :: r) then Some (c :: r) else None
  | _ => None
  end.

Fixpoint option_map_all {A B} (f : A -> option B) (xs : list A)
  : option (list B) :=
  match xs with
  | [] => Some []
  | x :: r =>
      match f x, option_map_all f r with
      | Some y, Some ys => Some (y :: ys)
      | _, _ => None
      end
  end.

(** [z.array(item).min(lo).max(hi)] *)
Definition z_array {B} (item : value -> option B) (lo hi : nat) (v : value)
  : option (list B) :=
  match v with
  | VArr xs =>
      if (lo <=? List.length xs)%nat && (List.length xs <=? hi)%nat
      then option_map_all item xs else None
  | _ => None
  end.

Definition SearchKeywordsSchema (raw : value) : option SearchKeywordsInput :=
  match raw with
  | VObj o =>
      if strict_keys (map js ["query"; "num"; "format"; "report_type";
                              "result_count"]%string) o
      then
        match z_nonempty_string (field o (js "query")),
              z_num (field o (js "num")),
              z_format (field o (js "format")),
              z_report_type (field o (js "report_type")),
              z_bool (field o (js "result_count")) with
        | Some q, Some n, Some f, Some r, Some c =>
            Some (mkSearchKeywordsInput q n f r c)
        | _, _, _, _, _ => None
        end
      else None
  | _ => None
  end.

Definition SearchKeywordsBatchSchema (raw : value)
  : option SearchKeywordsBatchInput :=
  match raw with
  | VObj o =>
      if strict_keys (map js ["queries"; "exclusions"; "num"; "format"]%string) o
      then
        match z_array z_nonempty_string 1 MAX_QUERIES_FREE
                (field o (js "queries")),
              match field o (js "exclusions") with
              | VUndef => Some None
              | e => option_map Some
                       (z_array z_nonempty_string 0 MAX_EXCLUSIONS_FREE e)
              end,
              z_num (field o (js "num")),
              z_format (field o (js "format")) with
        | Some qs, Some ex, Some n, Some f =>
            Some (mkSearchKeywordsBatchInput qs ex n f)
        | _, _, _, _ => None
        end
      else None
  | _ => None
  end.

Definition GetDomainKeywordsSchema (raw : value)
  : option GetDomainKeywordsInput :=
  match raw with
  | VObj o =>
      if strict_keys (map js ["domain"; "region"; "num"; "format";
                              "result_count"]%string) o
      then
        match z_domain (field o (js "domain")),
              z_region (field o (js "region")),
              z_num (field o (js "num")),
              z_format (field o (js "format")),
              z_bool (field o (js "result_count")) with
        | Some d, Some r, Some n, Some f, Some c =>
            Some (mkGetDomainKeywordsInput d r n f c)
        | _, _, _, _, _ => None
        end
      else None
  | _ => None
  end.

Definition CompareDomainsSchema (raw : value) : option CompareDomainsInput :=
  match raw with
  | VObj o =>
      if strict_keys (map js ["domains"; "comparison_type"; "region"; "num";
                              "format"; "result_count"]%string) o
      then
        match z_array z_domain 2 MAX_DOMAINS_COMPARE (field o (js "domains")),
              z_comparison_type (field o (js "comparison_type")),
              z_region (field o (js "region")),
              z_num (field o (js "num")),
              z_format (field o (js "format")),
              z_bool (field o (js "result_count")) with
        | Some ds, Some c, Some r, Some n, Some f, Some rc =>
            Some (mkCompareDomainsInput ds c r n f rc)
        | _, _, _, _, _, _ => None
        end
      else None
  | _ => None
  end.

(** index.ts: each registered tool validates its arguments with the schema
    and calls the handler. *)
Inductive Tool : Type :=
| bukvarix_search_keywords
| bukvarix_search_keywords_batch
| bukvarix_get_domain_keywords
| bukvarix_compare_domains.

Inductive Invocation : Type :=
| SearchKeywords (params : SearchKeywordsInput)
| SearchKeywordsBatch (params : SearchKeywordsBatchInput)
| GetDomainKeywords (params : GetDomainKeywordsInput)
| CompareDomains (params : CompareDomainsInput).

Definition validate (tool : Tool) (raw : value) : option Invocation :=
  match tool with
  | bukvarix_search_keywords => option_map SearchKeywords (SearchKeywordsSchema raw)
  | bukvarix_search_keywords_batch =>
      option_map SearchKeywordsBatch (SearchKeywordsBatchSchema raw)
  | bukvarix_get_domain_keywords =>
      option_map GetDomainKeywords (GetDomainKeywordsSchema raw)
  | bukvarix_compare_domains => option_map CompareDomains (CompareDomainsSchema raw)
  end.

Section Dispatch.

Variable BUKVARIX_API_KEY : option jsstring.
Variable JSON_parse : jsstring -> option value.
Variable JSON_stringify : value -> option jsstring.

(** The callback registered for each tool: [async (params) => await
    handler(params)]. *)
Definition handle (call : Invocation) : prog ToolResult :=
  match call with
  | SearchKeywords params =>
      searchKeywords BUKVARIX_API_KEY JSON_parse JSON_stringify params
  | SearchKeywordsBatch params =>
      searchKeywordsBatch BUKVARIX_API_KEY JSON_parse JSON_stringify params
  | GetDomainKeywords params =>
      getDomainKeywords BUKVARIX_API_KEY JSON_parse JSON_stringify params
  | CompareDomains params =>
      compareDomains BUKVARIX_API_KEY JSON_parse JSON_stringify params
  end.

(** The pipeline every handler follows once the upstream has answered,
    written once for the four of them: a count-only call parses the body as
    an integer; any other call normalises, formats and truncates. *)
Definition count_only (call : Invocation) : bool :=
  match call with
  | SearchKeywords params => sk_result_count params
  | SearchKeywordsBatch _ => false
  | GetDomainKeywords params => gd_result_count params
  | CompareDomains params => cd_result_count params
  end.

Definition format_of (call : Invocation) : Format :=
  match call with
  | SearchKeywords params => sk_format params
  | SearchKeywordsBatch params => sb_format params
  | GetDomainKeywords params => gd_format params
  | CompareDomains params => cd_format params
  end.

(** The formatter of the operation, with the context its handler passes. *)
Definition rendered (call : Invocation) (parsed : value) : res jsstring :=
  match call with
  | SearchKeywords params =>
      formatKeywordsResponse JSON_stringify parsed (sk_format params)
        (sk_query params)
  | SearchKeywordsBatch params =>
      formatKeywordsResponse JSON_stringify parsed (sb_format params)
        (js "Batch search ("
         ++ N_toString (N.of_nat (List.length (sb_queries params)))
         ++ js " queries)")
  | GetDomainKeywords params =>
      formatDomainResponse JSON_stringify parsed (gd_format params)
        (gd_domain params) (gd_region params)
  | CompareDomains params =>
      formatComparisonResponse JSON_stringify parsed (cd_format params)
        (cd_domains params) (cd_comparison_type params) (cd_region params)
  end.

(** [structuredContent] of a call that returns data. *)
Definition payload (call : Invocation) (parsed : value) : value :=
  match call with
  | CompareDomains params =>
      VObj (obj_define
              (obj_define (obj_spread [] parsed) (js "domains")
                 (domains_value (cd_domains params)))
              (js "comparison_type")
              (VStr (ComparisonType_str (cd_comparison_type params))))
  | _ => parsed
  end.

(** The result of a count-only call. *)
Definition count_result (call : Invocation) (count : number) : ToolResult :=
  match call with
  | SearchKeywords _ | SearchKeywordsBatch _ =>
      mkResult [text_item (js "Total results found: " ++ Number_toString count)]
        (Some (VObj [(js "total", VNum count)]))
  | GetDomainKeywords params =>
      mkResult
        [text_item (js "Total keywords found for " ++ gd_domain params
                    ++ js ": " ++ Number_toString count)]
        (Some (VObj [(js "total", VNum count);
                     (js "domain", VStr (gd_domain params))]))
  | CompareDomains params =>
      mkResult
        [text_item (js "Total keywords found: " ++ Number_toString count)]
        (Some (VObj [(js "total", VNum count);
                     (js "domains", domains_value (cd_domains params));
                     (js "comparison_type",
                      VStr (ComparisonType_str (cd_comparison_type params)))]))
  end.

Definition after_response (call : Invocation) (response : value)
  : prog ToolResult :=
  if count_only call then
    (count <- lift (count_of response) ;; Ret (count_result call count))%prog
  else
    (parsed <- lift (parseResponse JSON_parse response (format_of call)) ;;
     textContent <- lift (rendered call parsed) ;;
     Ret (mkResult [text_item (display_text textContent)]
            (Some (payload call parsed))))%prog.

(** The text a failed request ends up as: the message [handleApiError]
    returns, or the message of the [TypeError] it raises itself. *)
Definition classified (error : thrown) : jsstring :=
  match handleApiError error with
  | Ok message => message
  | Err message => message
  end.

End Dispatch.

(** The request a program starts with, if it issues one. *)
Definition first_request {A} (p : prog A) : option AxiosConfig :=
  match p with
  | Await c _ => Some c
  | _ => None
  end.

(** The single text of a result. *)
Definition result_text (r : ToolResult) : jsstring :=
  match content r with
  | [item] => text item
  | _ => []
  end.

Arguments display_text textContent : simpl never.

(* ================================================================== *)
(** ** Notions used in the statements *)

Definition is_comparison (call : Invocation) : bool :=
  match call with
  | CompareDomains _ => true
  | _ => false
  end.

(** The query of the scenario, U+043E U+043A U+043D U+0430, and the
    keyword of its answer (the same word, a space, and an eleven-letter
    adjective). *)
Definition okna : jsstring := [1086; 1082; 1085; 1072]%N.

Definition okna_plastikovye : jsstring :=
  okna ++ [32; 1087; 1083; 1072; 1089; 1090; 1080; 1082; 1086; 1074; 1099;
           1077]%N.

(** The decoded body [[[keyword, 2, 17, 1200, 300]]]. *)
Definition example_rows : value :=
  VArr [VArr [VStr okna_plastikovye; VNum (Int 2); VNum (Int 17);
              VNum (Int 1200); VNum (Int 300)]].

(** The same body as text. *)
Definition example_body : jsstring :=
  js "[[" ++ [DQUOTE] ++ okna_plastikovye ++ [DQUOTE] ++ js ",2,17,1200,300]]".

(** Stand-ins for the two built-ins in closed examples: a parser that
    knows the body above and nothing else, and a printer that is never
    reached by them. *)
Definition example_JSON_parse (s : jsstring) : option value :=
  if str_eqb s example_body then Some example_rows else None.

Definition example_JSON_stringify (v : value) : option jsstring :=
  match v with
  | VUndef => None
  | _ => Some (js "{}")
  end.

Definition example_handle : Invocation -> prog ToolResult :=
  handle None example_JSON_parse example_JSON_stringify.

(** The arguments [{ query }] of the scenario, before validation. *)
Definition example_arguments : value := VObj [(js "query", VStr okna)].

Definition example_params : SearchKeywordsInput :=
  mkSearchKeywordsInput okna 250 json report false.

(** The request of the scenario: the five query parameters the handler
    passes, and the credential [makeApiRequest] merges in. *)
Definition scenario_config (key : jsstring) : AxiosConfig :=
  mkConfig GET (js "http://api.bukvarix.com/v1/keywords/")
    (Some [(js "q", VStr (js "%D0%BE%D0%BA%D0%BD%D0%B0"));
           (js "num", VNum (Int 250));
           (js "format", VStr (js "json"));
           (js "report_type", VStr (js "report"));
           (js "result_count", VNum (Int 0));
           (js "api_key", VStr key)])
    None [] 30000.

Definition example_config : AxiosConfig := scenario_config (js "free").

(** The text the keyword formatter produces for [example_rows]. *)
Definition example_text : jsstring :=
  js "# Keywords Search Results: " ++ [DQUOTE] ++ okna ++ [DQUOTE; LF; LF]
  ++ js "Found 1 keywords:" ++ [LF; LF]
  ++ js "1. " ++ okna_plastikovye ++ js " - Broad: 2, Exact: 17".

(** The text the specification expects for the same rows: the frequencies
    of the documented layout, indices 3 and 4. *)
Definition expected_text : jsstring :=
  js "# Keywords Search Results: " ++ [DQUOTE] ++ okna ++ [DQUOTE; LF; LF]
  ++ js "Found 1 keywords:" ++ [LF; LF]
  ++ js "1. " ++ okna_plastikovye ++ js " - Broad: 1200, Exact: 300".

(** A plain-text answer of one line, 30,000 letters long. *)
Definition long_answer : value := VStr (repeat 97%N (N.to_nat 30000)).

Definition long_call : Invocation :=
  SearchKeywords (mkSearchKeywordsInput (js "a") 250 txt report false).

(** The text of a resolved result. *)
Definition resolved_text (r : completion ToolResult) : option jsstring :=
  match r with
  | Resolves x => Some (result_text x)
  | Rejects _ => None
  end.

(** The structured payload of a resolved result. *)
Definition resolved_payload (r : completion ToolResult) : option value :=
  match r with
  | Resolves x => structuredContent x
  | Rejects _ => None
  end.

(** The position of the layout
    [[keyword, wordCount, charCount, searchResultsCount, broadFrequency,
      exactFrequency, position]], as the specification words it. *)
Definition layout_position (kw : value) : res value := get_index kw 6.

Definition positional_row (tail : list value) : value :=
  VArr ([VStr (js "kw"); VNum (Int 2); VNum (Int 17); VNum (Int 1000);
         VNum (Int 1200); VNum (Int 300); VNum (Int 7)] ++ tail).

(** The values the signature of [makeApiRequest] allows in [data]:
    [string | number | boolean | string[]]. *)
Definition is_string (v : value) : bool :=
  match v with VStr _ => true | _ => false end.

Definition is_form_value (v : value) : bool :=
  match v with
  | VStr _ | VNum _ | VBool _ => true
  | VArr xs => forallb is_string xs
  | _ => false
  end.

Definition string_of (v : value) : jsstring :=
  match v with VStr s => s | _ => [] end.

(** The text of such a value in the form: a list joined by CR LF, a scalar
    as [String] prints it. *)
Definition form_text (v : value) : jsstring :=
  match v with
  | VStr s => s
  | VNum n => Number_toString n
  | VBool true => js "true"
  | VBool false => js "false"
  | VArr xs => join [CR; LF] (map string_of xs)
  | _ => []
  end.

(** One [&name=value] of the encoded body. *)
Definition form_pair (kv : jsstring * value) : jsstring :=
  js "&" ++ form_encode (fst kv) ++ js "=" ++ form_encode (form_text (snd kv)).

Definition table (headers : list jsstring) (rows : list obj) : value :=
  VObj [(js "headers", VArr (map VStr headers));
        (js "rows", VArr (map VObj rows))].

Definition raw_wrapper (s : jsstring) : value := VObj [(js "raw", VStr s)].

(** The [region] field of a form, present when a region was given. *)
Definition region_field (region : option jsstring)
  : list (jsstring * jsstring) :=
  match region with
  | Some (c :: r) => [(js "region", c :: r)]
  | Some [] | None => []
  end.

(** The fields of the form a comparison of more than two domains sends,
    [q] being the encoded domains joined by CR LF. *)
Definition multi_compare_form (key q : jsstring) (params : CompareDomainsInput)
  : list (jsstring * jsstring) :=
  (js "api_key", key)
  :: (if cd_result_count params
      then [(js "result_count", js "1");
            (js "format", Format_str (cd_format params));
            (js "q", q)]
      else [(js "q", q);
            (js "num", Z_toString (cd_num params));
            (js "format", Format_str (cd_format params))])
  ++ region_field (cd_region params).

Definition two_domains : CompareDomainsInput :=
  mkCompareDomainsInput [js "a.com"; js "b.ru"] intersect None 250 json false.

Definition three_domains : CompareDomainsInput :=
  mkCompareDomainsInput [js "a.com"; js "b.ru"; js "c.org"] intersect
    (Some (js "msk")) 250 json false.

Definition LIMIT_MESSAGE : jsstring :=
  js "Error: Limit exceeded. Free API limits: max 100 queries, 250 exclusions, 10 domains for comparison. Try reducing the 'num' parameter or use filters.".

Definition payment_required (c : AxiosConfig) : settled :=
  Rejected (AxiosError (Some (402%Z, VStr (js "Payment Required"))) None
              (js "Request failed with status code 402")).

(** A result that carries a text and nothing else. *)
Definition text_only (message : jsstring) : ToolResult :=
  mkResult [text_item message] None.

(** A domain holding an unpaired surrogate is refused by the schema, but
    the handler itself copes with it: [encodeURIComponent] throws and the
    handler resolves with the message. *)
Definition lone_surrogate_call : Invocation :=
  GetDomainKeywords (mkGetDomainKeywordsInput [55357%N] None 250 json false).

Definition connection_refused (c : AxiosConfig) : settled :=
  Rejected (AxiosError None (Some (js "ECONNREFUSED"))
              (js "connect ECONNREFUSED")).


(** The five endpoints with the verb each is called with. *)
Definition ROUTES : list (Method * jsstring) :=
  [(GET, js "/v1/keywords/"); (POST, js "/v1/mkeywords/");
   (GET, js "/v1/site/"); (GET, js "/v1/site_cmp/");
   (POST, js "/v1/site_mcmp/")].

(** The endpoint and verb of a call, as its handler chooses them. *)
Definition route_of (call : Invocation) : Method * jsstring :=
  match call with
  | SearchKeywords _ => (GET, js "/v1/keywords/")
  | SearchKeywordsBatch _ => (POST, js "/v1/mkeywords/")
  | GetDomainKeywords _ => (GET, js "/v1/site/")
  | CompareDomains params =>
      if isTwoDomains (cd_domains params) then (GET, js "/v1/site_cmp/")
      else (POST, js "/v1/site_mcmp/")
  end.

Definition FORM_HEADERS : list (jsstring * jsstring) :=
  [(js "Content-Type", js "application/x-www-form-urlencoded")].

Definition count_call : Invocation :=
  GetDomainKeywords
    (mkGetDomainKeywordsInput (js "a.com") None 250 json true).

(** What may follow a number: nothing, or a character that is no digit. *)
Definition ends_number (rest : jsstring) : Prop :=
  match rest with
  | [] => True
  | c :: _ => is_digit c = false
  end.

(** A row is well formed for a list of headers when its keys are distinct
    trimmed headers, it has no more properties than there are headers,
    and every value is a string. *)
Definition row_for (headers : list jsstring) (row : obj) : Prop :=
  NoDup (map fst row)
  /\ (List.length row <= List.length headers)%nat
  /\ Forall (fun kv => In (fst kv) (map trim headers)
                       /\ is_string (snd kv) = true) row.

Definition table_call : Invocation :=
  SearchKeywordsBatch (mkSearchKeywordsBatchInput [js "a"] None 250 csv).

Definition table_body : jsstring := js "a;b" ++ [LF] ++ js "1;2".

(** The fields of the form a batch search posts. *)
Definition batch_form (key : jsstring) (params : SearchKeywordsBatchInput)
  : list (jsstring * jsstring) :=
  (js "api_key", key)
  :: (js "q", join [CR; LF] (sb_queries params))
  :: match sb_exclusions params with
     | Some exclusions =>
         match join [CR; LF] exclusions with
         | [] => []
         | text => [(js "q2", text)]
         end
     | None => []
     end
  ++ [(js "num", Z_toString (sb_num params));
      (js "format", Format_str (sb_format params))].

(** The query parameters of a domain lookup, the credential last. *)
Definition lookup_params (key q : jsstring) (params : GetDomainKeywordsInput)
  : obj :=
  [(js "q", VStr q);
   (js "num", VNum (Int (gd_num params)));
   (js "format", VStr (Format_str (gd_format params)));
   (js "result_count", VNum (Int (if gd_result_count params then 1 else 0)))]
  ++ match gd_region params with
     | Some (c :: r) => [(js "region", VStr (c :: r))]
     | _ => []
     end
  ++ [(js "api_key", VStr key)].

Definition lookup_arguments : value :=
  VObj [(js "domain", VStr (js "example.com")); (js "region", VStr (js "msk"))].

Definition batch_arguments : value :=
  VObj [(js "queries", VArr [VStr (js "a"); VStr (js "b")]);
        (js "exclusions", VArr [])].

(** The argument names each tool accepts. *)
Definition schema_keys (tool : Tool) : list jsstring :=
  match tool with
  | bukvarix_search_keywords =>
      map js ["query"; "num"; "format"; "report_type"; "result_count"]%string
  | bukvarix_search_keywords_batch =>
      map js ["queries"; "exclusions"; "num"; "format"]%string
  | bukvarix_get_domain_keywords =>
      map js ["domain"; "region"; "num"; "format"; "result_count"]%string
  | bukvarix_compare_domains =>
      map js ["domains"; "comparison_type"; "region"; "num"; "format";
              "result_count"]%string
  end.

Definition AMPERSAND : N := 38.
Definition EQUALS_SIGN : N := 61.

(** One serialised field of a form: [name=value], both encoded. *)
Definition form_entry (kv : jsstring * jsstring) : jsstring :=
  form_encode (fst kv) ++ [EQUALS_SIGN] ++ form_encode (snd kv).

(** A row as the row loop of [parseResponse] builds it for these
    headers, from the cells of some line. *)
Definition row_of (headers : list jsstring) (row : obj) : Prop :=
  exists values, row = fill_row values headers 0 [].

(** What a cell of the table can be: a string, or the prototype in a
    column named [__proto__]. *)
Definition printable_cell (c : value) : Prop :=
  is_string c = true \/ c = Object_prototype.

(** The values an object spread takes entries from: objects, arrays and
    strings. *)
Definition spreads_entries (v : value) : bool :=
  match v with
  | VObj _ | VArr _ | VStr _ => true
  | _ => false
  end.

(** The text a substitution of a template contributes: the value of its
    expression, converted to a string. *)
Definition shown (chain : res value) : res jsstring :=
  (v <- chain ;; ToString v)%res.



(* ================================================================== *)
(** * Properties *)

(** ** Strings and objects *)

Lemma str_eqb_spec (a b : jsstring) : reflect (a = b) (str_eqb a b).
Proof.
  revert b; induction a as [|x a IH]; intros [|y b]; simpl;
    try (constructor; congruence).
  destruct (N.eqb_spec x y) as [->|Hn]; simpl.
  - destruct (IH b) as [->|Hn]; constructor; congruence.
  - constructor; congruence.
Qed.

Lemma str_eqb_refl (a : jsstring) : str_eqb a a = true.
Proof. destruct (str_eqb_spec a a); congruence. Qed.

Lemma str_eqb_eq (a b : jsstring) : str_eqb a b = true -> a = b.
Proof. destruct (str_eqb_spec a b); congruence. Qed.

Lemma str_eqb_neq (a b : jsstring) : a <> b -> str_eqb a b = false.
Proof. destruct (str_eqb_spec a b); congruence. Qed.

(** The primitives on a few inputs, as the engine evaluates them. *)

Example trim_both_ends : trim (js "  a b " ++ [LF]) = js "a b".
Proof. reflexivity. Qed.

Example split_keeps_empty_fields :
  split SEMICOLON (js "a;;b") = [js "a"; []; js "b"]
  /\ split LF [] = [[]].
Proof. split; reflexivity. Qed.

Example strip_quotes_outer_pair :
  strip_quotes ([DQUOTE] ++ js "x" ++ [DQUOTE]) = js "x"
  /\ strip_quotes [DQUOTE] = []
  /\ strip_quotes (js "x" ++ [DQUOTE; DQUOTE]) = js "x" ++ [DQUOTE].
Proof. repeat split; reflexivity. Qed.

Example encodeURIComponent_marks_and_astral :
  encodeURIComponent (js "a b*!~/") = Ok (js "a%20b*!~%2F")
  /\ encodeURIComponent [55357; 56832]%N = Ok (js "%F0%9F%98%80")
  /\ encodeURIComponent [56832]%N = Err URIError_malformed.
Proof. repeat split; reflexivity. Qed.

Example form_encode_space_and_marks :
  form_encode (js "a b*!~") = js "a+b*%21%7E"
  /\ form_encode [CR; LF] = js "%0D%0A".
Proof. split; reflexivity. Qed.

Example parseInt10_prefix :
  parseInt10 (js " 42 rows") = Int 42
  /\ parseInt10 (js "-7") = Int (-7)
  /\ parseInt10 (js "none") = NaN.
Proof. repeat split; reflexivity. Qed.

(** Beyond 2^53 [parseInt] rounds to the nearest double (halfway cases to
    the even significand) and the number prints with the fewest digits
    that read back as it. *)
Example parseInt10_beyond_exact_integers :
  parseInt10 (js "9007199254740992") = Int 9007199254740992
  /\ parseInt10 (js "9007199254740993") = Int 9007199254740992
  /\ parseInt10 (js "9007199254740995") = Other (js "9007199254740996")
  /\ parseInt10 (js "1152921504606846976") = Other (js "1152921504606847000")
  /\ parseInt10 (js "999999999999999999999") = Other (js "1e+21")
  /\ parseInt10 (js "99999999999999991611392") = Other (js "1e+23")
  /\ parseInt10 (js "-1180591620717411303424")
     = Other (js "-1.1805916207174113e+21")
  /\ parseInt10 (js "1" ++ repeat 48%N 308) = Other (js "1e+308")
  /\ parseInt10 (js "2" ++ repeat 48%N 308) = Other (js "Infinity").
Proof. repeat split; vm_compute; reflexivity. Qed.

Example ToString_nested_array :
  ToString (VArr [VNum (Int 1); VArr [VNum (Int 2); VNum (Int 3)]; VNull;
                  VObj []])
  = Ok (js "1,2,3,,[object Object]").
Proof. reflexivity. Qed.

Example property_order_indices_first :
  obj_define (obj_define (obj_define [] (js "b") VNull) (js "2") VNull)
             (js "1") VNull
  = [(js "1", VNull); (js "2", VNull); (js "b", VNull)].
Proof. reflexivity. Qed.

(** ** The program monad *)

Lemma run_bind {A B} (axios : AxiosConfig -> settled) (p : prog A)
    (f : A -> prog B) :
  run axios (bind p f)
  = match run axios p with
    | Resolves a => run axios (f a)
    | Rejects t => Rejects t
    end.
Proof.
  induction p as [a|t|c k IH]; simpl; auto.
Qed.

Lemma run_try_catch {A} (axios : AxiosConfig -> settled) (p : prog A)
    (h : thrown -> prog A) :
  run axios (try_catch p h)
  = match run axios p with
    | Resolves a => Resolves a
    | Rejects t => run axios (h t)
    end.
Proof.
  induction p as [a|t|c k IH]; simpl; auto.
Qed.

Lemma first_request_run {A} (axios : AxiosConfig -> settled) (p : prog A)
    (c : AxiosConfig) :
  first_request p = Some c ->
  exists k, p = Await c k /\ run axios p = run axios (k (axios c)).
Proof.
  destruct p as [a|t|c' k]; simpl; try discriminate.
  intros H; injection H as ->. exists k; auto.
Qed.

(** ** What a handler does with the answer to its request *)

Section Handlers.

Variable BUKVARIX_API_KEY : option jsstring.
Variable JSON_parse : jsstring -> option value.
Variable JSON_stringify : value -> option jsstring.

Let makeApiRequest' := makeApiRequest BUKVARIX_API_KEY.
Let handle' := handle BUKVARIX_API_KEY JSON_parse JSON_stringify.
Let after_response' := after_response JSON_parse JSON_stringify.

(** A request followed by a continuation, inside the handler's [try]:
    the configuration is the one [build_config] computes, a fulfilled
    request goes on with the continuation, a rejected one ends in the
    handler's [catch] with the classified message. *)
Lemma request_in_try (endpoint : jsstring) (method : Method)
    (data params : option obj) (cont : value -> prog ToolResult)
    (c : AxiosConfig) (k : settled -> prog ToolResult) :
  try_catch (bind (makeApiRequest' endpoint method data params) cont)
            error_result = Await c k ->
  build_config BUKVARIX_API_KEY endpoint method data params = Ok c
  /\ forall r,
       k r = match r with
             | Fulfilled response => try_catch (cont response) error_result
             | Rejected error => Ret (mkResult [text_item (classified error)] None)
             end.
Proof.
  unfold makeApiRequest', makeApiRequest.
  destruct (build_config BUKVARIX_API_KEY endpoint method data params)
    as [cfg|m]; simpl; [|discriminate].
  intros H; injection H as -> <-. split; [reflexivity|].
  intros [response|error]; simpl; [reflexivity|].
  unfold classified. destruct (handleApiError error); reflexivity.
Qed.

Ltac split_pre H :=
  repeat match type of H with
         | context [lift ?r] =>
             destruct r; cbn [bind lift try_catch error_result] in H;
             try discriminate
         end.

Lemma handle_await (call : Invocation) (c : AxiosConfig)
    (k : settled -> prog ToolResult) :
  handle' call = Await c k ->
  forall r,
    k r = match r with
          | Fulfilled response =>
              try_catch (after_response' call response) error_result
          | Rejected error => Ret (mkResult [text_item (classified error)] None)
          end.
Proof.
  unfold handle', after_response', handle, after_response.
  destruct call as [p|p|p|p]; simpl.
  - unfold searchKeywords. intros H. split_pre H.
    apply request_in_try in H. destruct H as [_ H]. intros r; rewrite H.
    destruct r; [|reflexivity]. destruct (sk_result_count p); reflexivity.
  - unfold searchKeywordsBatch. intros H.
    apply request_in_try in H. destruct H as [_ H]. intros r; rewrite H.
    destruct r; reflexivity.
  - unfold getDomainKeywords. intros H. split_pre H.
    apply request_in_try in H. destruct H as [_ H]. intros r; rewrite H.
    destruct r; [|reflexivity]. destruct (gd_result_count p); reflexivity.
  - unfold compareDomains, compare_count_request, compare_data_request.
    destruct (cd_result_count p), (isTwoDomains (cd_domains p));
      intros H; split_pre H;
      apply request_in_try in H; destruct H as [_ H]; intros r; rewrite H;
      destruct r; reflexivity.
Qed.

End Handlers.

(** ** Truncation of the displayed text *)

Lemma TRUNCATION_NOTICE_length : str_length TRUNCATION_NOTICE = 61%N.
Proof. reflexivity. Qed.

Lemma display_text_short (t : jsstring) :
  (str_length t <= CHARACTER_LIMIT)%N -> display_text t = t.
Proof.
  intros H. unfold display_text.
  destruct (N.ltb_spec CHARACTER_LIMIT (str_length t)); [lia|reflexivity].
Qed.

Lemma display_text_long (t : jsstring) :
  (CHARACTER_LIMIT < str_length t)%N ->
  display_text t = substring0 CHARACTER_LIMIT t ++ TRUNCATION_NOTICE.
Proof.
  intros H. unfold display_text.
  destruct (N.ltb_spec CHARACTER_LIMIT (str_length t)); [reflexivity|lia].
Qed.

Lemma substring0_length (n : N) (t : jsstring) :
  str_length (substring0 n t) = N.min n (str_length t).
Proof.
  unfold str_length, substring0. rewrite length_firstn. lia.
Qed.

Lemma str_length_app (a b : jsstring) :
  str_length (a ++ b) = (str_length a + str_length b)%N.
Proof. unfold str_length. rewrite length_app. lia. Qed.

Lemma display_text_long_length (t : jsstring) :
  (CHARACTER_LIMIT < str_length t)%N ->
  str_length (display_text t) = (CHARACTER_LIMIT + 61)%N.
Proof.
  intros H. rewrite display_text_long by exact H.
  rewrite str_length_app, substring0_length, TRUNCATION_NOTICE_length. lia.
Qed.

Lemma display_text_length (t : jsstring) :
  (str_length (display_text t) <= CHARACTER_LIMIT + 61)%N.
Proof.
  destruct (N.ltb_spec CHARACTER_LIMIT (str_length t)) as [H|H].
  - rewrite display_text_long_length by exact H. lia.
  - rewrite display_text_short by exact H. lia.
Qed.

(** A fulfilled request of a call that returns data: the handler resolves
    with the truncated text of the formatter and the payload. *)
Lemma run_fulfilled
    (BUKVARIX_API_KEY : option jsstring)
    (JSON_parse : jsstring -> option value)
    (JSON_stringify : value -> option jsstring)
    (axios : AxiosConfig -> settled) (call : Invocation) (c : AxiosConfig)
    (response parsed : value) (textContent : jsstring) :
  first_request (handle BUKVARIX_API_KEY JSON_parse JSON_stringify call)
    = Some c ->
  axios c = Fulfilled response ->
  count_only call = false ->
  parseResponse JSON_parse response (format_of call) = Ok parsed ->
  rendered JSON_stringify call parsed = Ok textContent ->
  run axios (handle BUKVARIX_API_KEY JSON_parse JSON_stringify call)
    = Resolves (mkResult [text_item (display_text textContent)]
                  (Some (payload call parsed))).
Proof.
  intros Hreq Hax Hcount Hparse Hfmt.
  destruct (first_request_run axios _ Hreq) as [k [Hk Hrun]].
  rewrite Hrun, Hax, (handle_await _ _ _ _ Hk).
  unfold after_response. rewrite Hcount, Hparse. cbn [lift bind].
  rewrite Hfmt. reflexivity.
Qed.

(** C1 (amended).  For every operation and every normalised result, when
    the upstream fulfils the request and the call is not count-only, the
    handler resolves with the text [display_text textContent] and the
    structured payload.  The displayed text is the formatted text itself
    when that has at most 25,000 code units; otherwise it is its first
    25,000 code units followed by the 61 code units of the truncation
    notice, 25,061 in all, and never more than that.  The payload is the
    normalised result in full (for a domain comparison: its own properties
    spread into an object next to [domains] and [comparison_type]);
    truncation does not touch it. *)
Theorem display_text_truncation
    (BUKVARIX_API_KEY : option jsstring)
    (JSON_parse : jsstring -> option value)
    (JSON_stringify : value -> option jsstring)
    (axios : AxiosConfig -> settled) (call : Invocation) (c : AxiosConfig)
    (response parsed : value) (textContent : jsstring) :
  first_request (handle BUKVARIX_API_KEY JSON_parse JSON_stringify call)
    = Some c ->
  axios c = Fulfilled response ->
  count_only call = false ->
  parseResponse JSON_parse response (format_of call) = Ok parsed ->
  rendered JSON_stringify call parsed = Ok textContent ->
  run axios (handle BUKVARIX_API_KEY JSON_parse JSON_stringify call)
    = Resolves (mkResult [text_item (display_text textContent)]
                  (Some (payload call parsed)))
  /\ ((str_length textContent <= CHARACTER_LIMIT)%N ->
      display_text textContent = textContent)
  /\ ((CHARACTER_LIMIT < str_length textContent)%N ->
      display_text textContent
        = substring0 CHARACTER_LIMIT textContent ++ TRUNCATION_NOTICE
      /\ str_length (display_text textContent) = (CHARACTER_LIMIT + 61)%N)
  /\ (str_length (display_text textContent) <= CHARACTER_LIMIT + 61)%N
  /\ (is_comparison call = false -> payload call parsed = parsed).
Proof.
  intros Hreq Hax Hcount Hparse Hfmt.
  split.
  - eapply run_fulfilled; eassumption.
  - split; [apply display_text_short|].
    split; [intros H; split;
            [apply display_text_long | apply display_text_long_length]; exact H|].
    split; [apply display_text_length|].
    destruct call; simpl; congruence.
Qed.

(** *** Closed examples *)

Lemma display_text_truncation_witness :
  run (fun _ => Fulfilled example_rows)
      (example_handle (SearchKeywords example_params))
    = Resolves (mkResult [text_item (display_text example_text)]
                  (Some example_rows))
  /\ display_text example_text = example_text.
Proof.
  destruct (@display_text_truncation None example_JSON_parse
              example_JSON_stringify (fun _ => Fulfilled example_rows)
              (SearchKeywords example_params) example_config
              example_rows example_rows example_text)
    as [Hrun [Hshort _]]; try reflexivity.
  split; [exact Hrun|].
  apply Hshort. vm_compute. discriminate.
Defined.

(** C1, as stated, fails.  A single-query search in the text format whose
    answer is one line of 30,000 letters resolves with a displayed text of
    25,061 code units, above the bound of 25,000.  And the payload of a
    domain comparison is not the normalised result itself: for the decoded
    array [example_rows] it is an object holding the row under the key [0]
    next to [domains] and [comparison_type]. *)
Lemma display_text_exceeds_limit :
  (exists n : N,
     option_map str_length
       (resolved_text (run (fun _ => Fulfilled long_answer)
                           (example_handle long_call))) = Some n
     /\ (CHARACTER_LIMIT < n)%N)
  /\ parseResponse example_JSON_parse example_rows json = Ok example_rows
  /\ resolved_payload (run (fun _ => Fulfilled example_rows)
                           (example_handle (CompareDomains two_domains)))
     = Some (VObj [(js "0",
                    VArr [VStr okna_plastikovye; VNum (Int 2); VNum (Int 17);
                          VNum (Int 1200); VNum (Int 300)]);
                   (js "domains", VArr [VStr (js "a.com"); VStr (js "b.ru")]);
                   (js "comparison_type", VStr (js "intersect"))])
  /\ resolved_payload (run (fun _ => Fulfilled example_rows)
                           (example_handle (CompareDomains two_domains)))
     <> Some example_rows.
Proof.
  split; [exists 25061%N; split; [vm_compute; reflexivity | reflexivity]|].
  split; [reflexivity|].
  split; [vm_compute; reflexivity|].
  vm_compute. discriminate.
Qed.

(** ** The single-query scenario *)

(** C2 (the code departs from the claim).  The arguments [{ query }] of
    the scenario validate to the defaults (250 rows, JSON, standard report,
    no count); the handler issues one GET request to the keyword endpoint
    with the five query parameters of the claim next to the credential;
    and for the answer [[[keyword, 2, 17, 1200, 300]]], decoded by the
    transport or parsed from text, the formatter produces the heading and
    one numbered line.  That line shows the cells at indices 1 and 2,
    [Broad: 2, Exact: 17], and not the frequencies 1200 and 300 the claim
    and the tool description place at indices 3 and 4. *)
Theorem keyword_scenario
    (BUKVARIX_API_KEY : option jsstring)
    (JSON_parse : jsstring -> option value)
    (JSON_stringify : value -> option jsstring) :
  let handler :=
    handle BUKVARIX_API_KEY JSON_parse JSON_stringify
      (SearchKeywords example_params) in
  SearchKeywordsSchema example_arguments = Some example_params
  /\ encodePercentEncoding okna = Ok (js "%D0%BE%D0%BA%D0%BD%D0%B0")
  /\ requests (fun _ => Fulfilled example_rows) handler
     = [scenario_config (API_KEY BUKVARIX_API_KEY)]
  /\ run (fun _ => Fulfilled example_rows) handler
     = Resolves (mkResult [text_item example_text] (Some example_rows))
  /\ (JSON_parse example_body = Some example_rows ->
      run (fun _ => Fulfilled (VStr example_body)) handler
      = Resolves (mkResult [text_item example_text] (Some example_rows)))
  /\ formatKeywordsResponse JSON_stringify example_rows json okna
     = Ok example_text
  /\ example_text <> expected_text.
Proof.
  cbv zeta.
  do 4 (split; [vm_compute; reflexivity|]).
  split; [|split; [vm_compute; reflexivity|]].
  - intros Hparse.
    assert (Hrun := @run_fulfilled BUKVARIX_API_KEY JSON_parse
                JSON_stringify (fun _ => Fulfilled (VStr example_body))
                (SearchKeywords example_params)
                (scenario_config (API_KEY BUKVARIX_API_KEY))
                (VStr example_body) example_rows example_text).
    rewrite Hrun.
    + vm_compute. reflexivity.
    + vm_compute; reflexivity.
    + reflexivity.
    + reflexivity.
    + cbn [parseResponse format_of example_params sk_format].
      rewrite Hparse. reflexivity.
    + vm_compute; reflexivity.
  - vm_compute. discriminate.
Qed.

Lemma keyword_scenario_witness :
  run (fun _ => Fulfilled (VStr example_body))
      (example_handle (SearchKeywords example_params))
  = Resolves (mkResult [text_item example_text] (Some example_rows)).
Proof.
  apply (keyword_scenario None example_JSON_parse example_JSON_stringify).
  reflexivity.
Defined.

(** ** Positional layout read by the domain formatters *)

Lemma array_get_named (cells : list value) (k : jsstring) :
  str_eqb k (js "length") = false -> array_index k = None ->
  get (VArr cells) k = Ok VUndef.
Proof. intros H1 H2. unfold get. rewrite H1, H2. reflexivity. Qed.

Lemma array_get_index (cells : list value) (k : jsstring) (i : N) :
  str_eqb k (js "length") = false -> array_index k = Some i ->
  get (VArr cells) k = Ok (nth (N.to_nat i) cells VUndef).
Proof.
  intros H1 H2. unfold get. rewrite H1, H2.
  generalize (N.to_nat i); intros n; revert n.
  induction cells as [|c cells IH]; intros [|n]; simpl; auto.
Qed.

Lemma nth_firstn {A} (d : A) (l : list A) (n i : nat) :
  (i < n)%nat -> nth i (firstn n l) d = nth i l d.
Proof.
  revert l i; induction n as [|n IH]; intros l i Hi; [lia|].
  destruct l as [|x l]; [reflexivity|].
  destruct i as [|i]; simpl; [reflexivity|]. apply IH; lia.
Qed.

(** The four values a line is made of, for a positional element. *)
Lemma positional_accessors (cells : list value) :
  domain_keyword (VArr cells) = Ok (or_else (nth 0 cells VUndef) (VArr cells))
  /\ domain_position (VArr cells) = Ok (nth 5 cells VUndef)
  /\ domain_broad (VArr cells)
     = Ok (or_else (nth 4 cells VUndef) (VStr (js "N/A")))
  /\ domain_exact (VArr cells)
     = Ok (or_else (nth 5 cells VUndef) (VStr (js "N/A"))).
Proof.
  unfold domain_keyword, domain_position, domain_broad, domain_exact, get_index.
  repeat split;
    (rewrite array_get_named by reflexivity;
     cbn [res_bind or_get truthy];
     erewrite array_get_index by reflexivity; reflexivity).
Qed.

(** C3 (amended).  For every element of a JSON-array result that is a
    positional array, the domain-lookup formatter and the comparison
    formatter take the keyword from index 0 (the element itself standing
    in when that cell is falsy), the broad frequency from index 4 and the
    exact frequency from index 5 (a falsy cell giving "N/A"); the
    comparison formatter renders the very line the domain-lookup formatter
    renders; and when the element has a keyword in its first cell, no cell
    from index 7 on (where a second position would be) has any influence
    on the line. *)
Theorem positional_layout (i : nat) (cells : list value) :
  domain_keyword (VArr cells) = Ok (or_else (nth 0 cells VUndef) (VArr cells))
  /\ domain_broad (VArr cells)
     = Ok (or_else (nth 4 cells VUndef) (VStr (js "N/A")))
  /\ domain_exact (VArr cells)
     = Ok (or_else (nth 5 cells VUndef) (VStr (js "N/A")))
  /\ comparison_line i (VArr cells) = domain_line i (VArr cells)
  /\ (truthy (nth 0 cells VUndef) = true ->
      comparison_line i (VArr cells)
      = comparison_line i (VArr (firstn 7 cells))).
Proof.
  destruct (positional_accessors cells) as [Hk [Hp [Hb He]]].
  destruct (positional_accessors (firstn 7 cells)) as [Hk' [Hp' [Hb' He']]].
  rewrite !nth_firstn in Hk', Hp', Hb', He' by lia.
  repeat split; auto.
  intros Hkw. unfold or_else in Hk, Hk'. rewrite Hkw in Hk, Hk'.
  unfold comparison_line. rewrite Hk, Hk', Hp, Hp', Hb, Hb', He, He'.
  reflexivity.
Qed.

Lemma positional_layout_witness :
  domain_broad (positional_row [VNum (Int 9)]) = Ok (VNum (Int 1200))
  /\ domain_exact (positional_row [VNum (Int 9)]) = Ok (VNum (Int 300))
  /\ comparison_line 0 (positional_row [VNum (Int 9)])
     = comparison_line 0 (positional_row []).
Proof.
  destruct (@positional_layout 0
              [VStr (js "kw"); VNum (Int 2); VNum (Int 17); VNum (Int 1000);
               VNum (Int 1200); VNum (Int 300); VNum (Int 7); VNum (Int 9)])
    as [_ [Hb [He [_ Hc]]]].
  split; [exact Hb | split; [exact He | exact (Hc eq_refl)]].
Defined.

(** C3, as stated, fails.  For the positional element
    [["kw", 2, 17, 1000, 1200, 300, 7]] the position of the layout is the
    7 at index 6, but the formatter prints the 300 of index 5 as position;
    and two comparison elements that differ only in the second position,
    at index 7, are rendered alike by the comparison formatter. *)
Lemma position_not_read_at_index_6 :
  layout_position (positional_row []) = Ok (VNum (Int 7))
  /\ domain_position (positional_row []) = Ok (VNum (Int 300))
  /\ domain_line 0 (positional_row [])
     = Ok (js "1. kw - Position: 300, Broad: 1200, Exact: 300")
  /\ comparison_line 0 (positional_row [VNum (Int 9)])
     = comparison_line 0 (positional_row [VNum (Int 11)])
  /\ comparison_line 0 (positional_row [VNum (Int 9)])
     = Ok (js "1. kw - Position: 300, Broad: 1200, Exact: 300").
Proof. repeat split; vm_compute; reflexivity. Qed.

(** ** Where the credential goes *)

Lemma own_get_obj_replace {ps : obj} {k : jsstring} (v : value) :
  has_own ps k = true -> own_get (obj_replace ps k v) k = Some v.
Proof.
  unfold has_own. induction ps as [|[k' v'] ps IH]; simpl; [discriminate|].
  destruct (str_eqb k' k) eqn:E; simpl; rewrite E; auto.
Qed.

Lemma own_get_obj_insert {ps : obj} {k : jsstring} (v : value) :
  has_own ps k = false -> own_get (obj_insert ps k v) k = Some v.
Proof.
  unfold has_own. induction ps as [|[k' v'] ps IH]; simpl.
  - rewrite str_eqb_refl; reflexivity.
  - destruct (str_eqb k' k) eqn:E; [discriminate|]. intros H.
    destruct (array_index k), (array_index k');
      try destruct (N.ltb _ _); simpl;
      rewrite ?str_eqb_refl, ?E; auto.
Qed.

Lemma own_get_obj_define (ps : obj) (k : jsstring) (v : value) :
  own_get (obj_define ps k v) k = Some v.
Proof.
  unfold obj_define. destruct (has_own ps k) eqn:E.
  - apply own_get_obj_replace, E.
  - apply own_get_obj_insert, E.
Qed.

Lemma join_cons (sep x : jsstring) (xs : list jsstring) :
  join sep (x :: xs) = x ++ flat_map (fun y => sep ++ y) xs.
Proof.
  revert x; induction xs as [|y ys IH]; intros x.
  - simpl. rewrite app_nil_r. reflexivity.
  - change (join sep (x :: y :: ys)) with (x ++ sep ++ join sep (y :: ys)).
    rewrite IH. simpl. rewrite <- app_assoc. reflexivity.
Qed.

Lemma array_join_strings (sep : jsstring) (xs : list value) :
  forallb is_string xs = true ->
  array_join sep xs = Ok (join sep (map string_of xs)).
Proof.
  intros H. unfold array_join.
  assert (E : res_map (fun x => match x with
                                | VUndef | VNull => Ok []
                                | _ => ToString x
                                end) xs = Ok (map string_of xs)).
  { induction xs as [|x xs IH]; [reflexivity|].
    simpl in H. apply andb_prop in H. destruct H as [Hx Hxs].
    destruct x; try discriminate. simpl. rewrite (IH Hxs). reflexivity. }
  rewrite E. reflexivity.
Qed.

Lemma form_field_text (v : value) :
  is_form_value v = true -> form_field v = Ok (form_text v).
Proof.
  destruct v as [| |[|]|n|s|xs|ps]; simpl; try discriminate; auto.
  apply array_join_strings.
Qed.

Lemma form_fields_text (data : obj) :
  forallb (fun kv => is_form_value (snd kv)) data = true ->
  form_fields data = Ok (map (fun kv => (fst kv, form_text (snd kv))) data).
Proof.
  unfold form_fields. induction data as [|[k v] data IH]; [reflexivity|].
  simpl. intros H. apply andb_prop in H. destruct H as [Hv Hd].
  rewrite (form_field_text _ Hv), (IH Hd). reflexivity.
Qed.

Lemma form_pairs_flat_map (data : obj) :
  flat_map (fun y => [38%N] ++ y)
    (map (fun kv : jsstring * jsstring =>
            form_encode (fst kv) ++ [61%N] ++ form_encode (snd kv))
         (map (fun kv : jsstring * value => (fst kv, form_text (snd kv)))
              data))
  = flat_map form_pair data.
Proof.
  induction data as [|[k v] data IH]; [reflexivity|].
  cbn [map flat_map fst snd]. rewrite IH. reflexivity.
Qed.

(** C4.  A write request with a body is sent with the form-urlencoded text
    [api_key=<credential>] followed by one [&name=value] per field of the
    caller's record, in the record's order, a list-typed value being its
    items joined by CR LF before encoding; it carries no query parameters.
    A read request (and a write request without body) carries the
    credential among its query parameters, and the credential alone when
    the caller supplies no query parameters. *)
Theorem credential_placement (BUKVARIX_API_KEY : option jsstring)
    (endpoint : jsstring) :
  let key := API_KEY BUKVARIX_API_KEY in
  let url := API_BASE_URL ++ endpoint in
  (forall (data : obj) (params : option obj),
     forallb (fun kv => is_form_value (snd kv)) data = true ->
     first_request (makeApiRequest BUKVARIX_API_KEY endpoint POST (Some data)
                      params)
     = Some (mkConfig POST url None
               (Some (js "api_key=" ++ form_encode key
                      ++ flat_map form_pair data))
               [(js "Content-Type", js "application/x-www-form-urlencoded")]
               30000))
  /\ (forall (method : Method) (data : option obj) (params : obj),
        method = GET \/ data = None ->
        exists p,
          first_request (makeApiRequest BUKVARIX_API_KEY endpoint method data
                           (Some params))
          = Some (mkConfig method url (Some p) None [] 30000)
          /\ own_get p (js "api_key") = Some (VStr key))
  /\ (forall (method : Method) (data : option obj),
        method = GET \/ data = None ->
        first_request (makeApiRequest BUKVARIX_API_KEY endpoint method data
                         None)
        = Some (mkConfig method url (Some [(js "api_key", VStr key)]) None []
                  30000)).
Proof.
  cbv zeta. unfold makeApiRequest, build_config. repeat split.
  - intros data params Hdata.
    rewrite (form_fields_text _ Hdata). cbn [res_bind lift bind try_catch
                                             first_request].
    unfold URLSearchParams_toString. rewrite map_cons, join_cons.
    cbn [fst snd]. rewrite form_pairs_flat_map, <- app_assoc. reflexivity.
  - intros method data params H.
    exists (obj_define (obj_spread [] (VObj params)) (js "api_key")
                       (VStr (API_KEY BUKVARIX_API_KEY))).
    split; [|apply own_get_obj_define].
    destruct H as [->| ->]; [|destruct method]; reflexivity.
  - intros method data H.
    destruct H as [->| ->]; [|destruct method]; reflexivity.
Qed.

Lemma credential_placement_witness :
  first_request
    (makeApiRequest None (js "/v1/mkeywords/") POST
       (Some [(js "q", VArr [VStr (js "a b"); VStr (js "c")]);
              (js "num", VNum (Int 5))]) None)
  = Some (mkConfig POST (js "http://api.bukvarix.com/v1/mkeywords/") None
            (Some (js "api_key=free&q=a+b%0D%0Ac&num=5"))
            [(js "Content-Type", js "application/x-www-form-urlencoded")]
            30000).
Proof.
  apply (credential_placement None (js "/v1/mkeywords/")). reflexivity.
Defined.

(** ** Rows of a delimited table *)

Lemma own_get_obj_replace_other (ps : obj) (k k' : jsstring) (v : value) :
  k' <> k -> own_get (obj_replace ps k' v) k = own_get ps k.
Proof.
  intros Hne. induction ps as [|[k0 v0] ps IH]; simpl; [reflexivity|].
  destruct (str_eqb k0 k') eqn:E; simpl.
  - apply str_eqb_eq in E; subst k0.
    rewrite (str_eqb_neq Hne). reflexivity.
  - rewrite IH. reflexivity.
Qed.

Lemma own_get_obj_insert_other (ps : obj) (k k' : jsstring) (v : value) :
  k' <> k -> own_get (obj_insert ps k' v) k = own_get ps k.
Proof.
  intros Hne. induction ps as [|[k0 v0] ps IH]; simpl.
  - rewrite (str_eqb_neq Hne). reflexivity.
  - destruct (array_index k'), (array_index k0);
      try destruct (N.ltb _ _); simpl;
      rewrite ?(str_eqb_neq Hne), ?IH; reflexivity.
Qed.

Lemma own_get_obj_assign_other (ps : obj) (k k' : jsstring) (v : value) :
  k' <> k -> own_get (obj_assign ps k' v) k = own_get ps k.
Proof.
  intros Hne. unfold obj_assign, obj_define.
  destruct (str_eqb k' (js "__proto__") && negb (has_own ps k'));
    [reflexivity|].
  destruct (has_own ps k').
  - apply own_get_obj_replace_other, Hne.
  - apply own_get_obj_insert_other, Hne.
Qed.

Lemma own_get_obj_assign (ps : obj) (k : jsstring) (v : value) :
  k <> js "__proto__" -> own_get (obj_assign ps k v) k = Some v.
Proof.
  intros Hne. unfold obj_assign. rewrite (str_eqb_neq Hne). simpl.
  apply own_get_obj_define.
Qed.

(** Headers whose trimmed name differs from [k] leave the property [k] of
    the row alone. *)
Lemma fill_row_other (values headers : list jsstring) (index : nat)
    (row : obj) (k : jsstring) :
  (forall h, In h headers -> trim h <> k) ->
  own_get (fill_row values headers index row) k = own_get row k.
Proof.
  revert index row. induction headers as [|h hs IH]; intros index row H.
  - reflexivity.
  - simpl. rewrite IH by (intros h' Hin; apply H; right; exact Hin).
    apply own_get_obj_assign_other. apply H. left; reflexivity.
Qed.

(** The property of the [i]-th header holds the cleaned [i]-th cell. *)
Lemma fill_row_get (values headers : list jsstring) (index : nat)
    (row : obj) (i : nat) (h : jsstring) :
  nth_error headers i = Some h ->
  (forall j h', (i < j)%nat -> nth_error headers j = Some h' ->
                trim h' <> trim h) ->
  trim h <> js "__proto__" ->
  own_get (fill_row values headers index row) (trim h)
  = Some (VStr (cell values (index + i))).
Proof.
  intros Hnth Hlater Hproto. revert index row i Hnth Hlater.
  induction headers as [|h0 hs IH]; intros index row i Hnth Hlater.
  - destruct i; discriminate.
  - destruct i as [|i]; simpl in Hnth |- *.
    + injection Hnth as ->. rewrite fill_row_other.
      * rewrite Nat.add_0_r. apply own_get_obj_assign, Hproto.
      * intros h' Hin. apply In_nth_error in Hin. destruct Hin as [j Hj].
        apply (Hlater (S j)); [lia|exact Hj].
    + rewrite (IH (S index) _ i Hnth).
      * f_equal. f_equal. f_equal. lia.
      * intros j h' Hij Hj. apply (Hlater (S j)); [lia|exact Hj].
Qed.

Lemma cell_firstn (values : list jsstring) (n i : nat) :
  (i < n)%nat -> cell (firstn n values) i = cell values i.
Proof.
  intros H. unfold cell. rewrite nth_error_firstn.
  destruct (Nat.ltb_spec i n); [reflexivity|lia].
Qed.

(** Cells beyond the number of headers play no part in the row. *)
Lemma fill_row_firstn (values headers : list jsstring) (index n : nat)
    (row : obj) :
  (index + List.length headers <= n)%nat ->
  fill_row (firstn n values) headers index row
  = fill_row values headers index row.
Proof.
  revert index row. induction headers as [|h hs IH]; intros index row H.
  - reflexivity.
  - simpl in H |- *. rewrite cell_firstn by lia. apply IH. lia.
Qed.

(** C5.  The text [a;b\n1;2\n3] with the semicolon format normalises to
    the headers [a], [b] and the rows [{a:'1', b:'2'}], [{a:'3', b:''}].
    In general, for both delimited formats: the first non-blank line is
    split into the headers and every later non-blank line into one row;
    the property named by the [i]-th header (trimmed) holds the [i]-th
    cell of the line, trimmed and with one leading and one trailing quote
    removed, or the empty string when the line has no [i]-th cell; cells
    beyond the number of headers are dropped. *)
Theorem delimited_table (JSON_parse : jsstring -> option value) :
  parseResponse JSON_parse
    (VStr (js "a;b" ++ [LF] ++ js "1;2" ++ [LF] ++ js "3")) csv
  = Ok (table [js "a"; js "b"]
          [[(js "a", VStr (js "1")); (js "b", VStr (js "2"))];
           [(js "a", VStr (js "3")); (js "b", VStr [])]])
  /\ (forall (text : jsstring) (format : Format),
        format = csv \/ format = tsv ->
        let lines := filter nonblank (split LF text) in
        let headers :=
          match lines with
          | first :: _ => split (delimiter_of format) first
          | [] => []
          end in
        parseResponse JSON_parse (VStr text) format
        = Ok (table headers
                (map (fun line =>
                        fill_row (split (delimiter_of format) line) headers 0 [])
                     (tl lines))))
  /\ (forall (values headers : list jsstring) (i : nat) (h : jsstring),
        nth_error headers i = Some h ->
        (forall j h', (i < j)%nat -> nth_error headers j = Some h' ->
                      trim h' <> trim h) ->
        trim h <> js "__proto__" ->
        own_get (fill_row values headers 0 []) (trim h)
        = Some (VStr (match nth_error values i with
                      | Some v => strip_trailing_quote
                                    (strip_leading_quote (trim v))
                      | None => []
                      end)))
  /\ (forall (values headers : list jsstring),
        fill_row values headers 0 []
        = fill_row (firstn (List.length headers) values) headers 0 []).
Proof.
  split; [vm_compute; reflexivity|].
  split.
  - intros text format [-> | ->]; cbv zeta; unfold parseResponse, table;
      cbn [res_bind]; rewrite map_map; reflexivity.
  - split.
    + intros values headers i h Hnth Hlater Hproto.
      apply (@fill_row_get values headers 0 [] i h Hnth Hlater Hproto).
    + intros values headers. symmetry. apply fill_row_firstn. simpl. lia.
Qed.

Lemma delimited_table_witness :
  own_get (fill_row [js " " ++ [DQUOTE] ++ js "1" ++ [DQUOTE]; js "2"; js "x"]
                    [js "a "; js "b"] 0 [])
          (js "a")
  = Some (VStr (js "1")).
Proof.
  apply (proj1 (proj2 (proj2 (delimited_table example_JSON_parse)))
           [js " " ++ [DQUOTE] ++ js "1" ++ [DQUOTE]; js "2"; js "x"]
           [js "a "; js "b"] 0%nat (js "a ") eq_refl).
  - intros [|[|j]] h' Hj Hn; try lia.
    + injection Hn as <-. vm_compute. discriminate.
    + destruct j; discriminate.
  - vm_compute. discriminate.
Defined.

(** ** JSON normalisation *)

Lemma rendered_non_array_json (JSON_stringify : value -> option jsstring)
    (call : Invocation) (ps : obj) :
  format_of call = json ->
  exists textContent, rendered JSON_stringify call (VObj ps) = Ok textContent.
Proof.
  destruct call as [p|p|p|p]; simpl; intros ->; eexists; reflexivity.
Qed.

(** C6.  Normalisation with the JSON tag returns a value for every input
    and never throws.  A text that parses is replaced by the parsed value;
    a text that does not parse is wrapped as [{ raw: text }]; an array or
    object the transport has already decoded is returned unchanged.  An
    operation whose JSON answer does not parse therefore still resolves
    with a payload, the wrapper. *)
Theorem json_normalisation_total (JSON_parse : jsstring -> option value) :
  (forall data : value, exists v, parseResponse JSON_parse data json = Ok v)
  /\ (forall (s : jsstring) (v : value),
        JSON_parse s = Some v ->
        parseResponse JSON_parse (VStr s) json = Ok v)
  /\ (forall s : jsstring,
        JSON_parse s = None ->
        parseResponse JSON_parse (VStr s) json = Ok (raw_wrapper s))
  /\ (forall xs : list value,
        parseResponse JSON_parse (VArr xs) json = Ok (VArr xs))
  /\ (forall ps : obj,
        parseResponse JSON_parse (VObj ps) json = Ok (VObj ps))
  /\ (forall (BUKVARIX_API_KEY : option jsstring)
             (JSON_stringify : value -> option jsstring)
             (axios : AxiosConfig -> settled) (call : Invocation)
             (c : AxiosConfig) (s : jsstring),
        first_request (handle BUKVARIX_API_KEY JSON_parse JSON_stringify call)
          = Some c ->
        axios c = Fulfilled (VStr s) ->
        count_only call = false ->
        format_of call = json ->
        JSON_parse s = None ->
        exists shown,
          run axios (handle BUKVARIX_API_KEY JSON_parse JSON_stringify call)
          = Resolves (mkResult [text_item shown]
                        (Some (payload call (raw_wrapper s))))).
Proof.
  split.
  { intros data. destruct data as [| |b|n|s|xs|ps]; simpl;
      try (eexists; reflexivity).
    destruct (JSON_parse s); eexists; reflexivity. }
  split; [intros s v H; simpl; rewrite H; reflexivity|].
  split; [intros s H; simpl; rewrite H; reflexivity|].
  split; [reflexivity|].
  split; [reflexivity|].
  intros key JSON_stringify axios call c s Hreq Hax Hcount Hfmt Hparse.
  destruct (rendered_non_array_json JSON_stringify call
              [(js "raw", VStr s)] Hfmt) as [textContent Hshown].
  exists (display_text textContent).
  apply (@run_fulfilled key JSON_parse JSON_stringify axios call c
           (VStr s) (raw_wrapper s) textContent); auto.
  rewrite Hfmt. simpl. rewrite Hparse. reflexivity.
Qed.

Lemma json_normalisation_witness :
  parseResponse example_JSON_parse (VStr (js "<html>")) json
  = Ok (raw_wrapper (js "<html>"))
  /\ parseResponse example_JSON_parse (VStr example_body) json
     = Ok example_rows.
Proof.
  destruct (json_normalisation_total example_JSON_parse)
    as [_ [Hparsed [Hwrapped _]]].
  split; [apply Hwrapped | apply Hparsed]; reflexivity.
Defined.

(** ** Routing of a domain comparison *)

Lemma domain_char_below_surrogates (c : N) :
  domain_char c = true -> (c < 55296)%N.
Proof.
  unfold domain_char, is_alnum.
  rewrite !orb_true_iff, !andb_true_iff, !N.leb_le, !N.eqb_eq. lia.
Qed.

(** A validated domain has no surrogate, so encoding it cannot throw. *)
Lemma encode_domain (d : jsstring) :
  forallb domain_char d = true ->
  exists e, encodePercentEncoding d = Ok e.
Proof.
  unfold encodePercentEncoding.
  induction d as [|c d IH]; intros H; [eexists; reflexivity|].
  simpl in H. apply andb_prop in H. destruct H as [Hc Hd].
  destruct (IH Hd) as [e He].
  apply domain_char_below_surrogates in Hc.
  assert (Hlow : is_low_surrogate c = false).
  { unfold is_low_surrogate. apply andb_false_iff. left.
    apply N.leb_gt. lia. }
  assert (Hhigh : is_high_surrogate c = false).
  { unfold is_high_surrogate. apply andb_false_iff. left.
    apply N.leb_gt. lia. }
  cbn [encodeURIComponent]. rewrite Hlow, Hhigh, He.
  destruct (uri_unreserved c); eexists; reflexivity.
Qed.

Lemma encode_domains (ds : list jsstring) :
  Forall (fun d => forallb domain_char d = true) ds ->
  exists es, res_map encodePercentEncoding ds = Ok es.
Proof.
  induction 1 as [|d ds Hd _ IH]; [eexists; reflexivity|].
  destruct (encode_domain _ Hd) as [e He]. destruct IH as [es Hes].
  simpl. rewrite He, Hes. eexists; reflexivity.
Qed.

Lemma z_domain_valid (v : value) (d : jsstring) :
  z_domain v = Some d -> forallb domain_char d = true.
Proof.
  destruct v as [| |b|n|[|c s]|xs|ps]; simpl; try discriminate.
  destruct (domain_char c && forallb domain_char s) eqn:E; [|discriminate].
  intros H; injection H as <-. exact E.
Qed.

Lemma option_map_all_Forall {A B} (f : A -> option B) (Q : B -> Prop)
    (xs : list A) (ys : list B) :
  (forall x y, f x = Some y -> Q y) ->
  option_map_all f xs = Some ys ->
  Forall Q ys /\ List.length ys = List.length xs.
Proof.
  intros Hf. revert ys. induction xs as [|x xs IH]; simpl; intros ys H.
  - injection H as <-. split; [constructor|reflexivity].
  - destruct (f x) eqn:Ex; [|discriminate].
    destruct (option_map_all f xs) eqn:Exs; [|discriminate].
    injection H as <-. destruct (IH _ eq_refl) as [HQ Hlen].
    split; [constructor; eauto|simpl; congruence].
Qed.

(** What validation guarantees about the arguments of a comparison. *)
Lemma CompareDomainsSchema_valid (raw : value) (params : CompareDomainsInput) :
  CompareDomainsSchema raw = Some params ->
  Forall (fun d => forallb domain_char d = true) (cd_domains params)
  /\ (2 <= List.length (cd_domains params) <= MAX_DOMAINS_COMPARE)%nat
  /\ (forall o, raw = VObj o ->
                own_get o (js "comparison_type") = None ->
                cd_comparison_type params = intersect).
Proof.
  unfold CompareDomainsSchema. destruct raw as [| |b|n|s|xs|o]; try discriminate.
  destruct (strict_keys _ o); [|discriminate].
  destruct (z_array z_domain 2 MAX_DOMAINS_COMPARE (field o (js "domains")))
    as [ds|] eqn:Eds; [|discriminate].
  destruct (z_comparison_type (field o (js "comparison_type")))
    as [ct|] eqn:Ect; [|discriminate].
  destruct (z_region _); [|discriminate].
  destruct (z_num _); [|discriminate].
  destruct (z_format _); [|discriminate].
  destruct (z_bool _); [|discriminate].
  intros H; injection H as <-. cbn [cd_domains cd_comparison_type].
  unfold z_array in Eds. destruct (field o (js "domains")); try discriminate.
  destruct ((2 <=? List.length xs)%nat && (List.length xs <=? MAX_DOMAINS_COMPARE)%nat)
    eqn:Elen; [|discriminate].
  apply andb_prop in Elen. destruct Elen as [Hlo Hhi].
  apply Nat.leb_le in Hlo. apply Nat.leb_le in Hhi.
  destruct (option_map_all_Forall z_domain
              (fun d => forallb domain_char d = true) xs z_domain_valid Eds)
    as [Hall Hlen].
  split; [exact Hall|]. split; [lia|].
  intros o' Ho Habsent. injection Ho as <-.
  unfold field in Ect. rewrite Habsent in Ect. simpl in Ect. congruence.
Qed.

Lemma not_in_keys (k : jsstring) (ks : list jsstring) :
  existsb (str_eqb k) ks = false -> ~ In k ks.
Proof.
  intros H Hin.
  assert (E : existsb (str_eqb k) ks = true).
  { apply existsb_exists. exists k. split; [exact Hin|apply str_eqb_refl]. }
  congruence.
Qed.

Lemma requests_after_response (JSON_parse : jsstring -> option value)
    (JSON_stringify : value -> option jsstring)
    (axios : AxiosConfig -> settled) (call : Invocation) (response : value) :
  requests axios
    (try_catch (after_response JSON_parse JSON_stringify call response)
               error_result) = [].
Proof.
  unfold after_response. destruct (count_only call).
  - destruct (count_of response); reflexivity.
  - destruct (parseResponse JSON_parse response (format_of call));
      [|reflexivity].
    cbn [lift bind]. destruct (rendered JSON_stringify call a); reflexivity.
Qed.

(** A handler issues exactly one request, the one it starts with. *)
Lemma handle_requests (BUKVARIX_API_KEY : option jsstring)
    (JSON_parse : jsstring -> option value)
    (JSON_stringify : value -> option jsstring)
    (axios : AxiosConfig -> settled) (call : Invocation) (c : AxiosConfig) :
  first_request (handle BUKVARIX_API_KEY JSON_parse JSON_stringify call)
    = Some c ->
  requests axios (handle BUKVARIX_API_KEY JSON_parse JSON_stringify call)
    = [c].
Proof.
  destruct (handle BUKVARIX_API_KEY JSON_parse JSON_stringify call)
    as [a|t|c' k] eqn:E; simpl; try discriminate.
  intros H; injection H as ->.
  rewrite (handle_await _ _ _ _ E). destruct (axios c) as [response|error].
  - rewrite requests_after_response. reflexivity.
  - reflexivity.
Qed.

(** C7.  A validated comparison names between 2 and 10 domains.  With more
    than 2, the one request the handler issues is a POST to the
    multi-compare endpoint whose form holds the credential, the joined
    domains, the format, the row count or the count flag, and the region
    if any, and no [comparison_type] field; it has no query parameters.
    With exactly 2, the one request is a GET to the two-way compare
    endpoint whose query parameters hold [comparison_type], which
    validation sets to [intersect] when the caller left it out. *)
Theorem compare_domains_routing
    (BUKVARIX_API_KEY : option jsstring)
    (JSON_parse : jsstring -> option value)
    (JSON_stringify : value -> option jsstring)
    (axios : AxiosConfig -> settled)
    (raw : value) (params : CompareDomainsInput) :
  CompareDomainsSchema raw = Some params ->
  let handler :=
    handle BUKVARIX_API_KEY JSON_parse JSON_stringify (CompareDomains params) in
  let key := API_KEY BUKVARIX_API_KEY in
  (2 <= List.length (cd_domains params) <= 10)%nat
  /\ ((2 < List.length (cd_domains params))%nat ->
      exists encoded,
        res_map encodePercentEncoding (cd_domains params) = Ok encoded
        /\ requests axios handler
           = [mkConfig POST (API_BASE_URL ++ js "/v1/site_mcmp/") None
                (Some (URLSearchParams_toString
                         (multi_compare_form key (join [CR; LF] encoded)
                            params)))
                [(js "Content-Type",
                  js "application/x-www-form-urlencoded")]
                30000]
        /\ ~ In (js "comparison_type")
                (map fst (multi_compare_form key (join [CR; LF] encoded)
                            params)))
  /\ (List.length (cd_domains params) = 2%nat ->
      exists p,
        requests axios handler
        = [mkConfig GET (API_BASE_URL ++ js "/v1/site_cmp/") (Some p) None []
             30000]
        /\ own_get p (js "comparison_type")
           = Some (VStr (ComparisonType_str (cd_comparison_type params))))
  /\ (forall o, raw = VObj o ->
                own_get o (js "comparison_type") = None ->
                cd_comparison_type params = intersect).
Proof.
  intros Hvalid. cbv zeta.
  apply CompareDomainsSchema_valid in Hvalid.
  destruct Hvalid as [Hall [Hlen Hdefault]].
  destruct params as [domains ct reg num fmt rc].
  cbn [cd_domains cd_comparison_type] in *.
  split; [exact Hlen|]. split; [|split; [|exact Hdefault]].
  - intros Hn. destruct (encode_domains Hall) as [es Hes].
    exists es. split; [exact Hes|]. split.
    + apply handle_requests.
      unfold handle, compareDomains, compare_count_request,
        compare_data_request, compare_endpoint, encoded_domain_list.
      cbn [cd_domains cd_result_count cd_format cd_region cd_num
           cd_comparison_type].
      assert (Htwo : isTwoDomains domains = false).
      { unfold isTwoDomains. apply Nat.eqb_neq. lia. }
      rewrite Htwo, Hes. destruct rc, reg as [[|c r]|]; reflexivity.
    + apply not_in_keys. unfold multi_compare_form.
      cbn [cd_result_count cd_region].
      destruct rc, reg as [[|c r]|]; reflexivity.
  - intros Hn.
    destruct domains as [|d0 [|d1 [|d2 rest]]]; try discriminate.
    inversion Hall as [|? ? H0 Hall']; subst.
    inversion Hall' as [|? ? H1 _]; subst.
    destruct (encode_domain _ H0) as [e0 He0].
    destruct (encode_domain _ H1) as [e1 He1].
    destruct rc; eexists; (split;
      [ apply handle_requests;
        unfold handle, compareDomains, compare_count_request,
          compare_data_request;
        cbn [cd_domains cd_result_count cd_format cd_region cd_num
             cd_comparison_type isTwoDomains List.length Nat.eqb domain_at
             nth_error compare_endpoint];
        rewrite He0, He1; reflexivity
      | destruct reg as [[|c r]|]; reflexivity ]).
Qed.

Lemma compare_domains_routing_witness :
  (exists p,
     requests (fun _ => Fulfilled (VArr []))
              (example_handle (CompareDomains two_domains))
     = [mkConfig GET (js "http://api.bukvarix.com/v1/site_cmp/") (Some p) None
          [] 30000]
     /\ own_get p (js "comparison_type") = Some (VStr (js "intersect")))
  /\ requests (fun _ => Fulfilled (VArr []))
              (example_handle (CompareDomains three_domains))
     = [mkConfig POST (js "http://api.bukvarix.com/v1/site_mcmp/") None
          (Some (js "api_key=free&q=a.com%0D%0Ab.ru%0D%0Ac.org&num=250&format=json&region=msk"))
          [(js "Content-Type", js "application/x-www-form-urlencoded")]
          30000].
Proof.
  split.
  - apply (@compare_domains_routing None example_JSON_parse
             example_JSON_stringify (fun _ => Fulfilled (VArr []))
             (VObj [(js "domains", VArr [VStr (js "a.com"); VStr (js "b.ru")])])
             two_domains eq_refl).
    reflexivity.
  - destruct (@compare_domains_routing None example_JSON_parse
                example_JSON_stringify (fun _ => Fulfilled (VArr []))
                (VObj [(js "domains",
                        VArr [VStr (js "a.com"); VStr (js "b.ru");
                              VStr (js "c.org")]);
                       (js "region", VStr (js "msk"))])
                three_domains eq_refl) as [_ [Hmulti _]].
    destruct Hmulti as [encoded [Henc [Hreq _]]]; [simpl; lia|].
    injection Henc as <-. exact Hreq.
Defined.

(** ** Failures *)

(** C8.  Whatever the operation, when the upstream answers its request
    with status 402 the handler resolves with the one text that states the
    free-tier ceilings (100 queries, 250 exclusions, 10 domains), and with
    no structured payload. *)
Theorem limit_exceeded_message
    (BUKVARIX_API_KEY : option jsstring)
    (JSON_parse : jsstring -> option value)
    (JSON_stringify : value -> option jsstring)
    (axios : AxiosConfig -> settled) (call : Invocation) (c : AxiosConfig)
    (data : value) (code : option jsstring) (message : jsstring) :
  first_request (handle BUKVARIX_API_KEY JSON_parse JSON_stringify call)
    = Some c ->
  axios c = Rejected (AxiosError (Some (402%Z, data)) code message) ->
  run axios (handle BUKVARIX_API_KEY JSON_parse JSON_stringify call)
    = Resolves (mkResult [text_item LIMIT_MESSAGE] None)
  /\ exists before after,
       LIMIT_MESSAGE
       = before ++ js "max 100 queries, 250 exclusions, 10 domains" ++ after.
Proof.
  intros Hreq Hax. split.
  - destruct (first_request_run axios _ Hreq) as [k [Hk Hrun]].
    rewrite Hrun, Hax, (handle_await _ _ _ _ Hk). reflexivity.
  - exists (js "Error: Limit exceeded. Free API limits: ").
    exists (js " for comparison. Try reducing the 'num' parameter or use filters.").
    reflexivity.
Qed.

Lemma limit_exceeded_message_witness :
  run payment_required (example_handle (CompareDomains three_domains))
  = Resolves (mkResult [text_item LIMIT_MESSAGE] None)
  /\ run payment_required (example_handle (SearchKeywords example_params))
     = Resolves (mkResult [text_item LIMIT_MESSAGE] None).
Proof.
  split.
  - eapply (@limit_exceeded_message None example_JSON_parse
              example_JSON_stringify payment_required
              (CompareDomains three_domains)); reflexivity.
  - eapply (@limit_exceeded_message None example_JSON_parse
              example_JSON_stringify payment_required
              (SearchKeywords example_params)); reflexivity.
Defined.

Section Boundary.

Variable BUKVARIX_API_KEY : option jsstring.
Variable JSON_parse : jsstring -> option value.
Variable JSON_stringify : value -> option jsstring.

Let handle' := handle BUKVARIX_API_KEY JSON_parse JSON_stringify.

(** Before its request a handler can only stop with a text. *)
Lemma request_in_try_shape (endpoint : jsstring) (method : Method)
    (data params : option obj) (cont : value -> prog ToolResult) :
  (exists message,
     try_catch (bind (makeApiRequest BUKVARIX_API_KEY endpoint method data
                        params) cont) error_result
     = Ret (text_only message))
  \/ (exists c k,
        try_catch (bind (makeApiRequest BUKVARIX_API_KEY endpoint method data
                           params) cont) error_result
        = Await c k).
Proof.
  unfold makeApiRequest.
  destruct (build_config BUKVARIX_API_KEY endpoint method data params)
    as [cfg|m]; simpl.
  - right. eexists. eexists. reflexivity.
  - left. eexists. reflexivity.
Qed.

Ltac split_goal :=
  repeat match goal with
         | |- context [lift ?r] =>
             destruct r; cbn [bind lift try_catch error_result]
         end.

Lemma handle_shape (call : Invocation) :
  (exists message, handle' call = Ret (text_only message))
  \/ (exists c k, handle' call = Await c k).
Proof.
  unfold handle', handle. destruct call as [p|p|p|p].
  - unfold searchKeywords. split_goal;
      [apply request_in_try_shape | left; eexists; reflexivity].
  - unfold searchKeywordsBatch. apply request_in_try_shape.
  - unfold getDomainKeywords. split_goal;
      [apply request_in_try_shape | left; eexists; reflexivity].
  - unfold compareDomains, compare_count_request, compare_data_request.
    destruct (cd_result_count p), (isTwoDomains (cd_domains p)); split_goal;
      try apply request_in_try_shape; left; eexists; reflexivity.
Qed.

Lemma run_after_response (axios : AxiosConfig -> settled)
    (call : Invocation) (response : value) :
  exists r,
    run axios (try_catch (after_response JSON_parse JSON_stringify call
                            response) error_result)
    = Resolves r.
Proof.
  unfold after_response. destruct (count_only call).
  - destruct (count_of response); eexists; reflexivity.
  - destruct (parseResponse JSON_parse response (format_of call));
      [|eexists; reflexivity].
    cbn [lift bind].
    destruct (rendered JSON_stringify call a); eexists; reflexivity.
Qed.

End Boundary.

(** C9.  Every handler resolves, whatever the upstream does: no error
    leaves it.  An exception raised before the request is issued ends in a
    result that holds its message and nothing else; a rejected request
    ends in a result that holds the classified text and nothing else, the
    text being the message [handleApiError] returns. *)
Theorem handlers_never_reject
    (BUKVARIX_API_KEY : option jsstring)
    (JSON_parse : jsstring -> option value)
    (JSON_stringify : value -> option jsstring)
    (axios : AxiosConfig -> settled) (call : Invocation) :
  let handler := handle BUKVARIX_API_KEY JSON_parse JSON_stringify call in
  (exists r, run axios handler = Resolves r)
  /\ (first_request handler = None ->
      exists message, handler = Ret (text_only message))
  /\ (forall c error,
        first_request handler = Some c ->
        axios c = Rejected error ->
        run axios handler = Resolves (text_only (classified error)))
  /\ (forall error message,
        handleApiError error = Ok message -> classified error = message).
Proof.
  cbv zeta. split; [|split; [|split]].
  - destruct (handle_shape BUKVARIX_API_KEY JSON_parse JSON_stringify call)
      as [[m Hm]|[c [k Hk]]]; rewrite Hk || rewrite Hm.
    + eexists; reflexivity.
    + simpl. rewrite (handle_await _ _ _ _ Hk).
      destruct (axios c) as [response|error].
      * apply run_after_response.
      * eexists; reflexivity.
  - destruct (handle_shape BUKVARIX_API_KEY JSON_parse JSON_stringify call)
      as [[m Hm]|[c [k Hk]]]; rewrite Hk || rewrite Hm.
    + intros _. exists m. reflexivity.
    + discriminate.
  - intros c error Hreq Hax.
    destruct (first_request_run axios _ Hreq) as [k [Hk Hrun]].
    rewrite Hrun, Hax, (handle_await _ _ _ _ Hk). reflexivity.
  - intros error message H. unfold classified. rewrite H. reflexivity.
Qed.

Lemma handlers_never_reject_witness :
  (exists message,
     example_handle lone_surrogate_call = Ret (text_only message))
  /\ run connection_refused (example_handle (SearchKeywords example_params))
     = Resolves (text_only (js "Error: Cannot connect to Bukvarix API. Check your internet connection.")).
Proof.
  split.
  - destruct (@handlers_never_reject None example_JSON_parse
                example_JSON_stringify connection_refused lone_surrogate_call)
      as [_ [Hsync _]].
    exact (Hsync eq_refl).
  - destruct (@handlers_never_reject None example_JSON_parse
                example_JSON_stringify connection_refused
                (SearchKeywords example_params))
      as [_ [_ [Hrejected _]]].
    apply (Hrejected example_config _ eq_refl eq_refl).
Defined.

(** ** Zero frequencies *)

Lemma object_get (ps : obj) (k : jsstring) :
  get (VObj ps) k = Ok (field ps k).
Proof. unfold get, field. destruct (own_get ps k); reflexivity. Qed.











(* ================================================================== *)
(** * Further properties of the code *)

(** ** Classification of failures *)

Lemma handleApiError_Error_instance (error : thrown) :
  (forall v, error <> NonError v) ->
  exists message, handleApiError error = Ok message.
Proof.
  intros Hne. destruct error as [[[status data]|] code m|m|v].
  - unfold handleApiError.
    repeat match goal with
           | |- context [Z.eqb ?a ?b] => destruct (Z.eqb a b)
           end; eexists; reflexivity.
  - unfold handleApiError.
    repeat match goal with
           | |- context [if ?b then _ else _] => destruct b
           end; eexists; reflexivity.
  - eexists; reflexivity.
  - exfalso. apply (Hne v). reflexivity.
Qed.

Lemma handleApiError_prefix (error : thrown) (message : jsstring) :
  handleApiError error = Ok message ->
  exists rest, message = js "Error: " ++ rest.
Proof.
  destruct error as [[[status data]|] code m|m|v]; unfold handleApiError.
  - repeat match goal with
           | |- context [Z.eqb ?a ?b] => destruct (Z.eqb a b)
           end; intros H; injection H as <-; eexists; reflexivity.
  - repeat match goal with
           | |- context [if ?b then _ else _] => destruct b
           end; intros H; injection H as <-; eexists; reflexivity.
  - intros H; injection H as <-; eexists; reflexivity.
  - destruct (ToString v); cbn [res_bind]; intros H; [|discriminate].
    injection H as <-; eexists; reflexivity.
Qed.

(** X1.  The classifier answers every error that is an instance of [Error]
    (a transport error with or without response, or any other [Error]),
    and every text it returns starts with [Error: ].  A handler whose
    request is rejected with such an error therefore resolves with a text
    that starts with [Error: ] and with no payload. *)
Theorem classified_text_is_marked
    (BUKVARIX_API_KEY : option jsstring)
    (JSON_parse : jsstring -> option value)
    (JSON_stringify : value -> option jsstring)
    (axios : AxiosConfig -> settled) (call : Invocation) (c : AxiosConfig)
    (error : thrown) :
  (forall v, error <> NonError v) ->
  first_request (handle BUKVARIX_API_KEY JSON_parse JSON_stringify call)
    = Some c ->
  axios c = Rejected error ->
  exists rest,
    handleApiError error = Ok (js "Error: " ++ rest)
    /\ run axios (handle BUKVARIX_API_KEY JSON_parse JSON_stringify call)
       = Resolves (text_only (js "Error: " ++ rest)).
Proof.
  intros Hne Hreq Hax.
  destruct (handleApiError_Error_instance Hne) as [message Hm].
  destruct (handleApiError_prefix _ Hm) as [rest ->].
  exists rest. split; [exact Hm|].
  destruct (first_request_run axios _ Hreq) as [k [Hk Hrun]].
  rewrite Hrun, Hax, (handle_await _ _ _ _ Hk).
  unfold classified. rewrite Hm. reflexivity.
Qed.

Lemma classified_text_is_marked_witness :
  exists rest,
    handleApiError (AxiosError None (Some (js "ECONNREFUSED"))
                      (js "connect ECONNREFUSED"))
    = Ok (js "Error: " ++ rest)
    /\ run connection_refused (example_handle (SearchKeywords example_params))
       = Resolves (text_only (js "Error: " ++ rest)).
Proof.
  apply (@classified_text_is_marked None example_JSON_parse
           example_JSON_stringify connection_refused
           (SearchKeywords example_params) example_config).
  - intros v H; discriminate.
  - reflexivity.
  - reflexivity.
Defined.

(** ** Every request *)

Ltac split_lifts H :=
  repeat match type of H with
         | context [lift ?r] =>
             destruct r; cbn [bind lift try_catch error_result] in H;
             try discriminate
         end.

(** The arguments with which a handler calls [makeApiRequest]: the
    endpoint and verb of its route, a body and no query parameters for a
    POST, query parameters and no body for a GET. *)
Lemma handle_build_config
    (BUKVARIX_API_KEY : option jsstring)
    (JSON_parse : jsstring -> option value)
    (JSON_stringify : value -> option jsstring)
    (call : Invocation) (c : AxiosConfig) (k : settled -> prog ToolResult) :
  handle BUKVARIX_API_KEY JSON_parse JSON_stringify call = Await c k ->
  exists o,
    build_config BUKVARIX_API_KEY (snd (route_of call)) (fst (route_of call))
      (match fst (route_of call) with POST => Some o | GET => None end)
      (match fst (route_of call) with POST => None | GET => Some o end)
    = Ok c.
Proof.
  unfold handle. destruct call as [p|p|p|p]; cbn [route_of].
  - unfold searchKeywords. intros H. split_lifts H.
    apply request_in_try in H. destruct H as [H _]. eexists; exact H.
  - unfold searchKeywordsBatch. intros H.
    apply request_in_try in H. destruct H as [H _]. eexists; exact H.
  - unfold getDomainKeywords. intros H. split_lifts H.
    apply request_in_try in H. destruct H as [H _]. eexists; exact H.
  - unfold compareDomains, compare_count_request, compare_data_request,
      compare_endpoint.
    destruct (cd_result_count p), (isTwoDomains (cd_domains p));
      intros H; split_lifts H;
      apply request_in_try in H; destruct H as [H _]; eexists; exact H.
Qed.

(** X2.  Whatever the operation and its arguments, the request a handler
    issues goes to the base URL followed by the endpoint of its route,
    with the verb of that route (one of the five pairs of [ROUTES]) and a
    timeout of 30,000 ms; and the credential travels in exactly one
    place: a GET has query parameters holding [api_key] and neither body
    nor headers, a POST has the form content type, a body that starts
    with the [api_key] field, and no query parameters. *)
Theorem request_shape
    (BUKVARIX_API_KEY : option jsstring)
    (JSON_parse : jsstring -> option value)
    (JSON_stringify : value -> option jsstring)
    (call : Invocation) (c : AxiosConfig) :
  first_request (handle BUKVARIX_API_KEY JSON_parse JSON_stringify call)
    = Some c ->
  In (route_of call) ROUTES
  /\ cfg_method c = fst (route_of call)
  /\ cfg_url c = API_BASE_URL ++ snd (route_of call)
  /\ cfg_timeout c = 30000%Z
  /\ match cfg_method c with
     | GET =>
         cfg_data c = None /\ cfg_headers c = []
         /\ exists p, cfg_params c = Some p
                      /\ own_get p (js "api_key")
                         = Some (VStr (API_KEY BUKVARIX_API_KEY))
     | POST =>
         cfg_params c = None /\ cfg_headers c = FORM_HEADERS
         /\ exists fields,
              cfg_data c
              = Some (URLSearchParams_toString
                        ((js "api_key", API_KEY BUKVARIX_API_KEY) :: fields))
     end.
Proof.
  intros Hreq.
  destruct (handle BUKVARIX_API_KEY JSON_parse JSON_stringify call)
    as [a|t|c' k] eqn:E; try discriminate.
  injection Hreq as ->.
  destruct (handle_build_config _ _ _ _ E) as [o Hcfg].
  split.
  { destruct call as [p|p|p|p]; cbn [route_of];
      try destruct (isTwoDomains (cd_domains p)); simpl; tauto. }
  unfold build_config in Hcfg.
  destruct (fst (route_of call)).
  - injection Hcfg as <-. cbn. repeat split.
    eexists. split; [reflexivity|apply own_get_obj_define].
  - destruct (form_fields o) as [fields|m]; [|discriminate].
    injection Hcfg as <-. cbn. repeat split. exists fields. reflexivity.
Qed.

Lemma request_shape_witness :
  cfg_method example_config = GET
  /\ cfg_url example_config = API_BASE_URL ++ js "/v1/keywords/"
  /\ cfg_timeout example_config = 30000%Z.
Proof.
  destruct (@request_shape None example_JSON_parse example_JSON_stringify
              (SearchKeywords example_params) example_config eq_refl)
    as [_ [Hm [Hu [Ht _]]]].
  split; [exact Hm|]. split; [exact Hu|exact Ht].
Defined.

(** X3.  A handler never retries: against any upstream it issues no
    request at all (when it stops before calling the transport) or
    exactly one, the one it starts with. *)
Theorem at_most_one_request
    (BUKVARIX_API_KEY : option jsstring)
    (JSON_parse : jsstring -> option value)
    (JSON_stringify : value -> option jsstring)
    (axios : AxiosConfig -> settled) (call : Invocation) :
  let handler := handle BUKVARIX_API_KEY JSON_parse JSON_stringify call in
  match first_request handler with
  | Some c => requests axios handler = [c]
  | None => requests axios handler = []
  end.
Proof.
  cbv zeta.
  destruct (first_request
              (handle BUKVARIX_API_KEY JSON_parse JSON_stringify call))
    as [c|] eqn:E.
  - apply handle_requests, E.
  - destruct (handle BUKVARIX_API_KEY JSON_parse JSON_stringify call);
      [reflexivity|reflexivity|discriminate].
Qed.

(** ** Count-only calls *)

Ltac split_goal_lifts :=
  repeat match goal with
         | |- context [lift ?r] =>
             destruct r; cbn [bind lift try_catch error_result first_request]
         end.

Lemma first_request_in_try
    (BUKVARIX_API_KEY : option jsstring) (endpoint : jsstring)
    (method : Method) (data params : option obj)
    (cont cont' : value -> prog ToolResult) :
  first_request
    (try_catch (bind (makeApiRequest BUKVARIX_API_KEY endpoint method data
                        params) cont) error_result)
  = first_request
      (try_catch (bind (makeApiRequest BUKVARIX_API_KEY endpoint method data
                          params) cont') error_result).
Proof.
  unfold makeApiRequest.
  destruct (build_config BUKVARIX_API_KEY endpoint method data params);
    reflexivity.
Qed.

(** The request a handler starts with does not depend on the JSON
    built-ins. *)
Lemma first_request_platform
    (BUKVARIX_API_KEY : option jsstring)
    (P P' : jsstring -> option value) (S S' : value -> option jsstring)
    (call : Invocation) :
  first_request (handle BUKVARIX_API_KEY P S call)
  = first_request (handle BUKVARIX_API_KEY P' S' call).
Proof.
  unfold handle. destruct call as [p|p|p|p].
  - unfold searchKeywords. split_goal_lifts;
      [apply first_request_in_try|reflexivity].
  - unfold searchKeywordsBatch. apply first_request_in_try.
  - unfold getDomainKeywords. split_goal_lifts;
      [apply first_request_in_try|reflexivity].
  - unfold compareDomains, compare_count_request, compare_data_request.
    destruct (cd_result_count p), (isTwoDomains (cd_domains p));
      split_goal_lifts; try apply first_request_in_try; reflexivity.
Qed.

(** X4.  A count-only call goes around the normaliser and the formatter:
    when its request is fulfilled, the result is obtained from the body by
    integer parsing alone (the body itself when the transport decoded a
    number), it is the same whatever [JSON.parse] and [JSON.stringify] do,
    and an exception of the conversion to string ends in a text-only
    result. *)
Theorem count_only_bypasses_normaliser
    (BUKVARIX_API_KEY : option jsstring)
    (P P' : jsstring -> option value) (S S' : value -> option jsstring)
    (axios : AxiosConfig -> settled) (call : Invocation) (c : AxiosConfig)
    (response : value) :
  count_only call = true ->
  first_request (handle BUKVARIX_API_KEY P S call) = Some c ->
  axios c = Fulfilled response ->
  run axios (handle BUKVARIX_API_KEY P S call)
  = match count_of response with
    | Ok count => Resolves (count_result call count)
    | Err message => Resolves (text_only message)
    end
  /\ run axios (handle BUKVARIX_API_KEY P' S' call)
     = run axios (handle BUKVARIX_API_KEY P S call)
  /\ (forall s, response = VStr s -> count_of response = Ok (parseInt10 s))
  /\ (forall n, response = VNum n -> count_of response = Ok n).
Proof.
  intros Hcount Hreq Hax.
  assert (Hrun : forall Q T,
             run axios (handle BUKVARIX_API_KEY Q T call)
             = match count_of response with
               | Ok count => Resolves (count_result call count)
               | Err message => Resolves (text_only message)
               end).
  { intros Q T.
    assert (Hreq' : first_request (handle BUKVARIX_API_KEY Q T call) = Some c)
      by (rewrite (first_request_platform _ Q P T S); exact Hreq).
    destruct (first_request_run axios _ Hreq') as [k [Hk Hr]].
    rewrite Hr, Hax, (handle_await _ _ _ _ Hk).
    unfold after_response. rewrite Hcount.
    destruct (count_of response); reflexivity. }
  split; [apply Hrun|]. split; [rewrite !Hrun; reflexivity|].
  split; intros ? ->; reflexivity.
Qed.

Lemma count_only_bypasses_normaliser_witness :
  run (fun _ => Fulfilled (VStr (js "1234" ++ [LF])))
      (example_handle count_call)
  = Resolves
      (mkResult [text_item (js "Total keywords found for a.com: 1234")]
         (Some (VObj [(js "total", VNum (Int 1234));
                      (js "domain", VStr (js "a.com"))]))).
Proof.
  destruct (@count_only_bypasses_normaliser None example_JSON_parse
              example_JSON_parse example_JSON_stringify example_JSON_stringify
              (fun _ => Fulfilled (VStr (js "1234" ++ [LF]))) count_call
              (mkConfig GET (js "http://api.bukvarix.com/v1/site/")
                 (Some [(js "q", VStr (js "a.com"));
                        (js "num", VNum (Int 250));
                        (js "format", VStr (js "json"));
                        (js "result_count", VNum (Int 1));
                        (js "api_key", VStr (js "free"))])
                 None [] 30000)
              (VStr (js "1234" ++ [LF])) eq_refl eq_refl eq_refl)
    as [Hrun _].
  exact Hrun.
Defined.

(** ** Decimal text of a count *)

Lemma digits_fold_acc (u : Decimal.uint) (acc : positive) :
  fold_left (fun a d => (a * 10 + (d - 48))%N) (uint_digits u) (Npos acc)
  = Npos (Pos.of_uint_acc u acc).
Proof.
  revert acc. induction u; intros acc; cbn [uint_digits fold_left Pos.of_uint_acc];
    [reflexivity|..];
    match goal with
    | |- fold_left _ _ ?x = Npos (Pos.of_uint_acc _ ?y) =>
        replace x with (Npos y) by lia
    end; apply IHu.
Qed.

Lemma digits_value_uint (u : Decimal.uint) :
  digits_value (uint_digits u) = N.of_uint u.
Proof.
  unfold digits_value, N.of_uint.
  induction u; cbn [uint_digits fold_left Pos.of_uint];
    [reflexivity|exact IHu|..];
    match goal with
    | |- fold_left _ _ ?x = Npos (Pos.of_uint_acc _ ?y) =>
        replace x with (Npos y) by reflexivity
    end; apply digits_fold_acc.
Qed.

(** Printing a natural number and reading the digits back. *)
Lemma digits_value_N_toString (n : N) : digits_value (N_toString n) = n.
Proof.
  unfold N_toString. rewrite digits_value_uint.
  apply DecimalN.Unsigned.of_to.
Qed.

Lemma uint_digits_are_digits (u : Decimal.uint) :
  forallb is_digit (uint_digits u) = true.
Proof. induction u; simpl; auto. Qed.

Lemma N_toString_pos_nonempty (p : positive) : N_toString (Npos p) <> [].
Proof.
  intros H. pose proof (digits_value_N_toString (Npos p)) as E.
  rewrite H in E. discriminate.
Qed.

Lemma take_digits_app (ds rest : jsstring) :
  forallb is_digit ds = true -> ends_number rest ->
  take_digits (ds ++ rest) = ds.
Proof.
  intros Hds Hrest. induction ds as [|d ds IH]; simpl in *.
  - destruct rest as [|c r]; [reflexivity|]. simpl in Hrest |- *.
    rewrite Hrest. reflexivity.
  - apply andb_prop in Hds. destruct Hds as [Hd Hds].
    rewrite Hd, (IH Hds). reflexivity.
Qed.

Lemma digit_is_plain (c : N) :
  is_digit c = true ->
  is_js_whitespace c = false /\ N.eqb c 45 = false /\ N.eqb c 43 = false.
Proof.
  unfold is_digit, is_js_whitespace.
  rewrite andb_true_iff, !N.leb_le. intros [H1 H2].
  repeat split.
  - repeat (apply orb_false_iff; split);
      try (apply N.eqb_neq; lia);
      apply andb_false_iff; (left; apply N.leb_gt; lia)
                            || (right; apply N.leb_gt; lia).
  - apply N.eqb_neq; lia.
  - apply N.eqb_neq; lia.
Qed.

Lemma to_double_exact (n : N) :
  (n <= EXACT_INTEGERS)%N -> to_double n = n.
Proof.
  intros Hn. unfold to_double.
  destruct (N.leb_spec (N.log2 n) 52) as [Hb|Hb]; [reflexivity|].
  assert (E : n = EXACT_INTEGERS).
  { destruct (N.lt_ge_cases n EXACT_INTEGERS) as [Hlt|Hge]; [|lia].
    exfalso. destruct (N.eq_0_gt_0_cases n) as [->|Hpos];
      [vm_compute in Hb; discriminate Hb|].
    apply (N.log2_lt_pow2 n 53 Hpos) in Hlt. lia. }
  rewrite E. vm_compute. reflexivity.
Qed.

(** Up to 2^53 the number an integer has is the integer itself. *)
Lemma Number_of_integer_exact (negative : bool) (n : N) :
  (n <= EXACT_INTEGERS)%N ->
  Number_of_integer negative n
  = Int (if negative then - Z.of_N n else Z.of_N n).
Proof.
  intros Hn. unfold Number_of_integer. rewrite (to_double_exact Hn).
  apply N.leb_le in Hn. rewrite Hn. reflexivity.
Qed.

Lemma parseInt10_digits (ds rest : jsstring) :
  ds <> [] -> forallb is_digit ds = true -> ends_number rest ->
  parseInt10 (ds ++ rest) = Number_of_integer false (digits_value ds)
  /\ parseInt10 (45%N :: ds ++ rest)
     = Number_of_integer true (digits_value ds).
Proof.
  intros Hne Hds Hrest.
  destruct ds as [|d ds']; [congruence|].
  pose proof Hds as Hds0. simpl in Hds0. apply andb_prop in Hds0.
  destruct Hds0 as [Hd _].
  destruct (digit_is_plain _ Hd) as [Hws [Hminus Hplus]].
  pose proof (take_digits_app (d :: ds') rest Hds Hrest) as Htake.
  split.
  - unfold parseInt10. cbn [app trimStart]. rewrite Hws, Hminus, Hplus.
    cbn [snd fst]. cbn [app] in Htake. rewrite Htake. reflexivity.
  - unfold parseInt10. cbn [app trimStart] in Htake |- *.
    change (is_js_whitespace 45) with false. cbv beta iota zeta.
    change (N.eqb 45 45) with true. cbv beta iota zeta. cbn [snd fst].
    rewrite Htake. reflexivity.
Qed.

Lemma trimStart_app (ws s : jsstring) :
  forallb is_js_whitespace ws = true -> trimStart (ws ++ s) = trimStart s.
Proof.
  induction ws as [|w ws IH]; intros H; [reflexivity|].
  simpl in H. apply andb_prop in H. destruct H as [Hw Hws].
  cbn [app trimStart]. rewrite Hw. apply IH, Hws.
Qed.

(** X5.  The count of a count-only answer.  A body that is the decimal
    text of an integer of magnitude at most 2^53, followed by nothing or
    by anything that does not start with a digit (a line end, say), is
    read back as that integer: within that range printing and [parseInt]
    are inverse.  Beyond it the count is the nearest double:
    9007199254740993 is read as 9007199254740992, and a 1 followed by 21
    zeros as the number printed [1e+21].  A body with no number at its
    start (it is empty, or its first character after leading white space
    is neither a digit nor a sign) gives [NaN], which the handler then
    reports as the total instead of failing. *)
Theorem count_of_decimal_text :
  (forall (z : Z) (rest : jsstring),
     (Z.abs z <= Z.of_N EXACT_INTEGERS)%Z ->
     ends_number rest ->
     count_of (VStr (Z_toString z ++ rest)) = Ok (Int z))
  /\ count_of (VStr (js "9007199254740993")) = Ok (Int 9007199254740992)
  /\ count_of (VStr (js "1000000000000000000000")) = Ok (Other (js "1e+21"))
  /\ (forall (ws : jsstring) (c : N) (r : jsstring),
        forallb is_js_whitespace ws = true ->
        is_js_whitespace c = false -> is_digit c = false ->
        c <> 45%N -> c <> 43%N ->
        count_of (VStr (ws ++ c :: r)) = Ok NaN)
  /\ (forall ws : jsstring,
        forallb is_js_whitespace ws = true -> count_of (VStr ws) = Ok NaN).
Proof.
  split; [|split; [|split; [|split]]].
  - intros z rest Hz Hrest. cbn [count_of]. f_equal.
    destruct z as [|p|p]; cbn [Z_toString].
    + destruct (parseInt10_digits (ds := [48%N]) rest) as [H _];
        try reflexivity; [discriminate|exact Hrest|exact H].
    + destruct (parseInt10_digits (ds := N_toString (Npos p)) rest)
        as [H _].
      * apply N_toString_pos_nonempty.
      * apply uint_digits_are_digits.
      * exact Hrest.
      * rewrite H, digits_value_N_toString.
        apply (Number_of_integer_exact false). lia.
    + destruct (parseInt10_digits (ds := N_toString (Npos p)) rest)
        as [_ H].
      * apply N_toString_pos_nonempty.
      * apply uint_digits_are_digits.
      * exact Hrest.
      * cbn [app]. rewrite H, digits_value_N_toString.
        apply (Number_of_integer_exact true). lia.
  - vm_compute. reflexivity.
  - vm_compute. reflexivity.
  - intros ws c r Hws Hc Hd H45 H43. cbn [count_of]. f_equal.
    unfold parseInt10. rewrite trimStart_app by exact Hws. cbn [trimStart].
    rewrite Hc. apply N.eqb_neq in H45. apply N.eqb_neq in H43.
    rewrite H45, H43. cbn [snd fst take_digits]. rewrite Hd. reflexivity.
  - intros ws Hws. cbn [count_of]. f_equal. unfold parseInt10.
    rewrite <- (app_nil_r ws), trimStart_app by exact Hws. reflexivity.
Qed.

Lemma count_of_decimal_text_witness :
  count_of (VStr (Z_toString 1234 ++ [CR; LF])) = Ok (Int 1234)
  /\ count_of (VStr (js "  <html>")) = Ok NaN.
Proof.
  destruct count_of_decimal_text as [Hnum [_ [_ [Hnan _]]]].
  split.
  - apply Hnum; [vm_compute; discriminate|reflexivity].
  - apply (Hnan (js "  ") 60%N (js "html>")); try reflexivity;
      discriminate.
Defined.

(** ** Line lists *)

Lemma split_no_sep (sep : N) (s : jsstring) :
  ~ In sep s -> split sep s = [s].
Proof.
  induction s as [|c s IH]; intros H; [reflexivity|].
  cbn [split]. destruct (N.eqb_spec c sep) as [->|Hne].
  - exfalso. apply H. left; reflexivity.
  - rewrite IH by (intros Hin; apply H; right; exact Hin). reflexivity.
Qed.

Lemma split_app_sep (sep : N) (s t : jsstring) :
  ~ In sep s -> split sep (s ++ sep :: t) = s :: split sep t.
Proof.
  induction s as [|c s IH]; intros H.
  - cbn [app split]. rewrite N.eqb_refl. reflexivity.
  - cbn [app split]. destruct (N.eqb_spec c sep) as [->|Hne].
    + exfalso. apply H. left; reflexivity.
    + rewrite IH by (intros Hin; apply H; right; exact Hin). reflexivity.
Qed.

(** Splitting undoes joining, for pieces that do not hold the separator. *)
Lemma split_join (sep : N) (parts : list jsstring) :
  parts <> [] -> Forall (fun p => ~ In sep p) parts ->
  split sep (join [sep] parts) = parts.
Proof.
  intros Hne Hall. revert Hne.
  induction Hall as [|p parts Hp Hall IH]; intros Hne;
    [exfalso; apply Hne; reflexivity|].
  destruct parts as [|q parts].
  - cbn [join]. apply split_no_sep, Hp.
  - change (join [sep] (p :: q :: parts))
      with (p ++ sep :: join [sep] (q :: parts)).
    rewrite split_app_sep by exact Hp. rewrite IH by discriminate.
    reflexivity.
Qed.

(** X6.  The text format is a list of lines.  For any lines that hold no
    line feed, normalising their concatenation with line feeds gives back
    exactly the lines that are not blank, in their order and untrimmed;
    lines that are empty or all white space disappear. *)
Theorem text_lines_round_trip (JSON_parse : jsstring -> option value)
    (lines : list jsstring) :
  Forall (fun line => ~ In LF line) lines ->
  parseResponse JSON_parse (VStr (join [LF] lines)) txt
  = Ok (VArr (map VStr (filter nonblank lines))).
Proof.
  intros Hall. cbn [parseResponse res_bind]. do 3 f_equal.
  destruct lines as [|l lines]; [reflexivity|].
  rewrite split_join; [reflexivity|discriminate|exact Hall].
Qed.

Lemma text_lines_round_trip_witness :
  parseResponse example_JSON_parse
    (VStr (join [LF] [js "okna "; js "  "; []; js " dveri"])) txt
  = Ok (VArr [VStr (js "okna "); VStr (js " dveri")]).
Proof.
  apply (@text_lines_round_trip example_JSON_parse
           [js "okna "; js "  "; []; js " dveri"]).
  repeat constructor; vm_compute; intuition discriminate.
Defined.

(** ** Rows of a table, continued *)

Lemma has_own_false_keys (ps : obj) (k : jsstring) :
  has_own ps k = false -> ~ In k (map fst ps).
Proof.
  unfold has_own. induction ps as [|[k' v'] ps IH]; simpl; [tauto|].
  destruct (str_eqb_spec k' k) as [->|Hne]; [discriminate|].
  intros H [Heq|Hin]; [congruence|]. apply (IH H Hin).
Qed.

Lemma obj_replace_keys (ps : obj) (k : jsstring) (v : value) :
  map fst (obj_replace ps k v) = map fst ps.
Proof.
  induction ps as [|[k' v'] ps IH]; simpl; [reflexivity|].
  destruct (str_eqb k' k); simpl; [reflexivity|]. rewrite IH. reflexivity.
Qed.

Lemma obj_replace_In (ps : obj) (k : jsstring) (v : value)
    (kv : jsstring * value) :
  In kv (obj_replace ps k v) -> In kv ps \/ kv = (k, v).
Proof.
  induction ps as [|[k' v'] ps IH]; simpl; [tauto|].
  destruct (str_eqb_spec k' k) as [->|Hne]; simpl.
  - intros [<-|Hin]; auto.
  - intros [<-|Hin]; auto. destruct (IH Hin); auto.
Qed.

Lemma obj_insert_In (ps : obj) (k : jsstring) (v : value)
    (kv : jsstring * value) :
  In kv (obj_insert ps k v) <-> kv = (k, v) \/ In kv ps.
Proof.
  induction ps as [|[k' v'] ps IH]; simpl; [intuition|].
  destruct (array_index k), (array_index k');
    try destruct (N.ltb _ _); simpl; rewrite ?IH; intuition.
Qed.

Lemma obj_insert_length (ps : obj) (k : jsstring) (v : value) :
  List.length (obj_insert ps k v) = S (List.length ps).
Proof.
  induction ps as [|[k' v'] ps IH]; simpl; [reflexivity|].
  destruct (array_index k), (array_index k');
    try destruct (N.ltb _ _); simpl; rewrite ?IH; reflexivity.
Qed.

Lemma obj_insert_NoDup (ps : obj) (k : jsstring) (v : value) :
  ~ In k (map fst ps) -> NoDup (map fst ps) ->
  NoDup (map fst (obj_insert ps k v)).
Proof.
  intros Hk Hnd. induction ps as [|[k' v'] ps IH]; simpl.
  - constructor; [tauto|constructor].
  - simpl in Hk, Hnd. inversion Hnd as [|? ? Hk' Hnd']; subst.
    assert (Hrec : NoDup (k' :: map fst (obj_insert ps k v))).
    { constructor; [|apply IH; tauto].
      intros Hin. apply in_map_iff in Hin. destruct Hin as [kv [Hf Hin]].
      apply obj_insert_In in Hin. destruct Hin as [->|Hin].
      - simpl in Hf. subst. tauto.
      - apply Hk'. apply in_map_iff. exists kv. auto. }
    assert (Hfront : NoDup (k :: k' :: map fst ps))
      by (constructor; [exact Hk|exact Hnd]).
    destruct (array_index k), (array_index k');
      try destruct (N.ltb _ _); simpl; assumption.
Qed.

(** What an assignment does to an object: nothing else than adding or
    updating the one property, and keys stay distinct. *)
Lemma obj_assign_In (ps : obj) (k : jsstring) (v : value)
    (kv : jsstring * value) :
  In kv (obj_assign ps k v) -> In kv ps \/ kv = (k, v).
Proof.
  unfold obj_assign, obj_define.
  destruct (str_eqb k (js "__proto__") && negb (has_own ps k)); [auto|].
  destruct (has_own ps k).
  - apply obj_replace_In.
  - intros H. apply obj_insert_In in H. tauto.
Qed.

Lemma obj_define_NoDup (ps : obj) (k : jsstring) (v : value) :
  NoDup (map fst ps) -> NoDup (map fst (obj_define ps k v)).
Proof.
  intros Hnd. unfold obj_define. destruct (has_own ps k) eqn:E.
  - rewrite obj_replace_keys. exact Hnd.
  - apply obj_insert_NoDup; [apply has_own_false_keys, E|exact Hnd].
Qed.

Lemma obj_assign_NoDup (ps : obj) (k : jsstring) (v : value) :
  NoDup (map fst ps) -> NoDup (map fst (obj_assign ps k v)).
Proof.
  intros Hnd. unfold obj_assign.
  destruct (str_eqb k (js "__proto__") && negb (has_own ps k));
    [exact Hnd|apply obj_define_NoDup, Hnd].
Qed.

Lemma obj_assign_length (ps : obj) (k : jsstring) (v : value) :
  (List.length (obj_assign ps k v) <= S (List.length ps))%nat.
Proof.
  unfold obj_assign, obj_define.
  destruct (str_eqb k (js "__proto__") && negb (has_own ps k)); [lia|].
  destruct (has_own ps k).
  - assert (E : List.length (obj_replace ps k v) = List.length ps).
    { rewrite <- (length_map fst), obj_replace_keys, length_map.
      reflexivity. }
    lia.
  - rewrite obj_insert_length. lia.
Qed.

Lemma fill_row_NoDup (values headers : list jsstring) (index : nat)
    (row : obj) :
  NoDup (map fst row) ->
  NoDup (map fst (fill_row values headers index row)).
Proof.
  revert index row. induction headers as [|h hs IH]; intros index row Hnd.
  - exact Hnd.
  - simpl. apply IH. apply obj_assign_NoDup, Hnd.
Qed.

Lemma fill_row_In (values headers : list jsstring) (index : nat)
    (row : obj) (kv : jsstring * value) :
  In kv (fill_row values headers index row) ->
  In kv row \/ (In (fst kv) (map trim headers) /\ is_string (snd kv) = true).
Proof.
  revert index row. induction headers as [|h hs IH]; intros index row H.
  - left; exact H.
  - simpl in H. apply IH in H. destruct H as [H|[H1 H2]].
    + apply obj_assign_In in H. destruct H as [H| ->]; [left; exact H|].
      right. split; [left; reflexivity|reflexivity].
    + right. split; [right; exact H1|exact H2].
Qed.

Lemma fill_row_length (values headers : list jsstring) (index : nat)
    (row : obj) :
  (List.length (fill_row values headers index row)
   <= List.length row + List.length headers)%nat.
Proof.
  revert index row. induction headers as [|h hs IH]; intros index row.
  - simpl. lia.
  - simpl. specialize (IH (S index)
                         (obj_assign row (trim h) (VStr (cell values index)))).
    pose proof (obj_assign_length row (trim h) (VStr (cell values index))).
    lia.
Qed.

Lemma fill_row_row_for (values headers : list jsstring) :
  row_for headers (fill_row values headers 0 []).
Proof.
  split; [|split].
  - apply fill_row_NoDup. constructor.
  - apply (fill_row_length values headers 0 []).
  - apply Forall_forall. intros kv Hin.
    apply fill_row_In in Hin. destruct Hin as [[]|H]. exact H.
Qed.

(** ** Trimming *)

Lemma trimEnd_idempotent (s : jsstring) : trimEnd (trimEnd s) = trimEnd s.
Proof.
  induction s as [|c r IH]; [reflexivity|].
  cbn [trimEnd]. destruct (trimEnd r) as [|x r'] eqn:E.
  - destruct (is_js_whitespace c) eqn:Hc; [reflexivity|].
    cbn [trimEnd]. rewrite Hc. reflexivity.
  - change (trimEnd (c :: x :: r'))
      with (match trimEnd (x :: r') with
            | [] => if is_js_whitespace c then [] else [c]
            | r'' => c :: r''
            end).
    rewrite IH. reflexivity.
Qed.

Lemma trimStart_head (s : jsstring) :
  trimStart s = []
  \/ exists c r, trimStart s = c :: r /\ is_js_whitespace c = false.
Proof.
  induction s as [|c r IH]; [left; reflexivity|].
  cbn [trimStart]. destruct (is_js_whitespace c) eqn:Hc; [exact IH|].
  right. exists c, r. split; [reflexivity|exact Hc].
Qed.

Lemma trimEnd_head (c : N) (r : jsstring) :
  is_js_whitespace c = false -> exists r', trimEnd (c :: r) = c :: r'.
Proof.
  intros Hc. cbn [trimEnd]. rewrite Hc.
  destruct (trimEnd r); eexists; reflexivity.
Qed.

Lemma trim_idempotent (s : jsstring) : trim (trim s) = trim s.
Proof.
  unfold trim. destruct (trimStart_head s) as [E|[c [r [E Hc]]]].
  - rewrite E. reflexivity.
  - rewrite E. destruct (@trimEnd_head c r Hc) as [r' Hr'].
    rewrite Hr'. cbn [trimStart]. rewrite Hc, <- Hr'.
    apply trimEnd_idempotent.
Qed.

Lemma own_get_not_key (ps : obj) (k : jsstring) :
  ~ In k (map fst ps) -> own_get ps k = None.
Proof.
  induction ps as [|[k' v'] ps IH]; [reflexivity|].
  simpl. intros H. destruct (str_eqb_spec k' k) as [->|Hne]; [tauto|].
  apply IH. tauto.
Qed.

Lemma own_get_In (ps : obj) (k : jsstring) (v : value) :
  own_get ps k = Some v -> In (k, v) ps.
Proof.
  induction ps as [|[k' v'] ps IH]; [discriminate|].
  simpl. destruct (str_eqb_spec k' k) as [->|Hne].
  - intros H; injection H as ->. left; reflexivity.
  - intros H. right. apply IH, H.
Qed.

(** ** Text bodies: rows and their rendering *)

Lemma parse_delimited (JSON_parse : jsstring -> option value)
    (text : jsstring) (format : Format) :
  format = csv \/ format = tsv ->
  let lines := filter nonblank (split LF text) in
  let headers :=
    match lines with
    | first :: _ => split (delimiter_of format) first
    | [] => []
    end in
  parseResponse JSON_parse (VStr text) format
  = Ok (table headers
          (map (fun line =>
                  fill_row (split (delimiter_of format) line) headers 0 [])
               (tl lines))).
Proof.
  intros [-> | ->]; cbv zeta; unfold parseResponse, table;
    cbn [res_bind]; rewrite map_map; reflexivity.
Qed.

(** X7.  Normalising a text body in a delimited format gives a table
    with one row per non-blank line after the first, and every row is
    well formed for the headers: its keys are distinct and each is a
    header with its surrounding white space removed, it has no more
    properties than there are headers, and every value is a string. *)
Theorem rows_are_well_formed (JSON_parse : jsstring -> option value)
    (text : jsstring) (format : Format) :
  format = csv \/ format = tsv ->
  exists headers rows,
    parseResponse JSON_parse (VStr text) format = Ok (table headers rows)
    /\ S (List.length rows)
       = Nat.max 1 (List.length (filter nonblank (split LF text)))
    /\ Forall (row_for headers) rows.
Proof.
  intros Hfmt. eexists. eexists.
  split; [apply (parse_delimited JSON_parse text Hfmt)|]. split.
  - rewrite length_map. destruct (filter nonblank (split LF text)) as [|l ls];
      [reflexivity|]. simpl. destruct (List.length ls); reflexivity.
  - apply Forall_forall. intros row Hin. apply in_map_iff in Hin.
    destruct Hin as [line [<- _]]. apply fill_row_row_for.
Qed.

Lemma rows_are_well_formed_witness :
  exists headers rows,
    parseResponse example_JSON_parse
      (VStr (js "a;b" ++ [LF] ++ js "1;2;3" ++ [LF] ++ js "4")) csv
    = Ok (table headers rows)
    /\ S (List.length rows)
       = Nat.max 1 (List.length
                      (filter nonblank
                         (split LF (js "a;b" ++ [LF] ++ js "1;2;3" ++ [LF]
                                    ++ js "4"))))
    /\ Forall (row_for headers) rows.
Proof.
  apply (@rows_are_well_formed example_JSON_parse
           (js "a;b" ++ [LF] ++ js "1;2;3" ++ [LF] ++ js "4") csv).
  left. reflexivity.
Defined.

Lemma fill_row_keys_trimmed (values headers : list jsstring)
    (kv : jsstring * value) :
  In kv (fill_row values headers 0 []) -> trim (fst kv) = fst kv.
Proof.
  intros H. apply fill_row_In in H. destruct H as [[]|[H _]].
  apply in_map_iff in H. destruct H as [h [<- _]]. apply trim_idempotent.
Qed.

(** X8.  A row is keyed by the trimmed headers but the table is rendered
    by looking each row up under the header as it stands in the header
    line.  So the column of a header with white space at either end (the
    last header of a body with CRLF line ends, for one) is rendered as the
    empty string in every row, while the row holds the cell under the
    trimmed name. *)
Theorem padded_header_column_is_blank (values headers : list jsstring)
    (i : nat) (h : jsstring) :
  trim h <> h ->
  table_cell (VObj (fill_row values headers 0 [])) (VStr h) = Ok (VStr [])
  /\ (nth_error headers i = Some h ->
      (forall j h', (i < j)%nat -> nth_error headers j = Some h' ->
                    trim h' <> trim h) ->
      trim h <> js "__proto__" ->
      own_get (fill_row values headers 0 []) (trim h)
      = Some (VStr (cell values i))).
Proof.
  intros Hpad. split.
  - assert (Hname : str_eqb h (js "__proto__") = false).
    { destruct (str_eqb_spec h (js "__proto__")) as [->|_]; [|reflexivity].
      exfalso. apply Hpad. vm_compute. reflexivity. }
    unfold table_cell, get_keyed. cbn [ToString res_bind].
    rewrite Hname. cbn [andb]. rewrite object_get.
    cbn [res_bind]. unfold field. rewrite own_get_not_key; [reflexivity|].
    intros Hin. apply in_map_iff in Hin. destruct Hin as [kv [Hk Hin]].
    apply fill_row_keys_trimmed in Hin. rewrite Hk in Hin. exact (Hpad Hin).
  - intros Hnth Hlater Hproto.
    apply (@fill_row_get values headers 0 [] i h Hnth Hlater Hproto).
Qed.

Lemma padded_header_column_is_blank_witness :
  trim (js "b" ++ [CR]) <> js "b" ++ [CR]
  /\ table_cell
       (VObj (fill_row [js "1"; js "2" ++ [CR]] [js "a"; js "b" ++ [CR]] 0 []))
       (VStr (js "b" ++ [CR]))
     = Ok (VStr [])
  /\ own_get (fill_row [js "1"; js "2" ++ [CR]] [js "a"; js "b" ++ [CR]] 0 [])
       (trim (js "b" ++ [CR]))
     = Some (VStr (cell [js "1"; js "2" ++ [CR]] 1)).
Proof.
  assert (Hpad : trim (js "b" ++ [CR]) <> js "b" ++ [CR])
    by (vm_compute; discriminate).
  split; [exact Hpad|].
  destruct (@padded_header_column_is_blank
              [js "1"; js "2" ++ [CR]] [js "a"; js "b" ++ [CR]] 1
              (js "b" ++ [CR]) Hpad) as [Hblank Hheld].
  split; [exact Hblank|]. apply Hheld.
  - reflexivity.
  - intros [|[|[|j]]] h' Hj Hn; try lia; discriminate.
  - vm_compute; discriminate.
Defined.

Lemma map_VStr_strings (xs : list jsstring) :
  forallb is_string (map VStr xs) = true.
Proof. induction xs; simpl; auto. Qed.

Lemma array_join_cells (sep : jsstring) (cells : list value) :
  Forall printable_cell cells -> exists line, array_join sep cells = Ok line.
Proof.
  intros Hcells. unfold array_join.
  assert (E : exists parts,
             res_map (fun x => match x with
                               | VUndef | VNull => Ok []
                               | _ => ToString x
                               end) cells = Ok parts).
  { induction Hcells as [|c cells Hc _ [parts Hparts]].
    - exists []. reflexivity.
    - cbn [res_map]. rewrite Hparts.
      destruct Hc as [Hc| ->]; [|eexists; reflexivity].
      destruct c; try discriminate. eexists; reflexivity. }
  destruct E as [parts ->]. eexists; reflexivity.
Qed.

(** The cells a row of the table gives for headers of the table: each is
    a string, or the prototype in a column named [__proto__]. *)
Lemma row_cells (values headers hs : list jsstring) :
  incl hs headers ->
  exists cells,
    res_map (table_cell (VObj (fill_row values headers 0 []))) (map VStr hs)
    = Ok cells
    /\ Forall printable_cell cells.
Proof.
  intros _. induction hs as [|h hs [cells [Hcells Hprintable]]].
  - exists []. split; [reflexivity|constructor].
  - assert (Hcell : exists c,
               table_cell (VObj (fill_row values headers 0 [])) (VStr h) = Ok c
               /\ printable_cell c).
    { unfold table_cell, get_keyed. cbn [ToString res_bind].
      destruct (str_eqb h (js "__proto__")
                && negb (has_own (fill_row values headers 0 []) h)).
      - exists Object_prototype. split; [reflexivity|right; reflexivity].
      - rewrite object_get. cbn [res_bind]. eexists. split; [reflexivity|].
        left. unfold field.
        destruct (own_get (fill_row values headers 0 []) h) as [v|] eqn:E;
          [|reflexivity].
        apply own_get_In in E. apply fill_row_In in E.
        destruct E as [[]|[_ Hv]]. simpl in Hv.
        destruct v; try discriminate. unfold or_else.
        destruct (truthy _); reflexivity. }
    destruct Hcell as [c [Hc Hp]].
    exists (c :: cells). split; [|constructor; assumption].
    cbn [map res_map]. rewrite Hc. cbn [res_bind]. rewrite Hcells.
    reflexivity.
Qed.

(** The table of a delimited body is always rendered. *)
Lemma table_markdown_total (hs : list jsstring) (rows : list obj) :
  Forall (row_of hs) rows ->
  exists text,
    table_markdown (VArr (map VStr hs)) (VArr (map VObj rows)) = Ok text.
Proof.
  intros Hrows. unfold table_markdown. cbn [as_array res_bind].
  rewrite (array_join_strings _ _ (map_VStr_strings hs)). cbn [res_bind].
  assert (Hlines : exists lines,
    res_map (fun row =>
               (cells <- res_map (table_cell row) (map VStr hs) ;;
                line <- array_join (js " | ") cells ;;
                Ok (js "| " ++ line ++ js " |"))%res) (map VObj rows)
    = Ok lines).
  { induction Hrows as [|row rows [values ->] _ [lines Hlines]].
    - exists []. reflexivity.
    - destruct (@row_cells values hs hs (incl_refl hs))
        as [cells [Hcells Hprintable]].
      destruct (array_join_cells (js " | ") Hprintable) as [line Hline].
      eexists. cbn [map res_map]. rewrite Hcells. cbn [res_bind].
      rewrite Hline. cbn [res_bind]. rewrite Hlines. reflexivity. }
  destruct Hlines as [lines Hlines]. rewrite Hlines.
  eexists. reflexivity.
Qed.

Lemma get_table (hs : list jsstring) (rows : list obj) :
  get (table hs rows) (js "headers") = Ok (VArr (map VStr hs))
  /\ get (table hs rows) (js "rows") = Ok (VArr (map VObj rows)).
Proof. split; reflexivity. Qed.

Lemma length_text_array (xs : list value) :
  length_text (VArr xs)
  = Ok (Number_toString (Int (Z.of_nat (List.length xs)))).
Proof. reflexivity. Qed.

(** What normalising a text body gives in a format other than JSON. *)
Lemma parse_text_body (JSON_parse : jsstring -> option value)
    (text : jsstring) (format : Format) :
  format <> json ->
  (format = txt
   /\ parseResponse JSON_parse (VStr text) format
      = Ok (VArr (map VStr (filter nonblank (split LF text)))))
  \/ ((format = csv \/ format = tsv)
      /\ exists hs rows,
           parseResponse JSON_parse (VStr text) format = Ok (table hs rows)
           /\ Forall (row_of hs) rows).
Proof.
  intros Hfmt. destruct format; [left; split; reflexivity|tauto| |].
  - right. split; [auto|].
    eexists. eexists. split.
    + apply (@parse_delimited JSON_parse text csv). auto.
    + apply Forall_forall. intros row Hin. apply in_map_iff in Hin.
      destruct Hin as [line [<- _]]. eexists. reflexivity.
  - right. split; [auto|].
    eexists. eexists. split.
    + apply (@parse_delimited JSON_parse text tsv). auto.
    + apply Forall_forall. intros row Hin. apply in_map_iff in Hin.
      destruct Hin as [line [<- _]]. eexists. reflexivity.
Qed.

Lemma rendered_text_body (JSON_parse : jsstring -> option value)
    (JSON_stringify : value -> option jsstring)
    (call : Invocation) (text : jsstring) :
  format_of call <> json ->
  exists parsed textContent,
    parseResponse JSON_parse (VStr text) (format_of call) = Ok parsed
    /\ rendered JSON_stringify call parsed = Ok textContent.
Proof.
  intros Hfmt.
  destruct (parse_text_body JSON_parse text Hfmt)
    as [[Htxt Hparse]|[Hdel [hs [rows [Hparse Hrows]]]]].
  - eexists. cut (exists textContent,
                    rendered JSON_stringify call
                      (VArr (map VStr (filter nonblank (split LF text))))
                    = Ok textContent).
    { intros [textContent H]. exists textContent.
      split; [exact Hparse|exact H]. }
    destruct call as [p|p|p|p]; cbn [format_of rendered] in Htxt |- *;
      rewrite Htxt;
      unfold formatKeywordsResponse, formatDomainResponse,
        formatComparisonResponse;
      rewrite (array_join_strings _ _ (map_VStr_strings _));
      eexists; reflexivity.
  - exists (table hs rows).
    cut (exists textContent,
           rendered JSON_stringify call (table hs rows) = Ok textContent).
    { intros [textContent H]. exists textContent.
      split; [exact Hparse|exact H]. }
    destruct (table_markdown_total Hrows) as [t Htable].
    destruct (get_table hs rows) as [Hh Hr].
    destruct call as [p|p|p|p]; cbn [format_of rendered] in Hdel |- *;
      unfold formatKeywordsResponse, formatDomainResponse,
        formatComparisonResponse;
      destruct Hdel as [-> | ->]; rewrite Hh; cbn [res_bind truthy];
      rewrite Hr; cbn [res_bind truthy]; rewrite length_text_array;
      cbn [res_bind]; rewrite Htable; eexists; reflexivity.
Qed.

(** A column named [__proto__]: the row loop cannot store its cell, and
    the table shows the prototype of the row in its place. *)
Example proto_column_shows_the_prototype :
  parseResponse example_JSON_parse
    (VStr (js "__proto__;b" ++ [LF] ++ js "1;2")) csv
  = Ok (table [js "__proto__"; js "b"] [[(js "b", VStr (js "2"))]])
  /\ table_markdown (VArr [VStr (js "__proto__"); VStr (js "b")])
       (VArr [VObj [(js "b", VStr (js "2"))]])
     = Ok (js "| __proto__ | b |" ++ [LF] ++ js "|---|---|" ++ [LF]
           ++ js "| [object Object] | 2 |").
Proof. split; vm_compute; reflexivity. Qed.

(** X9.  In the text and the delimited formats a text body is always
    normalised and rendered: when the upstream answers a data call with a
    string, the handler resolves with the displayed text and the
    structured payload, never with the message of an exception. *)
Theorem text_body_always_renders
    (BUKVARIX_API_KEY : option jsstring)
    (JSON_parse : jsstring -> option value)
    (JSON_stringify : value -> option jsstring)
    (axios : AxiosConfig -> settled) (call : Invocation) (c : AxiosConfig)
    (text : jsstring) :
  format_of call <> json ->
  count_only call = false ->
  first_request (handle BUKVARIX_API_KEY JSON_parse JSON_stringify call)
    = Some c ->
  axios c = Fulfilled (VStr text) ->
  exists parsed textContent,
    parseResponse JSON_parse (VStr text) (format_of call) = Ok parsed
    /\ rendered JSON_stringify call parsed = Ok textContent
    /\ run axios (handle BUKVARIX_API_KEY JSON_parse JSON_stringify call)
       = Resolves (mkResult [text_item (display_text textContent)]
                     (Some (payload call parsed))).
Proof.
  intros Hfmt Hcount Hreq Hax.
  destruct (@rendered_text_body JSON_parse JSON_stringify call text Hfmt)
    as [parsed [textContent [Hparse Hrender]]].
  exists parsed, textContent. split; [exact Hparse|]. split; [exact Hrender|].
  eapply run_fulfilled; eassumption.
Qed.

Lemma text_body_always_renders_witness :
  exists parsed textContent,
    parseResponse example_JSON_parse (VStr table_body) (format_of table_call)
    = Ok parsed
    /\ rendered example_JSON_stringify table_call parsed = Ok textContent
    /\ run (fun _ => Fulfilled (VStr table_body)) (example_handle table_call)
       = Resolves (mkResult [text_item (display_text textContent)]
                     (Some (payload table_call parsed))).
Proof.
  apply (@text_body_always_renders None example_JSON_parse
           example_JSON_stringify (fun _ => Fulfilled (VStr table_body))
           table_call
           (mkConfig POST (js "http://api.bukvarix.com/v1/mkeywords/") None
              (Some (js "api_key=free&q=a&num=250&format=csv"))
              [(js "Content-Type", js "application/x-www-form-urlencoded")]
              30000)
           table_body).
  - discriminate.
  - reflexivity.
  - reflexivity.
  - reflexivity.
Defined.

(** ** Requests, continued *)

(** X10.  A batch search issues exactly one request whatever its
    arguments: a POST to the batch endpoint whose form holds the
    credential, the queries joined by CRLF as they were given (they are
    not percent-encoded before the form serialisation), the exclusions
    joined the same way only when that text is not empty, the row count
    and the format. *)
Theorem batch_request
    (BUKVARIX_API_KEY : option jsstring)
    (JSON_parse : jsstring -> option value)
    (JSON_stringify : value -> option jsstring)
    (axios : AxiosConfig -> settled) (params : SearchKeywordsBatchInput) :
  requests axios
    (handle BUKVARIX_API_KEY JSON_parse JSON_stringify
       (SearchKeywordsBatch params))
  = [mkConfig POST (API_BASE_URL ++ js "/v1/mkeywords/") None
       (Some (URLSearchParams_toString
                (batch_form (API_KEY BUKVARIX_API_KEY) params)))
       FORM_HEADERS 30000].
Proof.
  apply handle_requests.
  unfold handle, searchKeywordsBatch, batch_form.
  destruct params as [queries exclusions num format].
  cbn [sb_queries sb_exclusions sb_num sb_format].
  destruct exclusions as [exclusions|]; [|reflexivity].
  destruct (join [CR; LF] exclusions); reflexivity.
Qed.

Lemma encode_error (s message : jsstring) :
  encodePercentEncoding s = Err message -> message = URIError_malformed.
Proof.
  unfold encodePercentEncoding. revert message.
  induction s as [s IH] using (induction_ltof1 _ (@List.length N)).
  unfold ltof in IH. intros message. destruct s as [|c r]; [discriminate|].
  cbn [encodeURIComponent].
  destruct (uri_unreserved c).
  - destruct (encodeURIComponent r) eqn:E; [discriminate|].
    intros H; injection H as <-. apply (IH r); [simpl; lia|exact E].
  - destruct (is_low_surrogate c); [congruence|].
    destruct (is_high_surrogate c).
    + destruct r as [|d r']; [congruence|].
      destruct (is_low_surrogate d); [|congruence].
      destruct (encodeURIComponent r') eqn:E; [discriminate|].
      intros H; injection H as <-. apply (IH r'); [simpl; lia|exact E].
    + destruct (encodeURIComponent r) eqn:E; [discriminate|].
      intros H; injection H as <-. apply (IH r); [simpl; lia|exact E].
Qed.

Lemma encode_list_error (ds : list jsstring) (message : jsstring) :
  encoded_domain_list ds = Err message -> message = URIError_malformed.
Proof.
  unfold encoded_domain_list.
  assert (H : forall m, res_map encodePercentEncoding ds = Err m ->
                        m = URIError_malformed).
  { induction ds as [|d ds IH]; [discriminate|].
    intros m. cbn [res_map].
    destruct (encodePercentEncoding d) eqn:E.
    - cbn [res_bind]. destruct (res_map encodePercentEncoding ds);
        [discriminate|]. intros H; injection H as <-. apply IH. reflexivity.
    - intros H; injection H as <-. apply (encode_error _ E). }
  destruct (res_map encodePercentEncoding ds); [discriminate|].
  intros H0; injection H0 as <-. apply H. reflexivity.
Qed.

Lemma first_request_of_config
    (BUKVARIX_API_KEY : option jsstring) (endpoint : jsstring)
    (method : Method) (data params : option obj)
    (cont : value -> prog ToolResult) (c : AxiosConfig) :
  build_config BUKVARIX_API_KEY endpoint method data params = Ok c ->
  first_request
    (try_catch (bind (makeApiRequest BUKVARIX_API_KEY endpoint method data
                        params) cont) error_result)
  = Some c.
Proof. unfold makeApiRequest. intros ->. reflexivity. Qed.

Ltac request_made :=
  intros Hnone; exfalso;
  erewrite first_request_of_config in Hnone;
  [discriminate Hnone|try reflexivity].

(** X11.  The only way a handler answers without calling the upstream is
    the URIError of the percent-encoding: a handler that issues no request
    resolves with the text 'URI malformed' and nothing else. *)
Theorem no_request_means_malformed
    (BUKVARIX_API_KEY : option jsstring)
    (JSON_parse : jsstring -> option value)
    (JSON_stringify : value -> option jsstring)
    (axios : AxiosConfig -> settled) (call : Invocation) :
  first_request (handle BUKVARIX_API_KEY JSON_parse JSON_stringify call)
    = None ->
  run axios (handle BUKVARIX_API_KEY JSON_parse JSON_stringify call)
  = Resolves (text_only URIError_malformed).
Proof.
  unfold handle. destruct call as [p|p|p|p].
  - unfold searchKeywords.
    destruct (encodePercentEncoding (sk_query p)) as [e|m] eqn:E;
      cbn [lift bind].
    + request_made.
    + intros _. rewrite (encode_error _ E). reflexivity.
  - unfold searchKeywordsBatch.
    destruct p as [queries exclusions num format].
    cbn [sb_queries sb_exclusions sb_num sb_format].
    destruct exclusions as [exclusions|];
      [destruct (join [CR; LF] exclusions)|]; request_made.
  - unfold getDomainKeywords.
    destruct (encodePercentEncoding (gd_domain p)) as [e|m] eqn:E;
      cbn [lift bind].
    + request_made.
    + intros _. rewrite (encode_error _ E). reflexivity.
  - unfold compareDomains, compare_count_request, compare_data_request.
    destruct (cd_result_count p), (isTwoDomains (cd_domains p)).
    + destruct (encodePercentEncoding (domain_at (cd_domains p) 0))
        as [e0|m] eqn:E0; cbn [lift bind];
        [|intros _; rewrite (encode_error _ E0); reflexivity].
      destruct (encodePercentEncoding (domain_at (cd_domains p) 1))
        as [e1|m] eqn:E1; cbn [lift bind];
        [|intros _; rewrite (encode_error _ E1); reflexivity].
      request_made.
    + destruct (encoded_domain_list (cd_domains p)) as [e|m] eqn:E;
        cbn [lift bind];
        [|intros _; rewrite (encode_list_error _ E); reflexivity].
      destruct (cd_region p) as [[|c r]|]; request_made.
    + destruct (encodePercentEncoding (domain_at (cd_domains p) 0))
        as [e0|m] eqn:E0; cbn [lift bind];
        [|intros _; rewrite (encode_error _ E0); reflexivity].
      destruct (encodePercentEncoding (domain_at (cd_domains p) 1))
        as [e1|m] eqn:E1; cbn [lift bind];
        [|intros _; rewrite (encode_error _ E1); reflexivity].
      request_made.
    + destruct (encoded_domain_list (cd_domains p)) as [e|m] eqn:E;
        cbn [lift bind];
        [|intros _; rewrite (encode_list_error _ E); reflexivity].
      destruct (cd_region p) as [[|c r]|]; request_made.
Qed.

Lemma no_request_means_malformed_witness :
  run connection_refused (example_handle lone_surrogate_call)
  = Resolves (text_only URIError_malformed).
Proof.
  apply (@no_request_means_malformed None example_JSON_parse
           example_JSON_stringify connection_refused lone_surrogate_call).
  reflexivity.
Defined.

Lemma encode_unreserved (s : jsstring) :
  forallb uri_unreserved s = true -> encodePercentEncoding s = Ok s.
Proof.
  unfold encodePercentEncoding. induction s as [|c r IH]; [reflexivity|].
  cbn [forallb encodeURIComponent]. intros H. apply andb_prop in H.
  destruct H as [Hc Hr]. rewrite Hc, (IH Hr). reflexivity.
Qed.

Lemma z_num_valid (v : value) (n : Z) :
  z_num v = Some n -> (1 <= n <= MAX_NUM)%Z.
Proof.
  destruct v as [| |b|[z| |x]|s|xs|ps]; simpl; try discriminate.
  - intros H; injection H as <-. unfold DEFAULT_NUM, MAX_NUM. lia.
  - destruct ((1 <=? z)%Z && (z <=? MAX_NUM)%Z) eqn:E; [|discriminate].
    intros H; injection H as <-. apply andb_prop in E. lia.
Qed.

Lemma z_region_valid (v : value) (region : option jsstring) (r : jsstring) :
  z_region v = Some region -> region = Some r -> In r REGION_KEYS.
Proof.
  destruct v as [| |b|n|s|xs|ps]; unfold z_region; try discriminate.
  - intros H; injection H as <-. discriminate.
  - destruct (existsb (str_eqb s) REGION_KEYS) eqn:E; [|discriminate].
    intros H; injection H as <-. intros H; injection H as <-.
    apply existsb_exists in E. destruct E as [k [Hin Hk]].
    revert Hk. destruct (str_eqb_spec s k) as [->|_];
      [intros _; exact Hin|discriminate].
Qed.

(** X12.  A domain lookup whose arguments passed validation always
    reaches the upstream: the domain pattern admits no surrogate, so the
    percent-encoding cannot throw, and the one request is a GET to the
    lookup endpoint with the encoded domain, the row count (between 1 and
    the maximum), the format, the count flag as 0 or 1, the region when
    one was given (a key of the region table), and the credential last.
    A domain of Latin letters, digits, dots and hyphens is sent
    unchanged. *)
Theorem validated_lookup_request
    (BUKVARIX_API_KEY : option jsstring)
    (JSON_parse : jsstring -> option value)
    (JSON_stringify : value -> option jsstring)
    (axios : AxiosConfig -> settled)
    (raw : value) (params : GetDomainKeywordsInput) :
  GetDomainKeywordsSchema raw = Some params ->
  exists q,
    encodePercentEncoding (gd_domain params) = Ok q
    /\ requests axios
         (handle BUKVARIX_API_KEY JSON_parse JSON_stringify
            (GetDomainKeywords params))
       = [mkConfig GET (API_BASE_URL ++ js "/v1/site/")
            (Some (lookup_params (API_KEY BUKVARIX_API_KEY) q params))
            None [] 30000]
    /\ (1 <= gd_num params <= MAX_NUM)%Z
    /\ (forall r, gd_region params = Some r -> In r REGION_KEYS)
    /\ (forallb uri_unreserved (gd_domain params) = true ->
        q = gd_domain params).
Proof.
  unfold GetDomainKeywordsSchema.
  destruct raw as [| |b|n|s|xs|o]; try discriminate.
  destruct (strict_keys _ o); [|discriminate].
  destruct (z_domain (field o (js "domain"))) as [d|] eqn:Ed; [|discriminate].
  destruct (z_region (field o (js "region"))) as [region|] eqn:Er;
    [|discriminate].
  destruct (z_num (field o (js "num"))) as [num|] eqn:En; [|discriminate].
  destruct (z_format _) as [format|]; [|discriminate].
  destruct (z_bool _) as [rc|]; [|discriminate].
  intros H; injection H as <-.
  cbn [gd_domain gd_num gd_region].
  destruct (encode_domain _ (z_domain_valid _ Ed)) as [q Hq].
  exists q. split; [exact Hq|]. split; [|split; [|split]].
  - apply handle_requests. unfold handle, getDomainKeywords, lookup_params.
    cbn [gd_domain gd_num gd_region gd_format gd_result_count].
    rewrite Hq. destruct region as [[|c r]|]; reflexivity.
  - apply (z_num_valid _ En).
  - intros r Hr. apply (z_region_valid _ Er Hr).
  - intros Hplain. rewrite (encode_unreserved _ Hplain) in Hq. congruence.
Qed.

Lemma validated_lookup_request_witness :
  exists q,
    encodePercentEncoding (js "example.com") = Ok q
    /\ requests connection_refused
         (example_handle
            (GetDomainKeywords
               (mkGetDomainKeywordsInput (js "example.com") (Some (js "msk"))
                  250 json false)))
       = [mkConfig GET (API_BASE_URL ++ js "/v1/site/")
            (Some (lookup_params (js "free") q
                     (mkGetDomainKeywordsInput (js "example.com")
                        (Some (js "msk")) 250 json false)))
            None [] 30000]
    /\ q = js "example.com".
Proof.
  destruct (@validated_lookup_request None example_JSON_parse
              example_JSON_stringify connection_refused lookup_arguments
              (mkGetDomainKeywordsInput (js "example.com") (Some (js "msk"))
                 250 json false) eq_refl)
    as [q [Hq [Hreq [_ [_ Hplain]]]]].
  exists q. split; [exact Hq|]. split; [exact Hreq|].
  apply Hplain. reflexivity.
Defined.

(** ** Validation *)

Lemma z_array_valid {B} (item : value -> option B) (Q : B -> Prop)
    (lo hi : nat) (v : value) (ys : list B) :
  (forall x y, item x = Some y -> Q y) ->
  z_array item lo hi v = Some ys ->
  Forall Q ys /\ (lo <= List.length ys <= hi)%nat.
Proof.
  intros Hitem. unfold z_array. destruct v as [| |b|n|s|xs|ps]; try discriminate.
  destruct ((lo <=? List.length xs)%nat && (List.length xs <=? hi)%nat)
    eqn:Elen; [|discriminate].
  intros H. apply andb_prop in Elen. destruct Elen as [Hlo Hhi].
  apply Nat.leb_le in Hlo. apply Nat.leb_le in Hhi.
  destruct (option_map_all_Forall item Q xs Hitem H) as [Hall Hlen].
  split; [exact Hall|lia].
Qed.

Lemma z_nonempty_string_valid (v : value) (s : jsstring) :
  z_nonempty_string v = Some s -> s <> [].
Proof.
  destruct v as [| |b|n|[|c r]|xs|ps]; simpl; try discriminate.
  intros H; injection H as <-. discriminate.
Qed.

Lemma join_nonempty (sep x : jsstring) (xs : list jsstring) :
  x <> [] -> join sep (x :: xs) <> [].
Proof.
  destruct x as [|c r]; [congruence|]. intros _.
  destruct xs; simpl; discriminate.
Qed.

(** X13.  A batch search whose arguments passed validation has between 1
    and 100 queries and at most 250 exclusions, none of them empty, and a
    row count between 1 and the maximum; for such a call the form holds
    the field [q2] exactly when the list of exclusions was given and is
    not empty. *)
Theorem validated_batch_form (key : jsstring) (raw : value)
    (params : SearchKeywordsBatchInput) :
  SearchKeywordsBatchSchema raw = Some params ->
  (1 <= List.length (sb_queries params) <= MAX_QUERIES_FREE)%nat
  /\ Forall (fun q => q <> []) (sb_queries params)
  /\ (forall exclusions,
        sb_exclusions params = Some exclusions ->
        (List.length exclusions <= MAX_EXCLUSIONS_FREE)%nat
        /\ Forall (fun e => e <> []) exclusions)
  /\ (1 <= sb_num params <= MAX_NUM)%Z
  /\ batch_form key params
     = (js "api_key", key)
       :: (js "q", join [CR; LF] (sb_queries params))
       :: match sb_exclusions params with
          | Some (e :: rest) => [(js "q2", join [CR; LF] (e :: rest))]
          | _ => []
          end
       ++ [(js "num", Z_toString (sb_num params));
           (js "format", Format_str (sb_format params))].
Proof.
  unfold SearchKeywordsBatchSchema.
  destruct raw as [| |b|n|s|xs|o]; try discriminate.
  destruct (strict_keys _ o); [|discriminate].
  destruct (z_array z_nonempty_string 1 MAX_QUERIES_FREE
              (field o (js "queries"))) as [qs|] eqn:Eq; [|discriminate].
  destruct (match field o (js "exclusions") with
            | VUndef => Some None
            | e => option_map Some
                     (z_array z_nonempty_string 0 MAX_EXCLUSIONS_FREE e)
            end) as [ex|] eqn:Ex; [|discriminate].
  assert (Hex : forall exclusions, ex = Some exclusions ->
                  (List.length exclusions <= MAX_EXCLUSIONS_FREE)%nat
                  /\ Forall (fun e => e <> []) exclusions).
  { intros exclusions ->.
    destruct (field o (js "exclusions")) as [| |b|n|s|l|ps] eqn:Ef;
      try discriminate; cbn [option_map] in Ex; try discriminate.
    destruct (z_array z_nonempty_string 0 MAX_EXCLUSIONS_FREE (VArr l))
      as [ys|] eqn:Ey; [|discriminate].
    cbn [option_map] in Ex. injection Ex as ->.
    destruct (z_array_valid z_nonempty_string (fun e => e <> []) 0
                MAX_EXCLUSIONS_FREE (VArr l) z_nonempty_string_valid Ey)
      as [Hall Hlen].
    split; [lia|exact Hall]. }
  destruct (z_num (field o (js "num"))) as [num|] eqn:En; [|discriminate].
  destruct (z_format _) as [format|]; [|discriminate].
  intros H; injection H as <-. cbn [sb_queries sb_exclusions sb_num sb_format].
  destruct (z_array_valid z_nonempty_string (fun q => q <> []) 1
              MAX_QUERIES_FREE (field o (js "queries"))
              z_nonempty_string_valid Eq) as [Hall Hlen].
  split; [exact Hlen|]. split; [exact Hall|]. split; [exact Hex|].
  split; [apply (z_num_valid _ En)|].
  unfold batch_form. cbn [sb_queries sb_exclusions sb_num sb_format].
  destruct ex as [[|e rest]|]; [reflexivity| |reflexivity].
  destruct (Hex (e :: rest) eq_refl) as [_ Hne].
  inversion Hne as [|? ? He _]; subst.
  destruct (join [CR; LF] (e :: rest)) eqn:Ej; [|reflexivity].
  exfalso. apply (@join_nonempty [CR; LF] e rest He Ej).
Qed.

Lemma validated_batch_form_witness :
  batch_form (js "free")
    (mkSearchKeywordsBatchInput [js "a"; js "b"] (Some []) 250 json)
  = [(js "api_key", js "free");
     (js "q", js "a" ++ [CR; LF] ++ js "b");
     (js "num", js "250");
     (js "format", js "json")].
Proof.
  destruct (@validated_batch_form (js "free") batch_arguments
              (mkSearchKeywordsBatchInput [js "a"; js "b"] (Some []) 250 json)
              eq_refl) as [_ [_ [_ [_ Hform]]]].
  rewrite Hform. reflexivity.
Defined.

Lemma strict_keys_unknown (allowed : list jsstring) (o : obj) (k : jsstring) :
  In k (map fst o) -> ~ In k allowed -> strict_keys allowed o = false.
Proof.
  intros Hin Hunknown. unfold strict_keys.
  destruct (forallb _ o) eqn:E; [|reflexivity]. exfalso.
  rewrite forallb_forall in E. apply in_map_iff in Hin.
  destruct Hin as [kv [<- Hkv]]. specialize (E kv Hkv).
  apply existsb_exists in E. destruct E as [a [Ha Heq]].
  apply Hunknown. revert Heq.
  destruct (str_eqb_spec (fst kv) a) as [->|_]; [intros _; exact Ha|discriminate].
Qed.

(** X14.  The schemas are strict: arguments that are not an object, or an
    object with a property whose name the tool does not declare, are
    refused for every tool, whatever the other properties hold; no
    invocation is built from them. *)
Theorem unknown_argument_rejected (tool : Tool) (raw : value) :
  (forall o, raw = VObj o ->
             exists k, In k (map fst o) /\ ~ In k (schema_keys tool)) ->
  validate tool raw = None.
Proof.
  intros H. destruct raw as [| |b|n|s|xs|o];
    try (destruct tool; reflexivity).
  destruct (H o eq_refl) as [k [Hin Hunknown]].
  pose proof (strict_keys_unknown (schema_keys tool) o k Hin Hunknown) as E.
  destruct tool; cbn [schema_keys] in E;
    unfold validate, SearchKeywordsSchema, SearchKeywordsBatchSchema,
      GetDomainKeywordsSchema, CompareDomainsSchema;
    rewrite E; reflexivity.
Qed.

Lemma unknown_argument_rejected_witness :
  validate bukvarix_search_keywords
    (VObj [(js "query", VStr (js "a")); (js "limit", VNum (Int 10))])
  = None.
Proof.
  apply unknown_argument_rejected.
  intros o H. injection H as <-. exists (js "limit"). split.
  - simpl. right. left. reflexivity.
  - apply not_in_keys. reflexivity.
Defined.

(** ** Elements the formatters cannot read *)

Lemma res_mapi_fails {A B} (f : nat -> A -> res B) (x : A) (xs : list A) :
  (forall i, exists message, f i x = Err message) ->
  In x xs ->
  forall i, exists message, res_mapi f i xs = Err message.
Proof.
  intros Hx. induction xs as [|y ys IH]; intros Hin i; [destruct Hin|].
  cbn [res_mapi]. destruct Hin as [->|Hin].
  - destruct (Hx i) as [m Hm]. rewrite Hm. exists m. reflexivity.
  - destruct (f i y) as [b|m]; [|exists m; reflexivity].
    cbn [res_bind]. destruct (IH Hin (S i)) as [m Hm]. rewrite Hm.
    exists m. reflexivity.
Qed.

Lemma rendered_null_element (JSON_stringify : value -> option jsstring)
    (call : Invocation) (xs : list value) :
  format_of call = json -> In VNull xs ->
  exists message, rendered JSON_stringify call (VArr xs) = Err message.
Proof.
  intros Hfmt Hin.
  destruct call as [p|p|p|p]; cbn [format_of rendered] in Hfmt |- *;
    rewrite Hfmt;
    unfold formatKeywordsResponse, formatDomainResponse,
      formatComparisonResponse.
  - destruct (res_mapi_fails keywords_line VNull xs) with (i := 0%nat)
      as [m Hm]; [intros i; eexists; reflexivity|exact Hin|].
    rewrite Hm. exists m. reflexivity.
  - destruct (res_mapi_fails keywords_line VNull xs) with (i := 0%nat)
      as [m Hm]; [intros i; eexists; reflexivity|exact Hin|].
    rewrite Hm. exists m. reflexivity.
  - destruct (res_mapi_fails domain_line VNull xs) with (i := 0%nat)
      as [m Hm]; [intros i; eexists; reflexivity|exact Hin|].
    rewrite Hm. exists m. reflexivity.
  - destruct (res_mapi_fails comparison_line VNull xs) with (i := 0%nat)
      as [m Hm]; [intros i; eexists; reflexivity|exact Hin|].
    rewrite Hm. exists m. reflexivity.
Qed.

Lemma run_render_error
    (BUKVARIX_API_KEY : option jsstring)
    (JSON_parse : jsstring -> option value)
    (JSON_stringify : value -> option jsstring)
    (axios : AxiosConfig -> settled) (call : Invocation) (c : AxiosConfig)
    (response parsed : value) (message : jsstring) :
  first_request (handle BUKVARIX_API_KEY JSON_parse JSON_stringify call)
    = Some c ->
  axios c = Fulfilled response ->
  count_only call = false ->
  parseResponse JSON_parse response (format_of call) = Ok parsed ->
  rendered JSON_stringify call parsed = Err message ->
  run axios (handle BUKVARIX_API_KEY JSON_parse JSON_stringify call)
    = Resolves (text_only message).
Proof.
  intros Hreq Hax Hcount Hparse Hfmt.
  destruct (first_request_run axios _ Hreq) as [k [Hk Hrun]].
  rewrite Hrun, Hax, (handle_await _ _ _ _ Hk).
  unfold after_response. rewrite Hcount, Hparse. cbn [lift bind].
  rewrite Hfmt. reflexivity.
Qed.

(** X15.  One [null] among the elements of a JSON array costs the whole
    answer: the formatter reads a property of every element, the read
    throws on [null], and the handler resolves with the message of that
    exception alone, without any rendered line and without structured
    content, although the body was normalised. *)
Theorem null_element_drops_result
    (BUKVARIX_API_KEY : option jsstring)
    (JSON_parse : jsstring -> option value)
    (JSON_stringify : value -> option jsstring)
    (axios : AxiosConfig -> settled) (call : Invocation) (c : AxiosConfig)
    (xs : list value) :
  format_of call = json ->
  count_only call = false ->
  In VNull xs ->
  first_request (handle BUKVARIX_API_KEY JSON_parse JSON_stringify call)
    = Some c ->
  axios c = Fulfilled (VArr xs) ->
  parseResponse JSON_parse (VArr xs) (format_of call) = Ok (VArr xs)
  /\ exists message,
       rendered JSON_stringify call (VArr xs) = Err message
       /\ run axios (handle BUKVARIX_API_KEY JSON_parse JSON_stringify call)
          = Resolves (text_only message).
Proof.
  intros Hfmt Hcount Hin Hreq Hax.
  assert (Hparse : parseResponse JSON_parse (VArr xs) (format_of call)
                   = Ok (VArr xs)) by (rewrite Hfmt; reflexivity).
  split; [exact Hparse|].
  destruct (@rendered_null_element JSON_stringify call xs Hfmt Hin)
    as [message Hrender].
  exists message. split; [exact Hrender|].
  eapply run_render_error; eassumption.
Qed.

Lemma null_element_drops_result_witness :
  exists message,
    rendered example_JSON_stringify (SearchKeywords example_params)
      (VArr [VArr [VStr okna_plastikovye]; VNull])
    = Err message
    /\ run (fun _ => Fulfilled (VArr [VArr [VStr okna_plastikovye]; VNull]))
         (example_handle (SearchKeywords example_params))
       = Resolves (text_only message).
Proof.
  destruct (@null_element_drops_result None example_JSON_parse
              example_JSON_stringify
              (fun _ => Fulfilled (VArr [VArr [VStr okna_plastikovye]; VNull]))
              (SearchKeywords example_params) example_config
              [VArr [VStr okna_plastikovye]; VNull]
              eq_refl eq_refl (or_intror (or_introl eq_refl)) eq_refl eq_refl)
    as [_ H].
  exact H.
Defined.

(** ** The form body keeps its fields apart *)

Lemma hex_digit_plain (d : N) :
  hex_digit d <> AMPERSAND /\ hex_digit d <> EQUALS_SIGN.
Proof.
  unfold hex_digit, AMPERSAND, EQUALS_SIGN.
  destruct (N.ltb_spec d 10); lia.
Qed.

Lemma form_byte_plain (b c : N) :
  In c (form_byte b) -> c <> AMPERSAND /\ c <> EQUALS_SIGN.
Proof.
  unfold form_byte, AMPERSAND, EQUALS_SIGN.
  destruct (N.eqb b 32).
  - intros [<-|[]]. lia.
  - destruct (is_alnum b || existsb (N.eqb b) [42; 45; 46; 95]%N) eqn:E.
    + intros [<-|[]]. split; intros ->; vm_compute in E; discriminate.
    + unfold percent_byte. intros [<-|[<-|[<-|[]]]];
        [lia|apply hex_digit_plain|apply hex_digit_plain].
Qed.

Lemma form_encode_plain (s : jsstring) :
  ~ In AMPERSAND (form_encode s) /\ ~ In EQUALS_SIGN (form_encode s).
Proof.
  unfold form_encode. split; intros H; apply in_flat_map in H;
    destruct H as [b [_ Hb]]; destruct (form_byte_plain _ _ Hb); congruence.
Qed.

Lemma form_entry_plain (kv : jsstring * jsstring) :
  ~ In AMPERSAND (form_entry kv).
Proof.
  unfold form_entry. intros H. apply in_app_or in H.
  destruct H as [H|[H|H]].
  - apply (proj1 (form_encode_plain (fst kv)) H).
  - discriminate H.
  - apply (proj1 (form_encode_plain (snd kv)) H).
Qed.

(** X16.  The body of a POST keeps its fields apart whatever characters
    the data holds: cutting the body at every ampersand gives back exactly
    one serialised field for the credential and one per entry of the data,
    in order, and cutting a field at the equals sign gives exactly its
    encoded name and its encoded value.  No value can add or split a
    field. *)
Theorem form_body_fields
    (BUKVARIX_API_KEY : option jsstring) (endpoint : jsstring)
    (data : obj) (params : option obj) (c : AxiosConfig) :
  build_config BUKVARIX_API_KEY endpoint POST (Some data) params = Ok c ->
  exists fields body,
    form_fields data = Ok fields
    /\ map fst fields = map fst data
    /\ cfg_data c = Some body
    /\ split AMPERSAND body
       = map form_entry ((js "api_key", API_KEY BUKVARIX_API_KEY) :: fields)
    /\ forall kv,
         split EQUALS_SIGN (form_entry kv)
         = [form_encode (fst kv); form_encode (snd kv)].
Proof.
  unfold build_config.
  destruct (form_fields data) as [fields|m] eqn:E; [|discriminate].
  cbn [res_bind]. intros H; injection H as <-.
  exists fields. eexists. split; [reflexivity|]. split; [|split; [reflexivity|split]].
  - clear -E. revert fields E. unfold form_fields.
    induction data as [|[k v] data IH]; intros fields E.
    + injection E as <-. reflexivity.
    + cbn [res_map] in E. destruct (form_field (snd (k, v))); [|discriminate].
      cbn [res_bind] in E.
      destruct (res_map _ data) as [fs|]; [|discriminate].
      injection E as <-. cbn [map fst]. rewrite (IH fs eq_refl). reflexivity.
  - unfold URLSearchParams_toString.
    change (fun kv : jsstring * jsstring =>
              form_encode (fst kv) ++ [61%N] ++ form_encode (snd kv))
      with form_entry.
    change [38%N] with [AMPERSAND].
    apply split_join; [discriminate|].
    apply Forall_forall. intros p Hp. apply in_map_iff in Hp.
    destruct Hp as [kv [<- _]]. apply form_entry_plain.
  - intros kv. unfold form_entry.
    change (form_encode (fst kv) ++ [EQUALS_SIGN] ++ form_encode (snd kv))
      with (form_encode (fst kv) ++ EQUALS_SIGN :: form_encode (snd kv)).
    rewrite split_app_sep by apply form_encode_plain.
    rewrite split_no_sep by apply form_encode_plain. reflexivity.
Qed.

Lemma form_body_fields_witness :
  exists fields body,
    form_fields [(js "q", VStr (js "a&b=c"))] = Ok fields
    /\ map fst fields = [js "q"]
    /\ Some (js "api_key=free&q=a%26b%3Dc") = Some body
    /\ split AMPERSAND body
       = map form_entry [(js "api_key", js "free"); (js "q", js "a&b=c")]
    /\ split EQUALS_SIGN (form_entry (js "q", js "a&b=c"))
       = [js "q"; js "a%26b%3Dc"].
Proof.
  destruct (@form_body_fields None (js "/v1/mkeywords/")
              [(js "q", VStr (js "a&b=c"))] None
              (mkConfig POST (js "http://api.bukvarix.com/v1/mkeywords/") None
                 (Some (js "api_key=free&q=a%26b%3Dc"))
                 [(js "Content-Type", js "application/x-www-form-urlencoded")]
                 30000)
              eq_refl)
    as [fields [body [Hfields [Hkeys [Hdata [Hsplit Hentry]]]]]].
  exists fields, body. split; [exact Hfields|]. split; [exact Hkeys|].
  split; [exact Hdata|]. split.
  - rewrite Hsplit. injection Hfields as <-. reflexivity.
  - apply (Hentry (js "q", js "a&b=c")).
Defined.

(** ** The payload of a comparison *)

Lemma own_get_obj_define_other (ps : obj) (k k' : jsstring) (v : value) :
  k' <> k -> own_get (obj_define ps k' v) k = own_get ps k.
Proof.
  intros Hne. unfold obj_define. destruct (has_own ps k').
  - apply own_get_obj_replace_other, Hne.
  - apply own_get_obj_insert_other, Hne.
Qed.

Lemma own_get_spread (ps into : obj) (k : jsstring) :
  NoDup (map fst ps) ->
  own_get (fold_left (fun o kv => obj_define o (fst kv) (snd kv)) ps into) k
  = match own_get ps k with
    | Some v => Some v
    | None => own_get into k
    end.
Proof.
  revert into. induction ps as [|[k0 v0] ps IH]; intros into Hnd;
    [reflexivity|].
  cbn [map fst] in Hnd. inversion Hnd as [|? ? Hk0 Hnd']; subst.
  cbn [fold_left fst snd]. rewrite (IH _ Hnd'). cbn [own_get].
  destruct (str_eqb_spec k0 k) as [->|Hne].
  - rewrite (own_get_not_key _ _ Hk0). apply own_get_obj_define.
  - rewrite (own_get_obj_define_other _ _ Hne). reflexivity.
Qed.

Lemma index_key_injective (i j : nat) :
  N_toString (N.of_nat i) = N_toString (N.of_nat j) -> i = j.
Proof.
  intros E. apply (f_equal digits_value) in E.
  rewrite !digits_value_N_toString in E. lia.
Qed.

Lemma index_key_not_a_name (i : nat) (name : jsstring) :
  forallb is_digit name = false -> N_toString (N.of_nat i) <> name.
Proof.
  intros Hname E. unfold N_toString in E.
  rewrite <- E, uint_digits_are_digits in Hname. discriminate.
Qed.

(** The entries an array is spread into: its elements under their
    indices. *)
Lemma own_get_indexed (xs : list value) (start i : nat) :
  own_get (combine (map (fun n => N_toString (N.of_nat n))
                        (seq start (List.length xs))) xs)
          (N_toString (N.of_nat (start + i)))
  = nth_error xs i.
Proof.
  revert start i. induction xs as [|x xs IH]; intros start i.
  - destruct i; reflexivity.
  - cbn [List.length seq map combine own_get].
    destruct i as [|i].
    + rewrite Nat.add_0_r, str_eqb_refl. reflexivity.
    + rewrite str_eqb_neq
        by (intros E; apply index_key_injective in E; lia).
      replace (start + S i)%nat with (S start + i)%nat by lia.
      apply IH.
Qed.

Lemma indexed_keys_NoDup (xs : list value) (start : nat) :
  NoDup (map fst (combine (map (fun n => N_toString (N.of_nat n))
                               (seq start (List.length xs))) xs)).
Proof.
  revert start. induction xs as [|x xs IH]; intros start; [constructor|].
  cbn [List.length seq map combine fst]. constructor; [|apply IH].
  intros Hin. apply in_map_iff in Hin. destruct Hin as [[k v] [Hk Hin]].
  apply in_combine_l in Hin. apply in_map_iff in Hin.
  destruct Hin as [n [Hn Hseq]]. apply in_seq in Hseq.
  simpl in Hk. subst k. apply index_key_injective in Hn. lia.
Qed.

(** X17.  The structured content of a comparison always names the
    compared domains and the comparison type, whatever the normalised
    result is, in place of whatever that result holds under these two
    names.  Next to them it keeps every other property of an object
    result with its value and every element of an array result under its
    index; a result that is [null], [undefined], a boolean or a number
    contributes nothing. *)
Theorem comparison_payload_echo (params : CompareDomainsInput)
    (parsed : value) :
  exists o,
    payload (CompareDomains params) parsed = VObj o
    /\ own_get o (js "domains") = Some (domains_value (cd_domains params))
    /\ own_get o (js "comparison_type")
       = Some (VStr (ComparisonType_str (cd_comparison_type params)))
    /\ (forall ps k,
          parsed = VObj ps -> NoDup (map fst ps) ->
          k <> js "domains" -> k <> js "comparison_type" ->
          own_get o k = own_get ps k)
    /\ (forall xs i,
          parsed = VArr xs ->
          own_get o (N_toString (N.of_nat i)) = nth_error xs i)
    /\ (spreads_entries parsed = false ->
        o = [(js "domains", domains_value (cd_domains params));
             (js "comparison_type",
              VStr (ComparisonType_str (cd_comparison_type params)))]).
Proof.
  eexists. split; [reflexivity|]. split; [|split; [|split; [|split]]].
  - rewrite own_get_obj_define_other by discriminate.
    apply own_get_obj_define.
  - apply own_get_obj_define.
  - intros ps k -> Hnd Hd Hc.
    rewrite own_get_obj_define_other by congruence.
    rewrite own_get_obj_define_other by congruence.
    unfold obj_spread. cbn [spread_entries].
    rewrite (own_get_spread _ [] _ Hnd). destruct (own_get ps k); reflexivity.
  - intros xs i ->.
    rewrite own_get_obj_define_other
      by (apply not_eq_sym, index_key_not_a_name; reflexivity).
    rewrite own_get_obj_define_other
      by (apply not_eq_sym, index_key_not_a_name; reflexivity).
    unfold obj_spread. cbn [spread_entries].
    rewrite (own_get_spread _ [] _ (indexed_keys_NoDup xs 0)).
    pose proof (own_get_indexed xs 0 i) as E. cbn [Nat.add] in E.
    rewrite E. destruct (nth_error xs i); reflexivity.
  - intros Hkind.
    destruct parsed as [| |b|n|s|xs|ps]; try discriminate; reflexivity.
Qed.

Lemma comparison_payload_echo_witness :
  exists o,
    payload (CompareDomains two_domains)
      (VObj [(js "domains", VNull); (js "total", VNum (Int 3))])
    = VObj o
    /\ own_get o (js "domains") = Some (domains_value [js "a.com"; js "b.ru"])
    /\ own_get o (js "total") = Some (VNum (Int 3)).
Proof.
  destruct (comparison_payload_echo two_domains
              (VObj [(js "domains", VNull); (js "total", VNum (Int 3))]))
    as [o [Ho [Hdomains [_ [Hother _]]]]].
  exists o. split; [exact Ho|]. split; [exact Hdomains|].
  rewrite (Hother _ (js "total") eq_refl); [reflexivity| | |];
    [repeat constructor; simpl; intuition discriminate
    |discriminate|discriminate].
Defined.
